(** * Trade-decision engine: a shallow embedding of the gate pipeline

    The development follows the Python package module by module
    ([universe.py], [trade_filters.py], [strategy.py], [position_sizing.py],
    [portfolio_risk.py], [execution.py], [compliance.py],
    [trading_engine.py]).  Objects built by the [__init__] methods are
    records holding the attributes those methods set; mutable state objects
    are records threaded through the operations that mutate them.

    Numbers.  Python [float] values are modelled by exact rationals [Q]
    (rounding error, infinities and NaN are outside the model); Python [int]
    values by [Z].  A [datetime.date] is its proleptic ordinal ([Z]), so that
    [d - timedelta(days=n)] is [d - n]. *)

From Stdlib Require Import QArith Qround Qabs ZArith List String Ascii Bool Lia.
From Stdlib Require Import Lqa.
From stdpp Require Import base option gmap strings.
From stdpp Require Import sorting.

Import ListNotations.

(** * Python values shared by all modules *)

Inductive exn : Type :=
| ZeroDivisionError
| IndexError.

Inductive result (A : Type) : Type :=
| Ok (a : A)
| Raise (e : exn).

Arguments Ok {A} a.
Arguments Raise {A} e.

#[global] Instance result_ret : MRet result := fun _ a => Ok a.
#[global] Instance result_bind : MBind result := fun _ _ f m =>
  match m with
  | Ok a => f a
  | Raise e => Raise e
  end.

Definition is_ok {A : Type} (r : result A) : bool :=
  match r with
  | Ok _ => true
  | Raise _ => false
  end.

(** Comparisons of floats, as booleans. *)
Definition fle (x y : Q) : bool := Qle_bool x y.
Definition flt (x y : Q) : bool := negb (Qle_bool y x).
Definition fge (x y : Q) : bool := fle y x.
Definition fgt (x y : Q) : bool := flt y x.

(** [x / y] on floats raises [ZeroDivisionError] when [y] is zero. *)
Definition fdiv (x y : Q) : result Q :=
  if Qeq_bool y 0 then Raise ZeroDivisionError else Ok (x / y)%Q.

(** [int(x)] truncates toward zero. *)
Definition py_int (x : Q) : Z := Z.quot (Qnum x) (Zpos (Qden x)).

(** [round(x, 2)]: nearest multiple of 1/100, ties to the even neighbour. *)
Definition round_half_even (x : Q) : Z :=
  let f := Qfloor x in
  let r := (x - inject_Z f)%Q in
  if flt r (1 # 2) then f
  else if flt (1 # 2) r then (f + 1)%Z
  else if Z.even f then f else (f + 1)%Z.

Definition py_round2 (x : Q) : Q :=
  (inject_Z (round_half_even (x * 100)) / 100)%Q.

(** [max(a, b)] on ints. *)
Definition py_max (a b : Z) : Z := if (b >? a)%Z then b else a.

(** [str.upper()] on ASCII letters. *)
Definition ascii_upper (c : ascii) : ascii :=
  let n := nat_of_ascii c in
  if (97 <=? n)%nat && (n <=? 122)%nat then ascii_of_nat (n - 32) else c.

Fixpoint str_upper (s : string) : string :=
  match s with
  | EmptyString => EmptyString
  | String c s' => String (ascii_upper c) (str_upper s')
  end.

(** [datetime.date], [datetime.time] and [datetime.datetime].  Times are
    naive and compare as the tuple (hour, minute, second, microsecond). *)
Definition date : Type := Z.

Record time : Type := mk_time {
  hour : Z;
  minute : Z;
  second : Z;
  microsecond : Z
}.

Record datetime : Type := mk_datetime {
  dt_date : date;
  dt_time : time
}.

Definition time_cmp (a b : time) : comparison :=
  match (hour a ?= hour b)%Z with
  | Eq =>
      match (minute a ?= minute b)%Z with
      | Eq =>
          match (second a ?= second b)%Z with
          | Eq => (microsecond a ?= microsecond b)%Z
          | c => c
          end
      | c => c
      end
  | c => c
  end.

Definition time_ltb (a b : time) : bool :=
  match time_cmp a b with Lt => true | _ => false end.
Definition time_leb (a b : time) : bool :=
  match time_cmp a b with Gt => false | _ => true end.
Definition time_geb (a b : time) : bool := time_leb b a.

(** OHLCV bars.  A [pandas.DataFrame] of bars is the list of its rows, oldest
    first. *)
Record Bar : Type := mk_bar {
  open_ : Q;
  high : Q;
  low : Q;
  close : Q;
  volume : Q
}.

Definition DataFrame : Type := list Bar.

(** Reason strings.  Each constructor stands for one message of the source
    and carries the values the message interpolates; the rendering of the
    numbers is not modelled. *)
Inductive Reason : Type :=
| ROk                                     (* "ok" *)
| RMarketClosed                           (* "market closed or session not tradeable" *)
| RMacroBlackoutDate (d : date)           (* "macro blackout date {d}" *)
| RMacroBlackoutWindow (d : date) (s e : time)
                                          (* "macro blackout window {d} {start}-{end}" *)
| RNotInUniverse (symbol : string)        (* "symbol {symbol} not in universe or liquidity filter" *)
| REarningsBlackout (symbol : string) (ed : date)
                                          (* "earnings blackout {symbol} around {ed}" *)
| RMarketQuality (r : Reason)             (* "market_quality: {mq.reason}" *)
| RSpreadAboveMax (spread mx : Q)         (* "spread {spread_pct:.4f}% > max {max}%" *)
| RVolumeAtrBelowMin (ratio mn : Q)       (* "volume/ATR {ratio:.4f} < min {min}" *)
| RVolatilitySpike (atr : Q)              (* "volatility spike: ATR multiple {atr:.2f}" *)
| RVolDntAtr (atr mx : Q)                 (* "volatility DNT: ATR% {atr:.2f} > {max}" *)
| RVolDntSpread (spread mx : Q)           (* "volatility DNT: spread {spread:.2f}% > {max}" *)
| RStrategyBlocked                        (* "strategy blocked: avg slippage exceeded threshold" *)
| RSafeModeNotRecovered (dd rec : Q)      (* "safe_mode: drawdown {dd:.2f}% not yet recovered to {rec}%" *)
| RDailyLossStopped                       (* "daily loss limit hit; trading stopped for the day" *)
| RDailyLossLimitHit (limit cur : Q)      (* "daily loss limit {limit}% hit (current: {cur:.2f}%)" *)
| RMaxDrawdownHit (mdd : Q)               (* "max drawdown {mdd}% hit; entering safe mode" *)
| RMaxTradesPerDay (n : Z)                (* "max trades per day ({n}) reached" *)
| RMaxTradesPerSymbol (n : Z) (symbol : string)
                                          (* "max trades per symbol per day ({n}) for {symbol}" *)
| RPdtNotApplicable                       (* "PDT not applicable" *)
| REquityAbovePdt                         (* "equity above PDT threshold" *)
| RPdtLimitReached (equity min_equity : Q) (limit : Z)
                                          (* "PDT: equity ${equity} < ${min}; day trade limit ({limit}) in rolling 5 business days reached" *)
| RNoEntrySignal                          (* "no entry signal" *)
| RInvalidStopDistance                    (* "invalid stop_distance_pct" *)
| RRiskPerShareNonPositive                (* "risk_per_share <= 0" *)
| RSharesNonPositive                      (* "shares <= 0 (risk too small vs stop)" *)
| RExposureCapZeroShares                  (* "exposure cap yields zero shares" *)
| RSectorWouldExceed (sector : string) (mx : Q)
                                          (* "sector {sector} would exceed {max}%" *)
| RWouldExceedMaxOpenRisk (mx : Q)        (* "would exceed max open risk ({max}%)" *)
| ROrderBuildFailed.                      (* "execution: order build failed (spread?)" *)

(** * universe.py *)
Module Universe.

Inductive SessionType : Type :=
| PRE_MARKET
| REGULAR
| AFTER_HOURS
| CLOSED.

Record SessionWindow : Type := mk_window {
  start : time;
  end_ : time;
  trade_allowed : bool
}.

Record MarketQualityResult : Type := mk_mq_result {
  ok : bool;
  reason : Reason;
  spread_pct : option Q;
  volume_atr_ratio : option Q;
  volatility_spike : bool
}.

(** [MarketCalendar]: the three entries of [self.sessions] and the
    holiday set. *)
Record MarketCalendar : Type := mk_calendar {
  pre_market : SessionWindow;
  regular : SessionWindow;
  after_hours : SessionWindow;
  holidays : gset Z
}.

(** [MarketCalendar._in_window] *)
Definition _in_window (t : time) (w : SessionWindow) : bool :=
  if time_leb (start w) (end_ w)
  then time_leb (start w) t && time_ltb t (end_ w)
  else time_geb t (start w) || time_ltb t (end_ w).

(** [MarketCalendar.get_session_at]; [dt] is a [datetime], so that
    [dt.time()] and [dt.date()] exist. *)
Definition get_session_at (cal : MarketCalendar) (dt : datetime) : SessionType :=
  let t := dt_time dt in
  let d := dt_date dt in
  if decide (d ∈ holidays cal) then CLOSED
  else if _in_window t (pre_market cal) then PRE_MARKET
  else if _in_window t (regular cal) then REGULAR
  else if _in_window t (after_hours cal) then AFTER_HOURS
  else CLOSED.

(** [MarketCalendar.is_trading_allowed] *)
Definition is_trading_allowed (cal : MarketCalendar) (dt : datetime) : bool :=
  match get_session_at cal dt with
  | CLOSED => false
  | PRE_MARKET => trade_allowed (pre_market cal)
  | REGULAR => trade_allowed (regular cal)
  | AFTER_HOURS => trade_allowed (after_hours cal)
  end.

Record UniverseFilter : Type := mk_universe {
  symbols : list string;
  min_avg_dollar_volume_30d : Q;
  min_atr_multiple_for_volume : Q
}.

(** [UniverseFilter.is_eligible] *)
Definition is_eligible (u : UniverseFilter) (symbol : string)
    (avg_dollar_volume_30d volume_vs_atr : option Q) : bool :=
  if negb (bool_decide (symbol ∈ symbols u)) then false
  else if match avg_dollar_volume_30d with
          | Some v => flt v (min_avg_dollar_volume_30d u)
          | None => false
          end then false
  else if match volume_vs_atr with
          | Some v => flt v (min_atr_multiple_for_volume u)
          | None => false
          end then false
  else true.

Record MarketQualityGate : Type := mk_mq_gate {
  max_spread_pct : Q;
  min_volume_atr_ratio : Q;
  block_on_news_spike : bool;
  news_volatility_spike_atr_multiple : Q
}.

(** [MarketQualityGate.check]: the first violation, in the order spread,
    volume/ATR, volatility spike. *)
Definition check (g : MarketQualityGate)
    (spread volume_atr current_atr_multiple : option Q) : MarketQualityResult :=
  let passed := mk_mq_result true ROk None None false in
  let spike_check :=
    match current_atr_multiple with
    | Some a =>
        if block_on_news_spike g && fge a (news_volatility_spike_atr_multiple g)
        then mk_mq_result false (RVolatilitySpike a) None None true
        else passed
    | None => passed
    end in
  let volume_check :=
    match volume_atr with
    | Some v =>
        if flt v (min_volume_atr_ratio g)
        then mk_mq_result false (RVolumeAtrBelowMin v (min_volume_atr_ratio g))
               None (Some v) false
        else spike_check
    | None => spike_check
    end in
  match spread with
  | Some s =>
      if fgt s (max_spread_pct g)
      then mk_mq_result false (RSpreadAboveMax s (max_spread_pct g)) (Some s) None false
      else volume_check
  | None => volume_check
  end.

End Universe.

(** * trade_filters.py *)
Module TradeFilters.

Record FilterResult : Type := mk_filter_result {
  allowed : bool;
  reason : Reason
}.

Record MacroEventBlackout : Type := mk_macro {
  enabled : bool;
  blackout_dates : gset Z;
  blackout_windows : list (date * time * time)
}.

(** The [for win_date, start, end in self.blackout_windows] loop of
    [MacroEventBlackout.check]. *)
Fixpoint check_windows (d : date) (t : time)
    (windows : list (date * time * time)) : FilterResult :=
  match windows with
  | [] => mk_filter_result true ROk
  | (win_date, start, end_) :: rest =>
      if negb (d =? win_date)%Z then check_windows d t rest
      else if time_leb start end_ then
        if time_leb start t && time_ltb t end_
        then mk_filter_result false (RMacroBlackoutWindow d start end_)
        else check_windows d t rest
      else
        if time_geb t start || time_ltb t end_
        then mk_filter_result false (RMacroBlackoutWindow d start end_)
        else check_windows d t rest
  end.

(** [MacroEventBlackout.check] *)
Definition check (mb : MacroEventBlackout) (dt : datetime) : FilterResult :=
  if negb (enabled mb) then mk_filter_result true ROk
  else
    let d := dt_date dt in
    let t := dt_time dt in
    if decide (d ∈ blackout_dates mb)
    then mk_filter_result false (RMacroBlackoutDate d)
    else check_windows d t (blackout_windows mb).

(** [EarningsBlackout]; [eb_enabled] is its [enabled]. *)
Record EarningsBlackout : Type := mk_earnings {
  eb_enabled : bool;
  days_before : Z;
  days_after : Z;
  earnings_dates : gmap string (list date)
}.

(** The [for ed in self.earnings_dates.get(sym, [])] loop of
    [EarningsBlackout.check]. *)
Fixpoint check_earnings_dates (eb : EarningsBlackout) (symbol : string) (d : date)
    (eds : list date) : FilterResult :=
  match eds with
  | [] => mk_filter_result true ROk
  | ed :: rest =>
      let start := (ed - days_before eb)%Z in
      let end_ := (ed + days_after eb)%Z in
      if (start <=? d)%Z && (d <=? end_)%Z
      then mk_filter_result false (REarningsBlackout symbol ed)
      else check_earnings_dates eb symbol d rest
  end.

(** [EarningsBlackout.check] *)
Definition earnings_check (eb : EarningsBlackout) (symbol : string)
    (dt : datetime) : FilterResult :=
  if negb (eb_enabled eb) then mk_filter_result true ROk
  else
    let d := dt_date dt in
    let sym := str_upper symbol in
    check_earnings_dates eb symbol d (default [] (earnings_dates eb !! sym)).

(** [VolatilityDoNotTrade]; [vd_enabled] is its [enabled]. *)
Record VolatilityDoNotTrade : Type := mk_vol_dnt {
  vd_enabled : bool;
  max_atr_pct : Q;
  max_spread_pct : Q
}.

(** [VolatilityDoNotTrade.check] *)
Definition vol_check (vd : VolatilityDoNotTrade) (atr_pct spread_pct : option Q)
    : FilterResult :=
  if negb (vd_enabled vd) then mk_filter_result true ROk
  else
    let passed := mk_filter_result true ROk in
    let spread_check :=
      match spread_pct with
      | Some s =>
          if fgt s (max_spread_pct vd)
          then mk_filter_result false (RVolDntSpread s (max_spread_pct vd))
          else passed
      | None => passed
      end in
    match atr_pct with
    | Some a =>
        if fgt a (max_atr_pct vd)
        then mk_filter_result false (RVolDntAtr a (max_atr_pct vd))
        else spread_check
    | None => spread_check
    end.

End TradeFilters.

(** * strategy.py *)
Module Strategy.

Inductive ExitReason : Type :=
| STOP_LOSS
| TAKE_PROFIT
| TIME_BARS
| KILL_SWITCH
| SIGNAL_EXIT.

Record EntrySignal : Type := mk_entry {
  symbol : string;
  side : string;
  strength : Q;
  stop_pct : Q;
  take_profit_pct : option Q;
  time_bars_exit : Z;
  metadata : gmap string Q
}.

(** [ExitSignal]; [exit_symbol] and [exit_metadata] are its [symbol] and
    [metadata].  A metadata dict holds numbers under string keys. *)
Record ExitSignal : Type := mk_exit {
  exit_symbol : string;
  reason : ExitReason;
  exit_metadata : gmap string Q
}.

(** The attributes set by [TrendFollowingStrategy.__init__];
    [cfg_take_profit_pct] and [cfg_time_bars_exit] are [self.take_profit_pct]
    and [self.time_bars_exit]. *)
Record TrendFollowingStrategy : Type := mk_strategy {
  player_focus : string;
  institutional_min_volume_ratio : Q;
  ma_fast : Z;
  ma_slow : Z;
  pullback_touch_ma_fast : bool;
  atr_period : Z;
  max_atr_pct_for_entry : Q;
  stop_loss_pct : Q;
  cfg_take_profit_pct : option Q;
  cfg_time_bars_exit : Z;
  kill_switch_max_spread_pct : Q;
  kill_switch_max_atr_multiple : Q;
  candlestick_enabled : bool;
  candlestick_patterns : list string
}.

(** Truth value of [self.take_profit_pct] ([None] and [0.0] are false). *)
Definition truthy (o : option Q) : bool :=
  match o with
  | Some v => negb (Qeq_bool v 0)
  | None => false
  end.

(** [TrendFollowingStrategy.check_exit] *)
Definition check_exit (st : TrendFollowingStrategy) (symbol : string)
    (entry_price current_price : Q) (bars_held : Z)
    (spread_pct atr_multiple : option Q) : result (option ExitSignal) :=
  q ← fdiv (current_price - entry_price) entry_price;
  let ret_pct := (q * 100)%Q in
  if fle ret_pct (- stop_loss_pct st) then
    mret (Some (mk_exit symbol STOP_LOSS {[ "ret_pct"%string := ret_pct ]}))
  else if truthy (cfg_take_profit_pct st)
          && fge ret_pct (default 0%Q (cfg_take_profit_pct st)) then
    mret (Some (mk_exit symbol TAKE_PROFIT {[ "ret_pct"%string := ret_pct ]}))
  else if (bars_held >=? cfg_time_bars_exit st)%Z then
    mret (Some (mk_exit symbol TIME_BARS {[ "bars_held"%string := inject_Z bars_held ]}))
  else if match spread_pct with
          | Some s => fgt s (kill_switch_max_spread_pct st)
          | None => false
          end then
    mret (Some (mk_exit symbol KILL_SWITCH
                  {[ "spread_pct"%string := default 0%Q spread_pct ]}))
  else if match atr_multiple with
          | Some a => fgt a (kill_switch_max_atr_multiple st)
          | None => false
          end then
    mret (Some (mk_exit symbol KILL_SWITCH
                  {[ "atr_multiple"%string := default 0%Q atr_multiple ]}))
  else mret None.

(** [generate_entry].  The tests on the bars (length, ATR%, moving averages,
    pullback, kill-switch, volume ratio, candlestick filter) are rolling
    statistics computed by pandas; they are the parameter [entry_filters],
    which yields the signal's metadata when every test passes.  The signal
    built from it is the one of the source. *)
Section GenerateEntry.

Variable entry_filters :
  TrendFollowingStrategy -> option DataFrame -> option Q -> option Q ->
  result (option (gmap string Q)).

Definition generate_entry (st : TrendFollowingStrategy) (symbol : string)
    (df : option DataFrame) (spread_pct atr_multiple_now : option Q)
    : result (option EntrySignal) :=
  md ← entry_filters st df spread_pct atr_multiple_now;
  mret (match md with
        | Some metadata =>
            Some (mk_entry symbol "long" 1 (stop_loss_pct st) (cfg_take_profit_pct st)
                    (cfg_time_bars_exit st) metadata)
        | None => None
        end).

End GenerateEntry.

End Strategy.

(** * position_sizing.py *)
Module PositionSizing.

Record PositionSizingResult : Type := mk_sizing {
  shares : Z;
  notional : Q;
  risk_amount : Q;
  risk_pct : Q;
  reject_reason : option Reason
}.

(** The result every rejection returns:
    [PositionSizingResult(shares=0, notional=0.0, risk_amount=0.0,
    risk_pct=0.0, reject_reason=r)]. *)
Definition rejected (r : Reason) : PositionSizingResult :=
  mk_sizing 0 0 0 0 (Some r).

Record PositionSizer : Type := mk_sizer {
  risk_per_trade_pct : Q;
  max_open_risk_pct : Q;
  max_exposure_per_symbol_pct : Q;
  max_exposure_per_sector_pct : Q;
  high_vol_enabled : bool;
  high_vol_atr_threshold : Q;
  high_vol_size_multiplier : Q
}.

(** [self.high_vol_enabled and atr_pct is not None and
    atr_pct > self.high_vol_atr_threshold] *)
Definition high_vol_applies (ps : PositionSizer) (atr_pct : option Q) : bool :=
  high_vol_enabled ps &&
  match atr_pct with
  | Some a => fgt a (high_vol_atr_threshold ps)
  | None => false
  end.

(** The tail of [size_position], from the high-volatility step on. *)
Definition size_position_tail (ps : PositionSizer) (account_equity price risk_per_share : Q)
    (symbol : string) (sector_exposure_pct : gmap string Q)
    (symbol_sector : option (gmap string string)) (atr_pct : option Q)
    (shares0 : Z) (notional0 risk_amount0 risk_pct0 : Q) : result PositionSizingResult :=
  '(shares, notional, risk_amount, risk_pct) ←
    (if high_vol_applies ps atr_pct then
       let shares := py_max 1 (py_int (inject_Z shares0 * high_vol_size_multiplier ps)) in
       let notional := (inject_Z shares * price)%Q in
       let risk_amount := (inject_Z shares * risk_per_share)%Q in
       q ← fdiv risk_amount account_equity;
       mret (shares, notional, risk_amount, (q * 100)%Q)
     else mret (shares0, notional0, risk_amount0, risk_pct0));
  q ← fdiv notional account_equity;
  let exposure_pct := (q * 100)%Q in
  let sector := default "unknown"%string (default ∅ symbol_sector !! symbol) in
  let current_sector_pct := default 0%Q (sector_exposure_pct !! sector) in
  if fgt (current_sector_pct + exposure_pct) (max_exposure_per_sector_pct ps)
  then mret (rejected (RSectorWouldExceed sector (max_exposure_per_sector_pct ps)))
  else mret (mk_sizing shares notional risk_amount risk_pct None).

(** [PositionSizer.size_position] *)
Definition size_position (ps : PositionSizer) (account_equity price stop_distance_pct : Q)
    (symbol : string) (current_positions : gmap string (gmap string Q))
    (sector_exposure_pct : gmap string Q)
    (symbol_sector : option (gmap string string)) (atr_pct : option Q)
    : result PositionSizingResult :=
  let risk_amount := (account_equity * (risk_per_trade_pct ps / 100))%Q in
  if fle stop_distance_pct 0 then mret (rejected RInvalidStopDistance)
  else
    let risk_per_share := (price * (stop_distance_pct / 100))%Q in
    if fle risk_per_share 0 then mret (rejected RRiskPerShareNonPositive)
    else
      q ← fdiv risk_amount risk_per_share;
      let shares_by_risk := py_int q in
      if (shares_by_risk <=? 0)%Z then mret (rejected RSharesNonPositive)
      else
        let max_notional := (account_equity * (max_exposure_per_symbol_pct ps / 100))%Q in
        let notional_by_risk := (inject_Z shares_by_risk * price)%Q in
        if fgt notional_by_risk max_notional then
          let notional := max_notional in
          q ← fdiv notional price;
          let shares := py_int q in
          if (shares <=? 0)%Z then mret (rejected RExposureCapZeroShares)
          else
            let risk_amount := (inject_Z shares * risk_per_share)%Q in
            q ← fdiv risk_amount account_equity;
            let risk_pct := (q * 100)%Q in
            size_position_tail ps account_equity price risk_per_share symbol
              sector_exposure_pct symbol_sector atr_pct shares notional risk_amount risk_pct
        else
          size_position_tail ps account_equity price risk_per_share symbol
            sector_exposure_pct symbol_sector atr_pct
            shares_by_risk notional_by_risk risk_amount (risk_per_trade_pct ps).

(** [sum(... for notional, stop_pct in positions_with_stops)], from the
    left, starting at 0. *)
Fixpoint sum_open_risk (account_equity acc : Q) (positions_with_stops : list (Q * Q))
    : result Q :=
  match positions_with_stops with
  | [] => mret acc
  | (notional, stop_pct) :: rest =>
      q ← fdiv (notional * (stop_pct / 100)) account_equity;
      sum_open_risk account_equity (acc + q * 100)%Q rest
  end.

(** [PositionSizer.total_open_risk_pct] *)
Definition total_open_risk_pct (ps : PositionSizer) (account_equity : Q)
    (positions_with_stops : list (Q * Q)) : result Q :=
  if fle account_equity 0 then mret 0%Q
  else sum_open_risk account_equity 0 positions_with_stops.

(** [PositionSizer.would_exceed_max_open_risk]; [account_equity] is not
    used. *)
Definition would_exceed_max_open_risk (ps : PositionSizer)
    (account_equity current_open_risk_pct new_trade_risk_pct : Q) : bool :=
  fgt (current_open_risk_pct + new_trade_risk_pct) (max_open_risk_pct ps).

End PositionSizing.

(** * portfolio_risk.py *)
Module PortfolioRisk.

Record PortfolioRiskState : Type := mk_state {
  equity_curve : list (datetime * Q);
  peak_equity : Q;
  daily_pnl_pct : Q;
  daily_trade_count : Z;
  daily_trades_per_symbol : gmap string Z;
  last_trade_date : option date;
  safe_mode : bool;
  trading_stopped_for_day : bool
}.

(** [PortfolioRiskState()] with the dataclass defaults. *)
Definition initial_state : PortfolioRiskState :=
  mk_state [] 0 0 0 ∅ None false false.

Record PortfolioRiskManager : Type := mk_manager {
  daily_loss_limit_pct : Q;
  max_drawdown_pct : Q;
  safe_mode_after_max_dd : bool;
  recovery_criteria_pct : Q;
  max_trades_per_day : Z;
  max_trades_per_symbol_per_day : Z
}.

(** [PortfolioRiskManager.update_equity] *)
Definition update_equity (m : PortfolioRiskManager) (state : PortfolioRiskState)
    (dt : datetime) (equity : Q) : PortfolioRiskState :=
  let curve := equity_curve state ++ [(dt, equity)] in
  mk_state curve
    (if fgt equity (peak_equity state) then equity else peak_equity state)
    (daily_pnl_pct state) (daily_trade_count state) (daily_trades_per_symbol state)
    (last_trade_date state) (safe_mode state) (trading_stopped_for_day state).

(** [PortfolioRiskManager.current_drawdown_pct] *)
Definition current_drawdown_pct (m : PortfolioRiskManager) (state : PortfolioRiskState)
    (current_equity : Q) : result Q :=
  if fle (peak_equity state) 0 then mret 0%Q
  else
    q ← fdiv (current_equity - peak_equity state) (peak_equity state);
    mret (q * 100)%Q.

(** [PortfolioRiskManager.check_daily_reset] *)
Definition check_daily_reset (m : PortfolioRiskManager) (state : PortfolioRiskState)
    (today : date) : PortfolioRiskState :=
  if bool_decide (last_trade_date state ≠ Some today) then
    mk_state (equity_curve state) (peak_equity state) 0 0 ∅ (Some today)
      (safe_mode state) false
  else state.

(** [state.trading_stopped_for_day = True] *)
Definition set_trading_stopped (state : PortfolioRiskState) : PortfolioRiskState :=
  mk_state (equity_curve state) (peak_equity state) (daily_pnl_pct state)
    (daily_trade_count state) (daily_trades_per_symbol state) (last_trade_date state)
    (safe_mode state) true.

(** [state.safe_mode = True] *)
Definition set_safe_mode (state : PortfolioRiskState) : PortfolioRiskState :=
  mk_state (equity_curve state) (peak_equity state) (daily_pnl_pct state)
    (daily_trade_count state) (daily_trades_per_symbol state) (last_trade_date state)
    true (trading_stopped_for_day state).

(** The checks of [can_trade] that follow the safe-mode check. *)
Definition can_trade_limits (m : PortfolioRiskManager) (state : PortfolioRiskState)
    (current_equity : Q) (symbol : string)
    : result (bool * Reason * PortfolioRiskState) :=
  if trading_stopped_for_day state then mret (false, RDailyLossStopped, state)
  else if fle (daily_pnl_pct state) (daily_loss_limit_pct m) then
    mret (false, RDailyLossLimitHit (daily_loss_limit_pct m) (daily_pnl_pct state),
          set_trading_stopped state)
  else
    dd_pct ← current_drawdown_pct m state current_equity;
    if fle dd_pct (max_drawdown_pct m) && safe_mode_after_max_dd m then
      mret (false, RMaxDrawdownHit (max_drawdown_pct m), set_safe_mode state)
    else if (daily_trade_count state >=? max_trades_per_day m)%Z then
      mret (false, RMaxTradesPerDay (max_trades_per_day m), state)
    else
      let sym_count := default 0%Z (daily_trades_per_symbol state !! symbol) in
      if (sym_count >=? max_trades_per_symbol_per_day m)%Z then
        mret (false, RMaxTradesPerSymbol (max_trades_per_symbol_per_day m) symbol, state)
      else mret (true, ROk, state).

(** [can_trade]; [sys_today] is the value of [date.today()], used when
    [today] is [None].  The result is the returned pair and the state as
    the call leaves it. *)
Definition can_trade (m : PortfolioRiskManager) (sys_today : date)
    (state : PortfolioRiskState) (current_equity : Q) (symbol : string)
    (today : option date) : result (bool * Reason * PortfolioRiskState) :=
  let today := default sys_today today in
  let state := check_daily_reset m state today in
  if safe_mode state then
    dd ← current_drawdown_pct m state current_equity;
    if fle dd (recovery_criteria_pct m) then
      mret (false, RSafeModeNotRecovered dd (recovery_criteria_pct m), state)
    else can_trade_limits m state current_equity symbol
  else can_trade_limits m state current_equity symbol.

(** [PortfolioRiskManager.record_trade] *)
Definition record_trade (m : PortfolioRiskManager) (state : PortfolioRiskState)
    (symbol : string) (pnl_pct : Q) : PortfolioRiskState :=
  mk_state (equity_curve state) (peak_equity state)
    (daily_pnl_pct state + pnl_pct)%Q
    (daily_trade_count state + 1)%Z
    (<[symbol := (default 0%Z (daily_trades_per_symbol state !! symbol) + 1)%Z]>
       (daily_trades_per_symbol state))
    (last_trade_date state) (safe_mode state) (trading_stopped_for_day state).

End PortfolioRisk.

(** * execution.py *)
Module Execution.

Inductive OrderType : Type :=
| LIMIT
| MARKET.

Record OrderRequest : Type := mk_order {
  symbol : string;
  side : string;
  quantity : Z;
  order_type : OrderType;
  limit_price : option Q;
  expected_price : option Q
}.

Record FillReport : Type := mk_fill {
  fill_symbol : string;
  fill_side : string;
  fill_quantity : Z;
  fill_price : Q;
  fill_expected_price : Q;
  slippage_bps : Q;
  timestamp : datetime
}.

Record ExecutionState : Type := mk_state {
  fill_history : list FillReport;
  strategy_slippage_bps_avg : Q;
  strategy_blocked : bool
}.

Definition initial_state : ExecutionState := mk_state [] 0 false.

Record ExecutionManager : Type := mk_manager {
  prefer_limit_orders : bool;
  limit_order_offset_ticks : Z;
  max_spread_pct_to_trade : Q;
  partial_fill_timeout_seconds : Z;
  cancel_replace_on_partial : bool;
  max_slippage_bps : Q;
  block_strategy_if_slippage_bps_avg_exceeds : Q
}.

(** [ExecutionManager.can_trade_spread] *)
Definition can_trade_spread (m : ExecutionManager) (spread_pct : Q) : bool * Reason :=
  if fgt spread_pct (max_spread_pct_to_trade m)
  then (false, RSpreadAboveMax spread_pct (max_spread_pct_to_trade m))
  else (true, ROk).

(** The default of the [tick_size] keyword argument. *)
Definition default_tick_size : Q := 1 # 100.

(** [ExecutionManager.build_order] *)
Definition build_order (m : ExecutionManager) (symbol side : string) (quantity : Z)
    (mid_price spread_pct tick_size : Q) : option OrderRequest :=
  let '(allowed, _) := can_trade_spread m spread_pct in
  if negb allowed then None
  else if prefer_limit_orders m then
    let offset := (inject_Z (limit_order_offset_ticks m) * tick_size)%Q in
    let limit_price :=
      if String.eqb side "buy" then py_round2 (mid_price - offset)
      else py_round2 (mid_price + offset) in
    Some (mk_order symbol side quantity LIMIT (Some limit_price) (Some mid_price))
  else Some (mk_order symbol side quantity MARKET None (Some mid_price)).

(** [sum(f.slippage_bps for f in state.fill_history)] *)
Definition sum_slippage (fills : list FillReport) : Q :=
  fold_left (fun acc f => (acc + slippage_bps f)%Q) fills 0%Q.

(** The slippage computed at the head of [record_fill]. *)
Definition fill_slippage (side : string) (fill_price expected_price : Q) : result Q :=
  if fle expected_price 0 then mret 0%Q
  else if String.eqb side "buy" then
    q ← fdiv (fill_price - expected_price) expected_price;
    mret (q * 10000)%Q
  else
    q ← fdiv (expected_price - fill_price) expected_price;
    mret (q * 10000)%Q.

(** [record_fill]; [now] is the value of [datetime.utcnow()]. *)
Definition record_fill (m : ExecutionManager) (now : datetime) (state : ExecutionState)
    (symbol side : string) (quantity : Z) (fill_price expected_price : Q)
    : result ExecutionState :=
  slippage ← fill_slippage side fill_price expected_price;
  let history :=
    fill_history state ++
      [mk_fill symbol side quantity fill_price expected_price slippage now] in
  let n := Z.of_nat (length history) in
  if (n >? 0)%Z then
    avg ← fdiv (sum_slippage history) (inject_Z n);
    if fgt avg (block_strategy_if_slippage_bps_avg_exceeds m)
    then mret (mk_state history avg true)
    else mret (mk_state history avg (strategy_blocked state))
  else mret (mk_state history (strategy_slippage_bps_avg state) (strategy_blocked state)).

(** [ExecutionManager.should_block_strategy] *)
Definition should_block_strategy (m : ExecutionManager) (state : ExecutionState) : bool :=
  strategy_blocked state.

(** [ExecutionManager.partial_fill_should_cancel_replace] *)
Definition partial_fill_should_cancel_replace (m : ExecutionManager)
    (filled_qty requested_qty : Z) : bool :=
  if negb (cancel_replace_on_partial m) then false
  else (0 <? filled_qty)%Z && (filled_qty <? requested_qty)%Z.

End Execution.

(** * compliance.py *)
Module Compliance.

Record PDTState : Type := mk_pdt {
  equity : Q;
  day_trades_count_rolling : Z;
  day_trade_dates : list date
}.

Record ComplianceManager : Type := mk_manager {
  pdt_min_equity : Q;
  pdt_enabled : bool;
  margin_account : bool
}.

Definition max_day_trades_below_threshold : Z := 3.

(** [[d for d in state.day_trade_dates if d >= cutoff]] *)
Definition recent_day_trades (state : PDTState) (cutoff : date) : list date :=
  List.filter (fun d => (d >=? cutoff)%Z) (day_trade_dates state).

(** [ComplianceManager.can_day_trade] *)
Definition can_day_trade (m : ComplianceManager) (state : PDTState) (trade_date : date)
    : bool * Reason :=
  if negb (pdt_enabled m) || negb (margin_account m) then (true, RPdtNotApplicable)
  else if fge (equity state) (pdt_min_equity m) then (true, REquityAbovePdt)
  else
    let cutoff := (trade_date - 7)%Z in
    let recent := recent_day_trades state cutoff in
    if (Z.of_nat (length recent) >=? max_day_trades_below_threshold)%Z
    then (false, RPdtLimitReached (equity state) (pdt_min_equity m)
                   max_day_trades_below_threshold)
    else (true, ROk).

(** [ComplianceManager.record_day_trade] *)
Definition record_day_trade (m : ComplianceManager) (state : PDTState)
    (trade_date : date) : PDTState :=
  let dates := day_trade_dates state ++ [trade_date] in
  mk_pdt (equity state) (day_trades_count_rolling state)
    (if (Z.of_nat (length dates) >? 20)%Z
     then skipn (length dates - 20) dates
     else dates).

(** [ComplianceManager.update_equity] *)
Definition update_equity (m : ComplianceManager) (state : PDTState) (eq : Q) : PDTState :=
  mk_pdt eq (day_trades_count_rolling state) (day_trade_dates state).

End Compliance.

(** * trading_engine.py *)
Module TradingEngine.

(** [TradingEngineState]; the fields carry the prefix [st_] to keep them
    apart from the managers of the engine. *)
Record TradingEngineState : Type := mk_engine_state {
  st_portfolio_risk : PortfolioRisk.PortfolioRiskState;
  st_execution : Execution.ExecutionState;
  st_pdt : Compliance.PDTState
}.

Definition initial_state : TradingEngineState :=
  mk_engine_state PortfolioRisk.initial_state Execution.initial_state
    (Compliance.mk_pdt 0 0 []).

Record TradeDecision : Type := mk_decision {
  allowed : bool;
  reason : Reason;
  order_request : option Execution.OrderRequest;
  entry_signal : option Strategy.EntrySignal;
  position_sizing : option PositionSizing.PositionSizingResult
}.

Record TradingEngine : Type := mk_engine {
  calendar : Universe.MarketCalendar;
  universe : Universe.UniverseFilter;
  market_quality : Universe.MarketQualityGate;
  strategy : Strategy.TrendFollowingStrategy;
  sizer : PositionSizing.PositionSizer;
  portfolio_risk : PortfolioRisk.PortfolioRiskManager;
  execution : Execution.ExecutionManager;
  compliance : Compliance.ComplianceManager;
  macro_blackout : TradeFilters.MacroEventBlackout;
  earnings_blackout : TradeFilters.EarningsBlackout;
  volatility_dnt : TradeFilters.VolatilityDoNotTrade;
  state : TradingEngineState
}.

(** The engine with its [state] replaced. *)
Definition with_state (e : TradingEngine) (s : TradingEngineState) : TradingEngine :=
  mk_engine (calendar e) (universe e) (market_quality e) (strategy e) (sizer e)
    (portfolio_risk e) (execution e) (compliance e) (macro_blackout e)
    (earnings_blackout e) (volatility_dnt e) s.

(** [TradingEngine(config={"universe": {"symbols": symbols}})]: every other
    option at the default its [__init__] gives it. *)
Definition default_engine (symbols : list string) : TradingEngine :=
  let session := Universe.mk_window (mk_time 9 30 0 0) (mk_time 16 0 0 0) true in
  mk_engine
    (Universe.mk_calendar session session session ∅)
    (Universe.mk_universe symbols 50000000 (1 # 2))
    (Universe.mk_mq_gate (1 # 10) 1 true 2)
    (Strategy.mk_strategy "neutral" (12 # 10) 20 200 true 14 2 (3 # 2) (Some 3%Q) 20
       (1 # 4) 3 false [])
    (PositionSizing.mk_sizer (1 # 2) 3 20 40 false 2 (1 # 2))
    (PortfolioRisk.mk_manager (-2) (-10) true (-8) 15 3)
    (Execution.mk_manager true 1 (1 # 10) 30 true 10 25)
    (Compliance.mk_manager 25000 true true)
    (TradeFilters.mk_macro true ∅ [])
    (TradeFilters.mk_earnings true 1 1 ∅)
    (TradeFilters.mk_vol_dnt true (5 # 2) (15 # 100))
    initial_state.

(** [update_equity]; [utcnow] is the value of [datetime.utcnow()], used when
    [dt] is [None]. *)
Definition update_equity (e : TradingEngine) (utcnow : datetime) (equity : Q)
    (dt : option datetime) : TradingEngine :=
  let dt := default utcnow dt in
  let pr := st_portfolio_risk (state e) in
  let pr :=
    PortfolioRisk.mk_state (PortfolioRisk.equity_curve pr)
      (if fgt equity (PortfolioRisk.peak_equity pr) then equity
       else PortfolioRisk.peak_equity pr)
      (PortfolioRisk.daily_pnl_pct pr) (PortfolioRisk.daily_trade_count pr)
      (PortfolioRisk.daily_trades_per_symbol pr) (PortfolioRisk.last_trade_date pr)
      (PortfolioRisk.safe_mode pr) (PortfolioRisk.trading_stopped_for_day pr) in
  let pr := PortfolioRisk.update_equity (portfolio_risk e) pr dt equity in
  let pdt := Compliance.update_equity (compliance e) (st_pdt (state e)) equity in
  with_state e (mk_engine_state pr (st_execution (state e)) pdt).

(** [ohlcv_df["close"].iloc[-1] if ohlcv_df is not None and not
    ohlcv_df.empty else 0.0] *)
Definition last_close (ohlcv_df : option DataFrame) : Q :=
  match ohlcv_df with
  | Some df =>
      match last (close <$> df) with
      | Some c => c
      | None => 0
      end
  | None => 0
  end.

(** [[(p.get("notional", 0), p.get("stop_pct", 0))
     for p in current_positions.values()]] *)
Definition current_with_stops (current_positions : gmap string (gmap string Q))
    : list (Q * Q) :=
  (fun kv : string * gmap string Q =>
     (default 0%Q (kv.2 !! "notional"%string), default 0%Q (kv.2 !! "stop_pct"%string)))
  <$> map_to_list current_positions.

(** [TradeDecision(allowed=False, reason=r)] *)
Definition veto (r : Reason) : TradeDecision := mk_decision false r None None None.

Section Engine.

Variable entry_filters :
  Strategy.TrendFollowingStrategy -> option DataFrame -> option Q -> option Q ->
  result (option (gmap string Q)).

(** The part of [run_entry_gates] that follows a successful
    [generate_entry]: sizing, the open-risk check and the order. *)
Definition size_and_build (e : TradingEngine) (symbol : string) (account_equity : Q)
    (current_positions : gmap string (gmap string Q))
    (sector_exposure_pct : gmap string Q) (spread_pct : Q) (atr_multiple : option Q)
    (ohlcv_df : option DataFrame) (symbol_sector : option (gmap string string))
    (entry : Strategy.EntrySignal) : result TradeDecision :=
  open_risk_pct ←
    PositionSizing.total_open_risk_pct (sizer e) account_equity
      (current_with_stops current_positions);
  sizing ←
    PositionSizing.size_position (sizer e) account_equity (last_close ohlcv_df)
      (Strategy.stop_pct entry) symbol current_positions sector_exposure_pct
      symbol_sector atr_multiple;
  match PositionSizing.reject_reason sizing with
  | Some r => mret (mk_decision false r None (Some entry) None)
  | None =>
      if PositionSizing.would_exceed_max_open_risk (sizer e)
           open_risk_pct (Strategy.stop_pct entry) (PositionSizing.risk_pct sizing)
      then
        mret (mk_decision false
                (RWouldExceedMaxOpenRisk (PositionSizing.max_open_risk_pct (sizer e)))
                None (Some entry) (Some sizing))
      else
        let mid := last_close ohlcv_df in
        match Execution.build_order (execution e) symbol (Strategy.side entry)
                (PositionSizing.shares sizing) mid spread_pct
                Execution.default_tick_size with
        | None => mret (mk_decision false ROrderBuildFailed None (Some entry) (Some sizing))
        | Some order => mret (mk_decision true ROk (Some order) (Some entry) (Some sizing))
        end
  end.

(** [run_entry_gates].  The result is the decision and the engine with the
    state as the call leaves it ([can_trade] mutates the portfolio-risk
    state). *)
Definition run_entry_gates (e : TradingEngine) (symbol : string) (dt : datetime)
    (account_equity : Q) (current_positions : gmap string (gmap string Q))
    (sector_exposure_pct : gmap string Q) (spread_pct : Q)
    (volume_atr_ratio atr_multiple : option Q) (ohlcv_df : option DataFrame)
    (symbol_sector : option (gmap string string))
    : result (TradeDecision * TradingEngine) :=
  let today := dt_date dt in
  if negb (Universe.is_trading_allowed (calendar e) dt) then mret (veto RMarketClosed, e)
  else
    let macro := TradeFilters.check (macro_blackout e) dt in
    if negb (TradeFilters.allowed macro) then mret (veto (TradeFilters.reason macro), e)
    else if negb (Universe.is_eligible (universe e) symbol None None) then
      mret (veto (RNotInUniverse symbol), e)
    else
      let earnings := TradeFilters.earnings_check (earnings_blackout e) symbol dt in
      if negb (TradeFilters.allowed earnings) then
        mret (veto (TradeFilters.reason earnings), e)
      else
        let mq := Universe.check (market_quality e) (Some spread_pct)
                    volume_atr_ratio atr_multiple in
        if negb (Universe.ok mq) then
          mret (veto (RMarketQuality (Universe.reason mq)), e)
        else
          let '(allowed, reason) := Execution.can_trade_spread (execution e) spread_pct in
          if negb allowed then mret (veto reason, e)
          else
            let vol_dnt := TradeFilters.vol_check (volatility_dnt e) atr_multiple
                             (Some spread_pct) in
            if negb (TradeFilters.allowed vol_dnt) then
              mret (veto (TradeFilters.reason vol_dnt), e)
            else if Execution.should_block_strategy (execution e)
                      (st_execution (state e)) then
              mret (veto RStrategyBlocked, e)
            else
              '(can_trade, reason, pr) ←
                PortfolioRisk.can_trade (portfolio_risk e) today
                  (st_portfolio_risk (state e)) account_equity symbol (Some today);
              let e := with_state e (mk_engine_state pr (st_execution (state e))
                                       (st_pdt (state e))) in
              if negb can_trade then mret (veto reason, e)
              else
                let '(can_dt, reason) :=
                  Compliance.can_day_trade (compliance e) (st_pdt (state e)) today in
                if negb can_dt then mret (veto reason, e)
                else
                  entry ← Strategy.generate_entry entry_filters (strategy e) symbol
                            ohlcv_df (Some spread_pct) atr_multiple;
                  match entry with
                  | None => mret (veto RNoEntrySignal, e)
                  | Some entry =>
                      d ← size_and_build e symbol account_equity current_positions
                            sector_exposure_pct spread_pct atr_multiple ohlcv_df
                            symbol_sector entry;
                      mret (d, e)
                  end.

End Engine.

(** [TradingEngine.check_exit] *)
Definition check_exit (e : TradingEngine) (symbol : string)
    (entry_price current_price : Q) (bars_held : Z)
    (spread_pct atr_multiple : option Q) : result (option Strategy.ExitSignal) :=
  Strategy.check_exit (strategy e) symbol entry_price current_price bars_held
    spread_pct atr_multiple.

End TradingEngine.

(** * candlestick.py *)
Module Candlestick.

Local Open Scope Q_scope.

(** [str.lower()] on ASCII letters. *)
Definition ascii_lower (c : ascii) : ascii :=
  let n := nat_of_ascii c in
  if (65 <=? n)%nat && (n <=? 90)%nat then ascii_of_nat (n + 32) else c.

Fixpoint str_lower (s : string) : string :=
  match s with
  | EmptyString => EmptyString
  | String c s' => String (ascii_lower c) (str_lower s')
  end.

(** [str.isspace()] on an ASCII character: tab to carriage return, the four
    separators 0x1c to 0x1f, and the space. *)
Definition is_space (c : ascii) : bool :=
  let n := nat_of_ascii c in
  (9 <=? n)%nat && (n <=? 13)%nat || (28 <=? n)%nat && (n <=? 32)%nat.

Fixpoint lstrip (s : string) : string :=
  match s with
  | EmptyString => EmptyString
  | String c s' => if is_space c then lstrip s' else s
  end.

Fixpoint rstrip (s : string) : string :=
  match s with
  | EmptyString => EmptyString
  | String c s' =>
      match rstrip s' with
      | EmptyString => if is_space c then EmptyString else String c EmptyString
      | t => String c t
      end
  end.

(** [str.strip()] *)
Definition str_strip (s : string) : string := rstrip (lstrip s).

(** [df.iloc[idx]]: the row at position [idx], counted from the end when
    [idx] is negative; [IndexError] outside [-len(df) <= idx < len(df)]. *)
Definition iloc (df : DataFrame) (idx : Z) : result Bar :=
  let n := Z.of_nat (length df) in
  let i := if (idx <? 0)%Z then (idx + n)%Z else idx in
  if (i <? 0)%Z || (n <=? i)%Z then Raise IndexError
  else
    match df !! Z.to_nat i with
    | Some row => Ok row
    | None => Raise IndexError
    end.

(** [max(a, b)] and [min(a, b)] on floats: the first argument unless the
    second is strictly larger (smaller). *)
Definition fmax (a b : Q) : Q := if fgt b a then b else a.
Definition fmin (a b : Q) : Q := if flt b a then b else a.

Definition _body_size (row : Bar) : Q := Qabs (close row - open_ row).

Definition _upper_wick (row : Bar) : Q := high row - fmax (open_ row) (close row).

Definition _lower_wick (row : Bar) : Q := fmin (open_ row) (close row) - low row.

(** The literal [1e-9]. *)
Definition tiny_range : Q := 1 # 1000000000.

Definition _range_size (row : Bar) : Q :=
  let r := high row - low row in
  if fgt r 0 then r else tiny_range.

Definition is_bullish_candle (row : Bar) : bool := fgt (close row) (open_ row).

Definition is_bearish_candle (row : Bar) : bool := flt (close row) (open_ row).

Definition bullish_engulfing (df : option DataFrame) (idx : Z) : result bool :=
  match df with
  | None => Ok false
  | Some df =>
      if (Z.of_nat (length df) <? 2)%Z then Ok false
      else
        curr ← iloc df idx;
        prev ← iloc df (idx - 1);
        if negb (is_bullish_candle curr) || negb (is_bearish_candle prev) then Ok false
        else Ok (fge (close curr) (open_ prev) && fle (open_ curr) (close prev))
  end.

Definition hammer (df : option DataFrame) (idx : Z) (lower_wick_ratio : Q)
    : result bool :=
  match df with
  | None => Ok false
  | Some df =>
      if (Z.of_nat (length df) <? 1)%Z then Ok false
      else
        row ← iloc df idx;
        let body := _body_size row in
        let lower := _lower_wick row in
        let upper := _upper_wick row in
        let rng := _range_size row in
        if fle rng 0 || fle body 0 then Ok false
        else Ok (is_bullish_candle row
                 && fge lower (body * lower_wick_ratio)
                 && fle upper (body * (1 # 2)))
  end.

Definition doji_near_support (df : option DataFrame) (idx : Z) (body_ratio : Q)
    : result bool :=
  match df with
  | None => Ok false
  | Some df =>
      if (Z.of_nat (length df) <? 1)%Z then Ok false
      else
        row ← iloc df idx;
        let body := _body_size row in
        let rng := _range_size row in
        q ← fdiv body rng;
        Ok (fle q body_ratio && fgt rng 0)
  end.

(** The defaults of [hammer]'s [lower_wick_ratio] and the ratio the "doji"
    detector passes to [doji_near_support]. *)
Definition default_lower_wick_ratio : Q := 2.
Definition doji_body_ratio : Q := 15 # 100.

(** The [detectors] dictionary of [detect_any]. *)
Definition detectors (name : string)
    : option (option DataFrame -> Z -> result bool) :=
  if String.eqb name "bullish_engulfing" then Some bullish_engulfing
  else if String.eqb name "hammer"
       then Some (fun d i => hammer d i default_lower_wick_ratio)
  else if String.eqb name "doji"
       then Some (fun d i => doji_near_support d i doji_body_ratio)
  else None.

(** The loop of [detect_any] over the pattern names. *)
Fixpoint detect_loop (df : option DataFrame) (patterns : list string) (idx : Z)
    : result bool :=
  match patterns with
  | [] => Ok false
  | name :: rest =>
      match detectors (str_lower (str_strip name)) with
      | Some fn =>
          found ← fn df idx;
          if found : bool then Ok true else detect_loop df rest idx
      | None => detect_loop df rest idx
      end
  end.

Definition detect_any (df : option DataFrame) (patterns : list string) (idx : Z)
    : result bool :=
  match patterns, df with
  | [], _ => Ok true
  | _, None => Ok true
  | _, Some rows =>
      if (Z.of_nat (length rows) <? 1)%Z then Ok true
      else detect_loop df patterns idx
  end.

(** The default of the [idx] keyword argument: the last bar. *)
Definition last_bar : Z := (-1)%Z.

End Candlestick.

(** * Definitions used to state the properties *)

(** The order on times as the order on tuples
    (hour, minute, second, microsecond). *)
Definition time_lt (a b : time) : Prop :=
  (hour a < hour b)%Z \/
  (hour a = hour b /\
   ((minute a < minute b)%Z \/
    (minute a = minute b /\
     ((second a < second b)%Z \/
      (second a = second b /\ (microsecond a < microsecond b)%Z))))).

Definition time_le (a b : time) : Prop := time_lt a b \/ a = b.

(** A [datetime.time] has its fields in range. *)
Definition valid_time (t : time) : Prop :=
  (0 <= hour t < 24)%Z /\ (0 <= minute t < 60)%Z /\
  (0 <= second t < 60)%Z /\ (0 <= microsecond t < 1000000)%Z.

(** Microseconds since midnight. *)
Definition us_of_day (t : time) : Z :=
  (((hour t * 60 + minute t) * 60 + second t) * 1000000 + microsecond t)%Z.

Definition us_per_day : Z := 86400000000.

(** Membership of [t] in the window from [s] to [e]: the half-open
    interval when [s <= e], and from [s] to midnight together with
    midnight to [e] when [s > e]. *)
Definition window_member (s e t : time) : Prop :=
  (time_le s e /\ time_le s t /\ time_lt t e) \/
  (time_lt e s /\ (time_le s t \/ time_lt t e)).

Definition hm (h m : Z) : time := mk_time h m 0 0.

(** The exit table of the strategy: the conditions in priority order, each
    with the reason it yields. *)
Module ExitTable.
Import Strategy.

Definition ret_pct_of (entry_price current_price : Q) : Q :=
  ((current_price - entry_price) / entry_price * 100)%Q.

Definition stop_fires (st : TrendFollowingStrategy) (ret_pct : Q) : Prop :=
  (ret_pct <= - stop_loss_pct st)%Q.

Definition target_fires (st : TrendFollowingStrategy) (ret_pct : Q) : Prop :=
  exists tp, cfg_take_profit_pct st = Some tp /\ ~ (tp == 0)%Q /\ (tp <= ret_pct)%Q.

Definition time_fires (st : TrendFollowingStrategy) (bars_held : Z) : Prop :=
  (cfg_time_bars_exit st <= bars_held)%Z.

Definition spread_fires (st : TrendFollowingStrategy) (spread_pct : option Q) : Prop :=
  exists s, spread_pct = Some s /\ (kill_switch_max_spread_pct st < s)%Q.

Definition atr_fires (st : TrendFollowingStrategy) (atr_multiple : option Q) : Prop :=
  exists a, atr_multiple = Some a /\ (kill_switch_max_atr_multiple st < a)%Q.

(** First match in priority order, as a relation between the inputs and
    the reason of the exit (or [None] for no exit). *)
Definition first_match (st : TrendFollowingStrategy) (ret_pct : Q) (bars_held : Z)
    (spread_pct atr_multiple : option Q) (out : option ExitReason) : Prop :=
  (stop_fires st ret_pct /\ out = Some STOP_LOSS) \/
  (~ stop_fires st ret_pct /\ target_fires st ret_pct /\ out = Some TAKE_PROFIT) \/
  (~ stop_fires st ret_pct /\ ~ target_fires st ret_pct /\ time_fires st bars_held /\
   out = Some TIME_BARS) \/
  (~ stop_fires st ret_pct /\ ~ target_fires st ret_pct /\ ~ time_fires st bars_held /\
   spread_fires st spread_pct /\ out = Some KILL_SWITCH) \/
  (~ stop_fires st ret_pct /\ ~ target_fires st ret_pct /\ ~ time_fires st bars_held /\
   ~ spread_fires st spread_pct /\ atr_fires st atr_multiple /\ out = Some KILL_SWITCH) \/
  (~ stop_fires st ret_pct /\ ~ target_fires st ret_pct /\ ~ time_fires st bars_held /\
   ~ spread_fires st spread_pct /\ ~ atr_fires st atr_multiple /\ out = None).

End ExitTable.

(** Sequences of calls on the portfolio-risk ledger. *)
Module Ledger.
Import PortfolioRisk.

Inductive call : Type :=
| UpdateEquity (dt : datetime) (equity : Q)
| CheckDailyReset (today : date)
| CanTrade (sys_today : date) (current_equity : Q) (symbol : string) (today : option date)
| RecordTrade (symbol : string) (pnl_pct : Q).

(** The state a call leaves and, for [can_trade], the pair it returns. *)
Definition run_call (m : PortfolioRiskManager) (state : PortfolioRiskState) (c : call)
    : result (PortfolioRiskState * option (bool * Reason)) :=
  match c with
  | UpdateEquity dt equity => mret (update_equity m state dt equity, None)
  | CheckDailyReset today => mret (check_daily_reset m state today, None)
  | CanTrade sys_today current_equity symbol today =>
      '(b, r, state') ← can_trade m sys_today state current_equity symbol today;
      mret (state', Some (b, r))
  | RecordTrade symbol pnl_pct => mret (record_trade m state symbol pnl_pct, None)
  end.

(** The final state and the pairs returned by the [can_trade] calls, in
    order. *)
Fixpoint run_calls (m : PortfolioRiskManager) (state : PortfolioRiskState)
    (cs : list call) : result (PortfolioRiskState * list (bool * Reason)) :=
  match cs with
  | [] => mret (state, [])
  | c :: rest =>
      '(state', out) ← run_call m state c;
      '(state'', outs) ← run_calls m state' rest;
      mret (state'', option_list out ++ outs)
  end.

(** The date a call passes to [check_daily_reset], when it invokes it. *)
Definition reset_date (c : call) : option date :=
  match c with
  | CheckDailyReset today => Some today
  | CanTrade sys_today _ _ today => Some (default sys_today today)
  | UpdateEquity _ _ | RecordTrade _ _ => None
  end.

Definition is_can_trade (c : call) : bool :=
  match c with
  | CanTrade _ _ _ _ => true
  | _ => false
  end.

(** [update_equity] for each pair of a list, in order. *)
Definition update_equities (m : PortfolioRiskManager) (state : PortfolioRiskState)
    (updates : list (datetime * Q)) : PortfolioRiskState :=
  fold_left (fun st u => update_equity m st u.1 u.2) updates state.

End Ledger.

(** [v] is the maximum of the list [l]. *)
Definition is_max (v : Q) (l : list Q) : Prop :=
  (exists x, In x l /\ (x == v)%Q) /\ (forall x, In x l -> (x <= v)%Q).

(** Sequences of [record_fill] calls. *)
Module Fills.
Import Execution.

Record fill_call : Type := mk_fill_call {
  now : datetime;
  symbol : string;
  side : string;
  quantity : Z;
  price : Q;
  expected : Q
}.

Definition record_one (m : ExecutionManager) (state : ExecutionState) (c : fill_call)
    : result ExecutionState :=
  record_fill m (now c) state (symbol c) (side c) (quantity c) (price c) (expected c).

Fixpoint record_fills (m : ExecutionManager) (state : ExecutionState)
    (cs : list fill_call) : result ExecutionState :=
  match cs with
  | [] => mret state
  | c :: rest =>
      state' ← record_one m state c;
      record_fills m state' rest
  end.

End Fills.

(** The number of dates of [dates] that are [cutoff] or later. *)
Fixpoint count_since (cutoff : date) (dates : list date) : Z :=
  match dates with
  | [] => 0
  | d :: rest => ((if (cutoff <=? d)%Z then 1 else 0) + count_since cutoff rest)%Z
  end.

(** [(symbol_sector or {}).get(symbol, "unknown")]: the sector
    [size_position] charges the symbol to. *)
Definition sector_of (symbol : string) (symbol_sector : option (gmap string string))
    : string :=
  default "unknown"%string (default ∅ symbol_sector !! symbol).

(** The sum of [notional * stop_pct] over the positions. *)
Definition weighted_stops (positions_with_stops : list (Q * Q)) : Q :=
  fold_right (fun p acc => (p.1 * p.2 + acc)%Q) 0%Q positions_with_stops.

(** The first eight gates of [run_entry_gates]. *)
Module Gates.
Import TradingEngine.

(** The verdict of each gate, in the order the pipeline runs them, with the
    reason its veto carries. *)
Definition early_gates (e : TradingEngine) (symbol : string) (dt : datetime)
    (spread_pct : Q) (volume_atr_ratio atr_multiple : option Q) : list (bool * Reason) :=
  let macro := TradeFilters.check (macro_blackout e) dt in
  let earnings := TradeFilters.earnings_check (earnings_blackout e) symbol dt in
  let mq := Universe.check (market_quality e) (Some spread_pct) volume_atr_ratio
              atr_multiple in
  let spread := Execution.can_trade_spread (execution e) spread_pct in
  let vol_dnt := TradeFilters.vol_check (volatility_dnt e) atr_multiple
                   (Some spread_pct) in
  [ (Universe.is_trading_allowed (calendar e) dt, RMarketClosed);
    (TradeFilters.allowed macro, TradeFilters.reason macro);
    (Universe.is_eligible (universe e) symbol None None, RNotInUniverse symbol);
    (TradeFilters.allowed earnings, TradeFilters.reason earnings);
    (Universe.ok mq, RMarketQuality (Universe.reason mq));
    (spread.1, spread.2);
    (TradeFilters.allowed vol_dnt, TradeFilters.reason vol_dnt);
    (negb (Execution.should_block_strategy (execution e) (st_execution (state e))),
     RStrategyBlocked) ].

(** The reason of the first gate that fails, if one does. *)
Fixpoint first_veto (gates : list (bool * Reason)) : option Reason :=
  match gates with
  | [] => None
  | (passed, r) :: rest => if passed then first_veto rest else Some r
  end.

End Gates.

(** The sum of the per-symbol trade counts of a ledger. *)
Definition per_symbol_total (counts : gmap string Z) : Z :=
  map_fold (fun _ n acc => (n + acc)%Z) 0%Z counts.

(** The counters of a ledger agree: the daily count is the sum of the
    per-symbol counts, none of which is negative. *)
Definition counters_agree (state : PortfolioRisk.PortfolioRiskState) : Prop :=
  PortfolioRisk.daily_trade_count state
    = per_symbol_total (PortfolioRisk.daily_trades_per_symbol state) /\
  map_Forall (fun _ v => 0 <= v)%Z (PortfolioRisk.daily_trades_per_symbol state).

(** The shapes the candlestick detectors test, as relations on bars.
    [engulfs curr prev]: a rising bar whose body covers the body of the
    falling bar before it. *)
Definition engulfs (curr prev : Bar) : Prop :=
  (open_ curr < close curr)%Q /\ (close prev < open_ prev)%Q /\
  (open_ prev <= close curr)%Q /\ (open_ curr <= close prev)%Q.

(** A rising bar whose lower wick is at least [ratio] bodies and whose upper
    wick is at most half a body. *)
Definition hammer_shape (row : Bar) (ratio : Q) : Prop :=
  (open_ row < close row)%Q /\
  ((close row - open_ row) * ratio <= open_ row - low row)%Q /\
  (high row - close row <= (close row - open_ row) * (1 # 2))%Q.

(** A body of at most [ratio] times the range, the range of a bar whose high
    is not above its low counting as 1e-9. *)
Definition doji_shape (row : Bar) (ratio : Q) : Prop :=
  ((low row < high row)%Q /\
   (Qabs (close row - open_ row) <= ratio * (high row - low row))%Q) \/
  ((high row <= low row)%Q /\
   (Qabs (close row - open_ row) <= ratio * (1 # 1000000000))%Q).

(** The engine with the liquidity thresholds of its universe filter
    replaced, the list of symbols kept. *)
Definition with_liquidity_thresholds (e : TradingEngine.TradingEngine)
    (min_dollar_volume min_atr_multiple : Q) : TradingEngine.TradingEngine :=
  TradingEngine.mk_engine (TradingEngine.calendar e)
    (Universe.mk_universe (Universe.symbols (TradingEngine.universe e))
       min_dollar_volume min_atr_multiple)
    (TradingEngine.market_quality e) (TradingEngine.strategy e) (TradingEngine.sizer e)
    (TradingEngine.portfolio_risk e) (TradingEngine.execution e)
    (TradingEngine.compliance e) (TradingEngine.macro_blackout e)
    (TradingEngine.earnings_blackout e) (TradingEngine.volatility_dnt e)
    (TradingEngine.state e).

(** * Properties *)

(** ** Floats and times *)

Lemma fle_spec (x y : Q) : fle x y = true <-> (x <= y)%Q.
Proof. unfold fle. apply Qle_bool_iff. Qed.

Lemma flt_spec (x y : Q) : flt x y = true <-> (x < y)%Q.
Proof.
  unfold flt. rewrite negb_true_iff, <- not_true_iff_false, Qle_bool_iff.
  split; [apply Qnot_le_lt | apply Qlt_not_le].
Qed.

Lemma fge_spec (x y : Q) : fge x y = true <-> (y <= x)%Q.
Proof. apply fle_spec. Qed.

Lemma fgt_spec (x y : Q) : fgt x y = true <-> (y < x)%Q.
Proof. apply flt_spec. Qed.

Lemma fle_false (x y : Q) : fle x y = false <-> (y < x)%Q.
Proof.
  rewrite <- not_true_iff_false, fle_spec.
  split; [apply Qnot_le_lt | apply Qlt_not_le].
Qed.

Lemma flt_false (x y : Q) : flt x y = false <-> (y <= x)%Q.
Proof.
  rewrite <- not_true_iff_false, flt_spec.
  split; [apply Qnot_lt_le | apply Qle_not_lt].
Qed.

Lemma fgt_false (x y : Q) : fgt x y = false <-> (x <= y)%Q.
Proof. apply flt_false. Qed.

Lemma not_true_false_iff (b : bool) (P : Prop) : (b = true <-> P) -> (b = false <-> ~ P).
Proof. intros H. rewrite <- H. symmetry. apply not_true_iff_false. Qed.

(** Reduce a bind whose first computation is a value. *)
Ltac run_bind := cbn [mbind result_bind mret result_ret]; cbv beta iota zeta.

Lemma fdiv_ok (x y : Q) : ~ (y == 0)%Q -> fdiv x y = Ok (x / y)%Q.
Proof.
  intros Hy. unfold fdiv.
  destruct (Qeq_bool y 0) eqn:E; [|reflexivity].
  apply Qeq_bool_iff in E. contradiction.
Qed.

Lemma fdiv_pos (x y : Q) : (0 < y)%Q -> fdiv x y = Ok (x / y)%Q.
Proof.
  intros Hy. apply fdiv_ok. intros E. rewrite E in Hy. exact (Qlt_irrefl 0 Hy).
Qed.

Lemma time_cmp_spec (a b : time) :
  match time_cmp a b with
  | Lt => time_lt a b
  | Eq => a = b
  | Gt => time_lt b a
  end.
Proof.
  destruct a as [h1 m1 s1 u1], b as [h2 m2 s2 u2].
  unfold time_cmp, time_lt; simpl.
  destruct (Z.compare_spec h1 h2); [subst | lia | lia].
  destruct (Z.compare_spec m1 m2); [subst | lia | lia].
  destruct (Z.compare_spec s1 s2); [subst | lia | lia].
  destruct (Z.compare_spec u1 u2); [subst; reflexivity | lia | lia].
Qed.

Lemma time_lt_irrefl (a : time) : ~ time_lt a a.
Proof. unfold time_lt. lia. Qed.

Lemma time_lt_asym (a b : time) : time_lt a b -> ~ time_lt b a.
Proof. unfold time_lt. lia. Qed.

Lemma time_ltb_spec (a b : time) : time_ltb a b = true <-> time_lt a b.
Proof.
  unfold time_ltb. pose proof (time_cmp_spec a b) as H.
  destruct (time_cmp a b); split; intros H'; try discriminate; try reflexivity; try assumption.
  - subst. destruct (time_lt_irrefl _ H').
  - destruct (time_lt_asym _ _ H H').
Qed.

Lemma time_leb_spec (a b : time) : time_leb a b = true <-> time_le a b.
Proof.
  unfold time_leb, time_le. pose proof (time_cmp_spec a b) as H.
  destruct (time_cmp a b); split; intros H'; try discriminate; try reflexivity; auto.
  destruct H' as [H' | ->].
  - destruct (time_lt_asym _ _ H H').
  - destruct (time_lt_irrefl _ H).
Qed.

Lemma time_leb_false (a b : time) : time_leb a b = false <-> time_lt b a.
Proof.
  unfold time_leb. pose proof (time_cmp_spec a b) as H.
  destruct (time_cmp a b); split; intros H'; try discriminate; try reflexivity; auto.
  - subst. destruct (time_lt_irrefl _ H').
  - destruct (time_lt_asym _ _ H H').
Qed.

Lemma time_lt_us (a b : time) :
  valid_time a -> valid_time b -> (time_lt a b <-> (us_of_day a < us_of_day b)%Z).
Proof.
  unfold valid_time, time_lt, us_of_day.
  destruct a as [h1 m1 s1 u1], b as [h2 m2 s2 u2]; simpl. intros Ha Hb. nia.
Qed.

(** ** Session and blackout windows *)

Lemma in_window_member (t : time) (w : Universe.SessionWindow) :
  Universe._in_window t w = true <->
  window_member (Universe.start w) (Universe.end_ w) t.
Proof.
  unfold Universe._in_window, window_member, time_geb.
  destruct (time_leb (Universe.start w) (Universe.end_ w)) eqn:E.
  - apply time_leb_spec in E.
    rewrite andb_true_iff, time_leb_spec, time_ltb_spec.
    split; [tauto|]. intros [H | [H _]]; [tauto|].
    destruct E as [E | E].
    + destruct (time_lt_asym _ _ E H).
    + rewrite E in H. destruct (time_lt_irrefl _ H).
  - apply time_leb_false in E.
    rewrite orb_true_iff, time_leb_spec, time_ltb_spec.
    split; [tauto|]. intros [[H _] | H]; [|tauto].
    destruct H as [H | H].
    + destruct (time_lt_asym _ _ E H).
    + rewrite H in E. destruct (time_lt_irrefl _ E).
Qed.

Lemma window_member_wrap (s e t : time) :
  time_lt e s -> (window_member s e t <-> time_le s t \/ time_lt t e).
Proof.
  intros He. unfold window_member. split; [|tauto].
  intros [[H _] | H]; [|tauto].
  destruct H as [H | H].
  - destruct (time_lt_asym _ _ He H).
  - rewrite H in He. destruct (time_lt_irrefl _ He).
Qed.

Lemma window_member_plain (s e t : time) :
  time_le s e -> (window_member s e t <-> time_le s t /\ time_lt t e).
Proof.
  intros He. unfold window_member. split; [|tauto].
  intros [H | [H _]]; [tauto|].
  destruct He as [He | He].
  - destruct (time_lt_asym _ _ He H).
  - rewrite He in H. destruct (time_lt_irrefl _ H).
Qed.

Lemma time_le_us (a b : time) :
  valid_time a -> valid_time b -> (time_le a b <-> (us_of_day a <= us_of_day b)%Z).
Proof.
  intros Ha Hb. unfold time_le. rewrite (time_lt_us a b Ha Hb). split.
  - intros [H | ->]; lia.
  - intros H. destruct (Z.eq_dec (us_of_day a) (us_of_day b)) as [E | E]; [|lia].
    right. destruct a as [h1 m1 s1 u1], b as [h2 m2 s2 u2].
    unfold valid_time, us_of_day in *; simpl in *.
    assert (h1 = h2) by nia. subst.
    assert (m1 = m2) by nia. subst.
    assert (s1 = s2) by nia. subst.
    assert (u1 = u2) by nia. subst. reflexivity.
Qed.

Lemma us_of_day_range (t : time) :
  valid_time t -> (0 <= us_of_day t < us_per_day)%Z.
Proof.
  unfold valid_time, us_of_day, us_per_day. destruct t as [h m s u]; simpl. nia.
Qed.

Lemma check_windows_vetoes (d : date) (t : time) (windows : list (date * time * time)) :
  TradeFilters.allowed (TradeFilters.check_windows d t windows) = false <->
  exists s e, In (d, s, e) windows /\ window_member s e t.
Proof.
  induction windows as [| [[wd s] e] rest IH]; simpl.
  - split; [discriminate | intros (? & ? & [] & _)].
  - assert (Hm : time_leb s e = true /\ (time_leb s t && time_ltb t e = true) \/
                 time_leb s e = false /\ (time_geb t s || time_ltb t e = true) <->
                 window_member s e t).
    { pose proof (in_window_member t (Universe.mk_window s e true)) as H.
      unfold Universe._in_window in H; simpl in H. rewrite <- H.
      destruct (time_leb s e); split; intros H'; try tauto.
      - destruct H' as [[_ H'] | [H' _]]; [exact H' | discriminate].
      - destruct H' as [[H' _] | [_ H']]; [discriminate | exact H']. }
    destruct (Z.eqb_spec d wd) as [-> | Hne]; simpl.
    + destruct (time_leb s e) eqn:Ese.
      * destruct (time_leb s t && time_ltb t e) eqn:Ein; simpl.
        -- split; [|reflexivity]. intros _. exists s, e. split; [now left | apply Hm; tauto].
        -- rewrite IH. split.
           ++ intros (s' & e' & Hin & Hw). exists s', e'. split; [now right | exact Hw].
           ++ intros (s' & e' & [Heq | Hin] & Hw); [|eauto].
              inversion Heq; subst. apply Hm in Hw.
              destruct Hw as [[_ Hw] | [Hw _]]; discriminate.
      * destruct (time_geb t s || time_ltb t e) eqn:Ein; simpl.
        -- split; [|reflexivity]. intros _. exists s, e. split; [now left | apply Hm; tauto].
        -- rewrite IH. split.
           ++ intros (s' & e' & Hin & Hw). exists s', e'. split; [now right | exact Hw].
           ++ intros (s' & e' & [Heq | Hin] & Hw); [|eauto].
              inversion Heq; subst. apply Hm in Hw.
              destruct Hw as [[Hw _] | [_ Hw]]; discriminate.
    + rewrite IH. split.
      * intros (s' & e' & Hin & Hw). exists s', e'. split; [now right | exact Hw].
      * intros (s' & e' & [Heq | Hin] & Hw); [|eauto].
        inversion Heq; subst. contradiction.
Qed.

(** C8.  A session window and a macro blackout window with [start > end]
    wrap past midnight: [t] is inside iff [t >= start] or [t < end], that is,
    iff [t] lies between [start] and midnight or between midnight and [end];
    with [start <= end] membership is [start <= t < end].  The window
    20:00-04:00 contains 23:00 and 02:00 and does not contain 05:00. *)
Theorem window_wraps_past_midnight :
  (forall (t : time) (w : Universe.SessionWindow),
     let s := Universe.start w in
     let e := Universe.end_ w in
     (time_lt e s -> (Universe._in_window t w = true <-> time_le s t \/ time_lt t e)) /\
     (time_le s e -> (Universe._in_window t w = true <-> time_le s t /\ time_lt t e)) /\
     (valid_time s -> valid_time e -> valid_time t -> time_lt e s ->
      (Universe._in_window t w = true <->
       (us_of_day s <= us_of_day t < us_per_day)%Z \/
       (0 <= us_of_day t < us_of_day e)%Z))) /\
  (forall (mb : TradeFilters.MacroEventBlackout) (dt : datetime),
     TradeFilters.enabled mb = true ->
     dt_date dt ∉ TradeFilters.blackout_dates mb ->
     (TradeFilters.allowed (TradeFilters.check mb dt) = false <->
      exists s e, In (dt_date dt, s, e) (TradeFilters.blackout_windows mb) /\
                  ((time_lt e s /\ (time_le s (dt_time dt) \/ time_lt (dt_time dt) e)) \/
                   (time_le s e /\ time_le s (dt_time dt) /\ time_lt (dt_time dt) e)))) /\
  (let w := Universe.mk_window (hm 20 0) (hm 4 0) true in
   Universe._in_window (hm 23 0) w = true /\
   Universe._in_window (hm 2 0) w = true /\
   Universe._in_window (hm 5 0) w = false) /\
  (let mb := TradeFilters.mk_macro true ∅ [(739000%Z, hm 20 0, hm 4 0)] in
   TradeFilters.allowed (TradeFilters.check mb (mk_datetime 739000%Z (hm 23 0))) = false /\
   TradeFilters.allowed (TradeFilters.check mb (mk_datetime 739000%Z (hm 2 0))) = false /\
   TradeFilters.allowed (TradeFilters.check mb (mk_datetime 739000%Z (hm 5 0))) = true).
Proof.
  split; [|split; [|split]].
  - intros t w s e. subst s e. rewrite in_window_member.
    split; [|split].
    + apply window_member_wrap.
    + apply window_member_plain.
    + intros Hs He Ht Hwrap. rewrite (window_member_wrap _ _ _ Hwrap).
      rewrite (time_le_us _ _ Hs Ht), (time_lt_us _ _ Ht He).
      pose proof (us_of_day_range t Ht). lia.
  - intros mb dt Hen Hnot. unfold TradeFilters.check. rewrite Hen; simpl.
    destruct (decide (dt_date dt ∈ TradeFilters.blackout_dates mb)) as [Hin | _];
      [contradiction|].
    rewrite check_windows_vetoes. unfold window_member.
    split; intros (s & e & Hin & Hw); exists s, e; (split; [exact Hin | tauto]).
  - vm_compute. repeat split.
  - vm_compute. repeat split.
Qed.

(** ** Exit priority *)

Section ExitPriority.
Import Strategy ExitTable.

Variable st : TrendFollowingStrategy.

Lemma stop_fires_spec (ret_pct : Q) :
  fle ret_pct (- stop_loss_pct st) = true <-> stop_fires st ret_pct.
Proof. apply fle_spec. Qed.

Lemma target_fires_spec (ret_pct : Q) :
  truthy (cfg_take_profit_pct st)
    && fge ret_pct (default 0%Q (cfg_take_profit_pct st)) = true <->
  target_fires st ret_pct.
Proof.
  unfold target_fires, truthy. destruct (cfg_take_profit_pct st) as [tp|]; simpl.
  - rewrite andb_true_iff, negb_true_iff, fge_spec, <- not_true_iff_false, Qeq_bool_iff.
    split.
    + intros [H1 H2]. exists tp. auto.
    + intros (tp' & E & H1 & H2). inversion E; subst. auto.
  - split; [discriminate | intros (tp & E & _); discriminate].
Qed.

Lemma time_fires_spec (bars_held : Z) :
  (bars_held >=? cfg_time_bars_exit st)%Z = true <-> time_fires st bars_held.
Proof. unfold time_fires. rewrite Z.geb_le. reflexivity. Qed.

Lemma spread_fires_spec (spread_pct : option Q) :
  match spread_pct with
  | Some s => fgt s (kill_switch_max_spread_pct st)
  | None => false
  end = true <-> spread_fires st spread_pct.
Proof.
  unfold spread_fires. destruct spread_pct as [s|].
  - rewrite fgt_spec. split; [eauto|]. intros (s' & E & H). inversion E; subst. exact H.
  - split; [discriminate | intros (s & E & _); discriminate].
Qed.

Lemma atr_fires_spec (atr_multiple : option Q) :
  match atr_multiple with
  | Some a => fgt a (kill_switch_max_atr_multiple st)
  | None => false
  end = true <-> atr_fires st atr_multiple.
Proof.
  unfold atr_fires. destruct atr_multiple as [a|].
  - rewrite fgt_spec. split; [eauto|]. intros (a' & E & H). inversion E; subst. exact H.
  - split; [discriminate | intros (a & E & _); discriminate].
Qed.

Lemma check_exit_first_match (symbol : string) (entry_price current_price : Q)
    (bars_held : Z) (spread_pct atr_multiple : option Q) :
  (0 < entry_price)%Q ->
  exists sig,
    check_exit st symbol entry_price current_price bars_held spread_pct atr_multiple
      = Ok sig /\
    first_match st (ret_pct_of entry_price current_price) bars_held spread_pct
      atr_multiple (reason <$> sig) /\
    (forall s, sig = Some s ->
       exit_symbol s = symbol /\
       (reason s = STOP_LOSS \/ reason s = TAKE_PROFIT ->
        exit_metadata s
          = {[ "ret_pct"%string := ret_pct_of entry_price current_price ]})).
Proof.
  intros Hpos. unfold check_exit. rewrite (fdiv_pos _ _ Hpos). run_bind.
  fold (ret_pct_of entry_price current_price).
  set (ret := ret_pct_of entry_price current_price).
  unfold first_match.
  destruct (fle ret (- stop_loss_pct st)) eqn:E1.
  { apply stop_fires_spec in E1. eexists; split; [reflexivity|]. split.
    - left. auto.
    - intros s [= <-]. split; reflexivity. }
  apply (not_true_false_iff _ _ (stop_fires_spec ret)) in E1.
  destruct (truthy (cfg_take_profit_pct st) && _) eqn:E2.
  { apply target_fires_spec in E2. eexists; split; [reflexivity|]. split.
    - right; left. auto.
    - intros s [= <-]. split; reflexivity. }
  apply (not_true_false_iff _ _ (target_fires_spec ret)) in E2.
  destruct (bars_held >=? cfg_time_bars_exit st)%Z eqn:E3.
  { apply time_fires_spec in E3. eexists; split; [reflexivity|]. split.
    - right; right; left. auto.
    - intros s [= <-]. split; [reflexivity | intros [H | H]; discriminate]. }
  apply (not_true_false_iff _ _ (time_fires_spec bars_held)) in E3.
  destruct (match spread_pct with Some _ => _ | None => _ end) eqn:E4.
  { apply spread_fires_spec in E4. eexists; split; [reflexivity|]. split.
    - right; right; right; left. auto.
    - intros s [= <-]. split; [reflexivity | intros [H | H]; discriminate]. }
  apply (not_true_false_iff _ _ (spread_fires_spec spread_pct)) in E4.
  destruct (match atr_multiple with Some _ => _ | None => _ end) eqn:E5.
  { apply atr_fires_spec in E5. eexists; split; [reflexivity|]. split.
    - right; right; right; right; left. auto 6.
    - intros s [= <-]. split; [reflexivity | intros [H | H]; discriminate]. }
  apply (not_true_false_iff _ _ (atr_fires_spec atr_multiple)) in E5.
  eexists; split; [reflexivity|]. split.
  - right; right; right; right; right. auto 7.
  - intros s [=].
Qed.

End ExitPriority.

(** C2.  For [entry_price > 0], [check_exit] returns, with
    [ret_pct = (current_price - entry_price) / entry_price * 100], the reason
    of the first condition that fires in the order STOP_LOSS, TAKE_PROFIT,
    TIME_BARS, KILL_SWITCH (spread), KILL_SWITCH (ATR).  When stop, target
    and time all fire the reason is STOP_LOSS; when target and time fire
    (and the stop, which has priority, does not) it is TAKE_PROFIT; when no
    condition fires there is no exit. *)
Theorem check_exit_priority_order (st : Strategy.TrendFollowingStrategy)
    (symbol : string) (entry_price current_price : Q) (bars_held : Z)
    (spread_pct atr_multiple : option Q) :
  (0 < entry_price)%Q ->
  let ret_pct := ExitTable.ret_pct_of entry_price current_price in
  exists sig,
    Strategy.check_exit st symbol entry_price current_price bars_held
      spread_pct atr_multiple = Ok sig /\
    ExitTable.first_match st ret_pct bars_held spread_pct atr_multiple
      (Strategy.reason <$> sig) /\
    (forall s, sig = Some s ->
       Strategy.reason s = Strategy.STOP_LOSS \/ Strategy.reason s = Strategy.TAKE_PROFIT ->
       Strategy.exit_metadata s = {[ "ret_pct"%string := ret_pct ]}) /\
    (ExitTable.stop_fires st ret_pct -> ExitTable.target_fires st ret_pct ->
     ExitTable.time_fires st bars_held ->
     Strategy.reason <$> sig = Some Strategy.STOP_LOSS) /\
    (~ ExitTable.stop_fires st ret_pct -> ExitTable.target_fires st ret_pct ->
     ExitTable.time_fires st bars_held ->
     Strategy.reason <$> sig = Some Strategy.TAKE_PROFIT) /\
    (~ ExitTable.stop_fires st ret_pct -> ~ ExitTable.target_fires st ret_pct ->
     ~ ExitTable.time_fires st bars_held ->
     ~ ExitTable.spread_fires st spread_pct ->
     ~ ExitTable.atr_fires st atr_multiple -> sig = None).
Proof.
  intros Hpos ret_pct.
  destruct (check_exit_first_match st symbol entry_price current_price bars_held
              spread_pct atr_multiple Hpos) as (sig & Hrun & Hfirst & Hsig).
  fold ret_pct in Hfirst, Hsig.
  exists sig. split; [exact Hrun|]. split; [exact Hfirst|].
  split; [intros s Hs; exact (proj2 (Hsig s Hs))|].
  unfold ExitTable.first_match in Hfirst.
  repeat split.
  - intros H1 H2 H3. intuition.
  - intros H1 H2 H3. intuition.
  - intros H1 H2 H3 H4 H5.
    assert (Strategy.reason <$> sig = None) as Hnone by intuition (try discriminate).
    destruct sig; [discriminate | reflexivity].
Qed.

(** Scenario S6: entry 100, price 94, stop 5%, target 3%, time exit after 5
    bars, 10 bars held.  The stop and the time exit fire; the stop wins. *)
Lemma check_exit_priority_order_witness :
  let st := Strategy.mk_strategy "neutral" (12 # 10) 20 200 true 14 2 5 (Some 3%Q) 5
              (25 # 100) 3 false [] in
  (0 < 100)%Q /\
  exists sig,
    Strategy.check_exit st "SPY" 100 94 10 None None = Ok sig /\
    Strategy.reason <$> sig = Some Strategy.STOP_LOSS.
Proof.
  intros st.
  assert (Hpos : (0 < 100)%Q) by reflexivity.
  split; [exact Hpos|].
  destruct (check_exit_priority_order st "SPY" 100 94 10 None None Hpos)
    as (sig & Hrun & Hfirst & _).
  exists sig. split; [exact Hrun|].
  assert (Hstop : ExitTable.stop_fires st (ExitTable.ret_pct_of 100 94)).
  { unfold ExitTable.stop_fires. vm_compute. discriminate. }
  destruct Hfirst as [[_ H] | [[H _] | [[H _] | [[H _] | [[H _] | [H _]]]]]];
    [exact H | destruct (H Hstop) ..].
Defined.

(** ** Pattern-day-trader compliance *)

Lemma recent_day_trades_count (state : Compliance.PDTState) (cutoff : date) :
  Z.of_nat (length (Compliance.recent_day_trades state cutoff)) =
  count_since cutoff (Compliance.day_trade_dates state).
Proof.
  unfold Compliance.recent_day_trades.
  induction (Compliance.day_trade_dates state) as [| d rest IH]; simpl; [reflexivity|].
  rewrite Z.geb_leb. destruct (cutoff <=? d)%Z; simpl length; lia.
Qed.

(** C5.  [can_day_trade] allows when PDT is disabled or the account is not
    a margin account; otherwise it allows when [equity >= pdt_min_equity];
    otherwise it counts the day-trade dates [d >= today - 7] and vetoes, with
    the PDT reason, iff that count is at least 3.  The configured default of
    [pdt_min_equity] is 25000, at which equity 25000 is allowed. *)
Theorem can_day_trade_rule (m : Compliance.ComplianceManager)
    (state : Compliance.PDTState) (today : date) :
  let count := count_since (today - 7)%Z (Compliance.day_trade_dates state) in
  (Compliance.pdt_enabled m = false \/ Compliance.margin_account m = false ->
   (Compliance.can_day_trade m state today).1 = true) /\
  (Compliance.pdt_enabled m = true -> Compliance.margin_account m = true ->
   (Compliance.pdt_min_equity m <= Compliance.equity state)%Q ->
   (Compliance.can_day_trade m state today).1 = true) /\
  (Compliance.pdt_enabled m = true -> Compliance.margin_account m = true ->
   (Compliance.equity state < Compliance.pdt_min_equity m)%Q ->
   ((3 <= count)%Z ->
    Compliance.can_day_trade m state today =
      (false, RPdtLimitReached (Compliance.equity state) (Compliance.pdt_min_equity m) 3)) /\
   ((count < 3)%Z -> Compliance.can_day_trade m state today = (true, ROk)) /\
   ((Compliance.can_day_trade m state today).1 = false <-> (3 <= count)%Z)) /\
  (Compliance.can_day_trade (Compliance.mk_manager 25000 true true)
     (Compliance.mk_pdt 25000 0 [today; today; today]) today).1 = true /\
  (Compliance.can_day_trade (Compliance.mk_manager 25000 true true)
     (Compliance.mk_pdt 20000 0 [today; today; today]) today).1 = false.
Proof.
  intros count. unfold Compliance.can_day_trade.
  rewrite recent_day_trades_count. fold count.
  unfold Compliance.max_day_trades_below_threshold.
  split; [|split; [|split; [|split]]].
  - intros [-> | ->]; [reflexivity|]. rewrite orb_true_r. reflexivity.
  - intros -> -> Heq. simpl. apply fge_spec in Heq. rewrite Heq. reflexivity.
  - intros -> -> Hlt. simpl.
    assert (E : fge (Compliance.equity state) (Compliance.pdt_min_equity m) = false)
      by (apply fle_false; exact Hlt).
    rewrite E.
    destruct (Z.geb_spec count 3) as [H | H].
    + split; [reflexivity|]. split; [lia|]. simpl. split; [intros _; lia | reflexivity].
    + split; [lia|]. split; [reflexivity|]. simpl. split; [discriminate | lia].
  - reflexivity.
  - rewrite recent_day_trades_count. cbn [Compliance.day_trade_dates count_since].
    replace (today - 7 <=? today)%Z with true by (symmetry; apply Z.leb_le; lia).
    reflexivity.
Qed.

(** ** Equity peak and drawdown *)

Section Peak.
Import PortfolioRisk Ledger.

Variable m : PortfolioRiskManager.

Lemma update_equity_peak (state : PortfolioRiskState) (dt : datetime) (equity : Q) :
  peak_equity (update_equity m state dt equity) =
  if fgt equity (peak_equity state) then equity else peak_equity state.
Proof. reflexivity. Qed.

Lemma update_equity_peak_max (state : PortfolioRiskState) (dt : datetime) (equity : Q) :
  is_max (peak_equity (update_equity m state dt equity)) [peak_equity state; equity].
Proof.
  rewrite update_equity_peak. unfold is_max.
  destruct (fgt equity (peak_equity state)) eqn:E.
  - apply fgt_spec in E. split.
    + exists equity. split; [simpl; auto | reflexivity].
    + intros x [<- | [<- | []]]; [apply Qlt_le_weak; exact E | apply Qle_refl].
  - apply fgt_false in E. split.
    + exists (peak_equity state). split; [simpl; auto | reflexivity].
    + intros x [<- | [<- | []]]; [apply Qle_refl | exact E].
Qed.

Lemma update_equities_curve (updates : list (datetime * Q)) (state : PortfolioRiskState) :
  equity_curve (update_equities m state updates) = equity_curve state ++ updates.
Proof.
  revert state. induction updates as [| [dt eq] rest IH]; intros state.
  - simpl. rewrite app_nil_r. reflexivity.
  - unfold update_equities in *. simpl. rewrite IH. simpl.
    rewrite <- app_assoc. reflexivity.
Qed.

Lemma update_equities_peak_max (updates : list (datetime * Q)) (state : PortfolioRiskState) :
  is_max (peak_equity (update_equities m state updates))
    (peak_equity state :: map snd updates).
Proof.
  revert state. induction updates as [| [dt eq] rest IH]; intros state.
  - simpl. split.
    + exists (peak_equity state). split; [simpl; auto | reflexivity].
    + intros x [<- | []]. apply Qle_refl.
  - unfold update_equities in *. simpl fold_left. simpl map.
    specialize (IH (update_equity m state dt eq)).
    destruct IH as [(x & Hin & Hx) Hub].
    destruct (update_equity_peak_max state dt eq) as [(y & Hy & Hyeq) Hstep].
    split.
    + destruct Hin as [<- | Hin].
      * exists y. split.
        -- destruct Hy as [<- | [<- | []]]; simpl; auto.
        -- rewrite Hyeq. exact Hx.
      * exists x. split; [simpl; auto | exact Hx].
    + intros z [<- | [<- | Hz]].
      * apply Qle_trans with (peak_equity (update_equity m state dt eq)).
        -- apply Hstep. simpl; auto.
        -- apply Hub. simpl; auto.
      * apply Qle_trans with (peak_equity (update_equity m state dt eq)).
        -- apply Hstep. simpl; auto.
        -- apply Hub. simpl; auto.
      * apply Hub. simpl; auto.
Qed.

End Peak.

(** C6, as the claim states it, fails: after [update_equity] with the single
    equity -5 on an initial state the peak is still 0, which is not the
    maximum of the equities supplied. *)
Lemma peak_equity_negative_equity :
  let m := PortfolioRisk.mk_manager (-2) (-10) true (-8) 15 3 in
  let st := Ledger.update_equities m PortfolioRisk.initial_state
              [(mk_datetime 739000%Z (hm 10 0), (-5)%Q)] in
  PortfolioRisk.peak_equity st = 0%Q /\
  ~ is_max (PortfolioRisk.peak_equity st) [(-5)%Q].
Proof.
  split; [reflexivity|].
  intros [(x & [<- | []] & Hx) _]. vm_compute in Hx. discriminate.
Qed.

(** C6, amended.  After any sequence of [update_equity] calls on an initial
    state the equity curve holds the supplied pairs in order and
    [peak_equity] is the maximum of 0, the initial peak, and the equities
    supplied; it is the maximum of the equities as soon as one of them is
    not negative.  Each call raises the peak to the equity exactly when the
    equity exceeds the current peak. *)
Theorem peak_equity_running_max (m : PortfolioRisk.PortfolioRiskManager)
    (updates : list (datetime * Q)) :
  let st := Ledger.update_equities m PortfolioRisk.initial_state updates in
  PortfolioRisk.equity_curve st = updates /\
  is_max (PortfolioRisk.peak_equity st) (0%Q :: map snd updates) /\
  ((exists e, In e (map snd updates) /\ (0 <= e)%Q) ->
   is_max (PortfolioRisk.peak_equity st) (map snd updates)) /\
  (forall (state : PortfolioRisk.PortfolioRiskState) (dt : datetime) (equity : Q),
     let state' := PortfolioRisk.update_equity m state dt equity in
     PortfolioRisk.equity_curve state' =
       PortfolioRisk.equity_curve state ++ [(dt, equity)] /\
     ((PortfolioRisk.peak_equity state < equity)%Q ->
      PortfolioRisk.peak_equity state' = equity) /\
     ((equity <= PortfolioRisk.peak_equity state)%Q ->
      PortfolioRisk.peak_equity state' = PortfolioRisk.peak_equity state)).
Proof.
  intros st. subst st.
  pose proof (update_equities_peak_max m updates PortfolioRisk.initial_state) as Hmax.
  change (PortfolioRisk.peak_equity PortfolioRisk.initial_state) with 0%Q in Hmax.
  split; [apply (update_equities_curve m updates PortfolioRisk.initial_state)|].
  split; [exact Hmax|]. split.
  - intros (e & He & Hpos). destruct Hmax as [(x & Hin & Hx) Hub]. split.
    + destruct Hin as [<- | Hin]; [|exists x; auto].
      exists e. split; [exact He|].
      apply Qle_antisym.
      * apply Hub. simpl; auto.
      * rewrite <- Hx. exact Hpos.
    + intros z Hz. apply Hub. simpl; auto.
  - intros state dt equity state'. subst state'.
    split; [reflexivity|]. rewrite update_equity_peak. split; intros H.
    + apply fgt_spec in H. rewrite H. reflexivity.
    + apply fgt_false in H. rewrite H. reflexivity.
Qed.

Lemma scaled_ratio_sign (x p : Q) :
  (0 < p)%Q -> ((x / p * 100 <= 0)%Q <-> (x <= 0)%Q).
Proof.
  intros Hp.
  assert (Hinv : (0 < / p)%Q) by (apply Qinv_lt_0_compat; exact Hp).
  split; intros H.
  - apply Qnot_lt_le. intros Hx.
    assert (Hpos : (0 < x / p * 100)%Q).
    { unfold Qdiv. apply Qmult_lt_0_compat; [|reflexivity].
      apply Qmult_lt_0_compat; assumption. }
    exact (Qlt_not_le _ _ Hpos H).
  - setoid_replace 0%Q with (0 * / p * 100)%Q using relation Qeq by ring.
    unfold Qdiv. apply Qmult_le_compat_r; [|discriminate].
    apply Qmult_le_compat_r; [exact H | apply Qlt_le_weak; exact Hinv].
Qed.

(** C7, as the claim states it, fails: with peak 100 and current equity 110
    the drawdown is +10. *)
Lemma drawdown_positive_above_peak :
  let m := PortfolioRisk.mk_manager (-2) (-10) true (-8) 15 3 in
  let st := PortfolioRisk.mk_state [] 100 0 0 ∅ None false false in
  (0 < PortfolioRisk.peak_equity st)%Q /\
  exists v, PortfolioRisk.current_drawdown_pct m st 110 = Ok v /\
            (v == 10)%Q /\ ~ (v <= 0)%Q.
Proof.
  split; [reflexivity|].
  eexists. split; [vm_compute; reflexivity|].
  split; [reflexivity | vm_compute; intros H; apply H; reflexivity].
Qed.

(** C7, amended.  With [peak_equity > 0], [current_drawdown_pct] returns
    [(current_equity - peak_equity) / peak_equity * 100], which is [<= 0]
    exactly when [current_equity <= peak_equity]; with [peak_equity <= 0]
    it returns 0. *)
Theorem current_drawdown_pct_sign (m : PortfolioRisk.PortfolioRiskManager)
    (state : PortfolioRisk.PortfolioRiskState) (current_equity : Q) :
  let peak := PortfolioRisk.peak_equity state in
  ((0 < peak)%Q ->
   PortfolioRisk.current_drawdown_pct m state current_equity =
     Ok ((current_equity - peak) / peak * 100)%Q /\
   (((current_equity - peak) / peak * 100 <= 0)%Q <-> (current_equity <= peak)%Q)) /\
  ((peak <= 0)%Q ->
   PortfolioRisk.current_drawdown_pct m state current_equity = Ok 0%Q).
Proof.
  intros peak. unfold PortfolioRisk.current_drawdown_pct. fold peak. split.
  - intros Hpos.
    assert (E : fle peak 0 = false) by (apply fle_false; exact Hpos).
    rewrite E, (fdiv_pos _ _ Hpos). split; [reflexivity|].
    rewrite (scaled_ratio_sign _ _ Hpos). split; intros H.
    + apply Qplus_le_r with (z := (- peak)%Q).
      setoid_replace (- peak + peak)%Q with 0%Q using relation Qeq by ring.
      setoid_replace (- peak + current_equity)%Q with (current_equity - peak)%Q using relation Qeq by ring.
      exact H.
    + apply Qplus_le_r with (z := peak).
      setoid_replace (peak + (current_equity - peak))%Q with current_equity using relation Qeq by ring.
      setoid_replace (peak + 0)%Q with peak using relation Qeq by ring.
      exact H.
  - intros Hle. apply fle_spec in Hle. rewrite Hle. reflexivity.
Qed.

(** ** Fills and the slippage circuit breaker *)

Section RecordFill.
Import Execution Fills.

Variable m : ExecutionManager.

Lemma fill_slippage_ok (side : string) (fill_price expected_price : Q) :
  exists slip,
    fill_slippage side fill_price expected_price = Ok slip /\
    ((expected_price <= 0)%Q -> slip = 0%Q) /\
    ((0 < expected_price)%Q -> side = "buy"%string ->
     slip = ((fill_price - expected_price) / expected_price * 10000)%Q) /\
    ((0 < expected_price)%Q -> side <> "buy"%string ->
     slip = ((expected_price - fill_price) / expected_price * 10000)%Q).
Proof.
  unfold fill_slippage. destruct (fle expected_price 0) eqn:E.
  - apply fle_spec in E. exists 0%Q. split; [reflexivity|].
    split; [reflexivity|].
    split; intros Hpos; destruct (Qlt_not_le _ _ Hpos E).
  - apply fle_false in E. rewrite !(fdiv_pos _ _ E).
    destruct (String.eqb_spec side "buy") as [-> | Hne].
    + eexists. split; [reflexivity|].
      split; [intros Hle; destruct (Qlt_not_le _ _ E Hle)|].
      split; [reflexivity | intros _ Hne; destruct Hne; reflexivity].
    + eexists. split; [reflexivity|].
      split; [intros Hle; destruct (Qlt_not_le _ _ E Hle)|].
      split; [intros _ Heq; destruct (Hne Heq) | reflexivity].
Qed.

(** What one call computes: the fill appended, the average over the whole
    history, and the breaker set when the average exceeds the threshold and
    left as it was otherwise. *)
Lemma record_fill_run (now : datetime) (state : ExecutionState) (symbol side : string)
    (quantity : Z) (fill_price expected_price : Q) :
  exists slip,
    fill_slippage side fill_price expected_price = Ok slip /\
    let history :=
      fill_history state ++
        [mk_fill symbol side quantity fill_price expected_price slip now] in
    let avg := (sum_slippage history / inject_Z (Z.of_nat (length history)))%Q in
    record_fill m now state symbol side quantity fill_price expected_price =
      Ok (mk_state history avg
            (if fgt avg (block_strategy_if_slippage_bps_avg_exceeds m) then true
             else strategy_blocked state)).
Proof.
  destruct (fill_slippage_ok side fill_price expected_price) as (slip & Hslip & _).
  exists slip. split; [exact Hslip|]. intros history avg.
  unfold record_fill. rewrite Hslip.
  change (mbind ?f (Ok ?a)) with (f a). cbv beta zeta. fold history.
  assert (Hn : (0 < Z.of_nat (length history))%Z).
  { subst history. rewrite length_app. simpl. lia. }
  replace (Z.of_nat (length history) >? 0)%Z with true
    by (symmetry; apply Z.gtb_lt; exact Hn).
  rewrite fdiv_pos.
  - fold avg. simpl. destruct (fgt avg _); reflexivity.
  - unfold Qlt; simpl. lia.
Qed.

Lemma record_fill_keeps_block (c : fill_call) (state : ExecutionState) :
  strategy_blocked state = true ->
  exists state', record_one m state c = Ok state' /\ strategy_blocked state' = true.
Proof.
  intros Hb. unfold record_one.
  destruct (record_fill_run (now c) state (symbol c) (side c) (quantity c)
              (price c) (expected c)) as (slip & _ & Hrun).
  cbv zeta in Hrun. eexists. split; [exact Hrun|].
  simpl. rewrite Hb. destruct (fgt _ _); reflexivity.
Qed.

Lemma record_fills_keep_block (cs : list fill_call) (state : ExecutionState) :
  strategy_blocked state = true ->
  exists state', record_fills m state cs = Ok state' /\ strategy_blocked state' = true.
Proof.
  revert state. induction cs as [| c rest IH]; intros state Hb.
  - exists state. split; [reflexivity | exact Hb].
  - destruct (record_fill_keeps_block c state Hb) as (s1 & Hrun & Hb1).
    destruct (IH s1 Hb1) as (s2 & Hrest & Hb2).
    exists s2. split; [|exact Hb2].
    simpl. rewrite Hrun. exact Hrest.
Qed.

End RecordFill.

(** C10.  [record_fill] returns for every input: with [expected_price <= 0]
    the recorded fill has [slippage_bps = 0] and no division by
    [expected_price] takes place; the formulas (buy:
    [(fill - expected) / expected * 10000], sell:
    [(expected - fill) / expected * 10000]) apply under [expected_price > 0]
    only; the division by the number of fills is by a positive number. *)
Theorem record_fill_never_divides_by_zero (m : Execution.ExecutionManager)
    (now : datetime) (state : Execution.ExecutionState) (symbol side : string)
    (quantity : Z) (fill_price expected_price : Q) :
  exists slip state',
    Execution.record_fill m now state symbol side quantity fill_price expected_price
      = Ok state' /\
    Execution.fill_history state' =
      Execution.fill_history state ++
        [Execution.mk_fill symbol side quantity fill_price expected_price slip now] /\
    ((expected_price <= 0)%Q -> slip = 0%Q) /\
    ((0 < expected_price)%Q -> side = "buy"%string ->
     slip = ((fill_price - expected_price) / expected_price * 10000)%Q) /\
    ((0 < expected_price)%Q -> side <> "buy"%string ->
     slip = ((expected_price - fill_price) / expected_price * 10000)%Q).
Proof.
  destruct (fill_slippage_ok side fill_price expected_price) as (slip & Hslip & Hcases).
  destruct (record_fill_run m now state symbol side quantity fill_price expected_price)
    as (slip' & Hslip' & Hrun).
  rewrite Hslip in Hslip'. injection Hslip' as <-.
  cbv zeta in Hrun.
  exists slip. eexists. split; [exact Hrun|]. split; [reflexivity | exact Hcases].
Qed.

(** ** Latches of the portfolio-risk ledger *)

Section LedgerLatches.
Import PortfolioRisk Ledger.

Variable m : PortfolioRiskManager.

Lemma current_drawdown_pct_ok (state : PortfolioRiskState) (current_equity : Q) :
  exists dd, current_drawdown_pct m state current_equity = Ok dd.
Proof.
  unfold current_drawdown_pct. destruct (fle (peak_equity state) 0) eqn:E.
  - eexists; reflexivity.
  - apply fle_false in E. rewrite (fdiv_pos _ _ E). eexists; reflexivity.
Qed.

Lemma check_daily_reset_same_day (state : PortfolioRiskState) (today : date) :
  last_trade_date state = Some today -> check_daily_reset m state today = state.
Proof.
  intros H. unfold check_daily_reset.
  rewrite bool_decide_eq_false_2; [reflexivity | intros Hne; exact (Hne H)].
Qed.

Lemma check_daily_reset_new_day (state : PortfolioRiskState) (today : date) :
  last_trade_date state <> Some today ->
  check_daily_reset m state today =
    mk_state (equity_curve state) (peak_equity state) 0 0 ∅ (Some today)
      (safe_mode state) false.
Proof.
  intros H. unfold check_daily_reset. rewrite bool_decide_eq_true_2; [reflexivity | exact H].
Qed.

Lemma check_daily_reset_safe_mode (state : PortfolioRiskState) (today : date) :
  safe_mode (check_daily_reset m state today) = safe_mode state.
Proof. unfold check_daily_reset. destruct (bool_decide _); reflexivity. Qed.

(** The checks after the safe-mode check return, and never clear
    [safe_mode]. *)
Lemma can_trade_limits_run (state : PortfolioRiskState) (current_equity : Q)
    (symbol : string) :
  exists b r state',
    can_trade_limits m state current_equity symbol = Ok (b, r, state') /\
    (safe_mode state = true -> safe_mode state' = true) /\
    (trading_stopped_for_day state = true ->
     b = false /\ r = RDailyLossStopped /\ state' = state).
Proof.
  unfold can_trade_limits.
  destruct (trading_stopped_for_day state) eqn:Es.
  { do 3 eexists. split; [reflexivity|]. auto. }
  destruct (fle (daily_pnl_pct state) (daily_loss_limit_pct m)).
  { do 3 eexists. split; [reflexivity|]. split; [auto | discriminate]. }
  destruct (current_drawdown_pct_ok state current_equity) as (dd & ->).
  change (mbind ?f (Ok ?a)) with (f a). cbv beta.
  destruct (fle dd (max_drawdown_pct m) && safe_mode_after_max_dd m).
  { do 3 eexists. split; [reflexivity|]. split; [reflexivity | discriminate]. }
  destruct (daily_trade_count state >=? max_trades_per_day m)%Z.
  { do 3 eexists. split; [reflexivity|]. split; [auto | discriminate]. }
  cbv zeta.
  destruct (default 0%Z (daily_trades_per_symbol state !! symbol)
              >=? max_trades_per_symbol_per_day m)%Z.
  { do 3 eexists. split; [reflexivity|]. split; [auto | discriminate]. }
  do 3 eexists. split; [reflexivity|]. split; [auto | discriminate].
Qed.

(** [can_trade] in terms of its two stages. *)
Lemma can_trade_run (sys_today : date) (state : PortfolioRiskState) (current_equity : Q)
    (symbol : string) (today : option date) :
  let state0 := check_daily_reset m state (default sys_today today) in
  exists dd,
    current_drawdown_pct m state0 current_equity = Ok dd /\
    can_trade m sys_today state current_equity symbol today =
      if safe_mode state0 && fle dd (recovery_criteria_pct m)
      then Ok (false, RSafeModeNotRecovered dd (recovery_criteria_pct m), state0)
      else can_trade_limits m state0 current_equity symbol.
Proof.
  intros state0.
  destruct (current_drawdown_pct_ok state0 current_equity) as (dd & Hdd).
  exists dd. split; [exact Hdd|].
  unfold can_trade. fold state0. destruct (safe_mode state0); [|reflexivity].
  rewrite Hdd. change (mbind ?f (Ok ?a)) with (f a). cbv beta.
  destruct (fle dd (recovery_criteria_pct m)); reflexivity.
Qed.

Lemma can_trade_safe_mode (sys_today : date) (state : PortfolioRiskState)
    (current_equity : Q) (symbol : string) (today : option date) :
  safe_mode state = true ->
  exists b r state',
    can_trade m sys_today state current_equity symbol today = Ok (b, r, state') /\
    safe_mode state' = true.
Proof.
  intros Hs.
  destruct (can_trade_run sys_today state current_equity symbol today) as (dd & _ & ->).
  set (state0 := check_daily_reset m state (default sys_today today)).
  assert (Hs0 : safe_mode state0 = true)
    by (subst state0; rewrite check_daily_reset_safe_mode; exact Hs).
  destruct (safe_mode state0 && fle dd (recovery_criteria_pct m)).
  - do 3 eexists. split; [reflexivity | exact Hs0].
  - destruct (can_trade_limits_run state0 current_equity symbol)
      as (b & r & state' & Hrun & Hsafe & _).
    exists b, r, state'. split; [exact Hrun | exact (Hsafe Hs0)].
Qed.

Lemma can_trade_stopped_same_day (sys_today : date) (state : PortfolioRiskState)
    (current_equity : Q) (symbol : string) (today : option date) :
  trading_stopped_for_day state = true ->
  last_trade_date state = Some (default sys_today today) ->
  exists r, can_trade m sys_today state current_equity symbol today = Ok (false, r, state).
Proof.
  intros Hstop Hday.
  destruct (can_trade_run sys_today state current_equity symbol today) as (dd & _ & ->).
  rewrite (check_daily_reset_same_day _ _ Hday).
  destruct (safe_mode state && fle dd (recovery_criteria_pct m)).
  - eexists; reflexivity.
  - destruct (can_trade_limits_run state current_equity symbol)
      as (b & r & state' & Hrun & _ & Hstopped).
    destruct (Hstopped Hstop) as (-> & _ & ->). exists r. exact Hrun.
Qed.

Lemma run_call_safe_mode (c : call) (state : PortfolioRiskState) :
  safe_mode state = true ->
  exists state' out, run_call m state c = Ok (state', out) /\ safe_mode state' = true.
Proof.
  intros Hs. destruct c as [dt eq | today | sys eq sym today | sym pnl]; simpl.
  - do 2 eexists. split; [reflexivity | exact Hs].
  - do 2 eexists. split; [reflexivity|]. rewrite check_daily_reset_safe_mode. exact Hs.
  - destruct (can_trade_safe_mode sys state eq sym today Hs) as (b & r & state' & -> & Hs').
    do 2 eexists. split; [reflexivity | exact Hs'].
  - do 2 eexists. split; [reflexivity | exact Hs].
Qed.

Lemma run_calls_safe_mode (cs : list call) (state : PortfolioRiskState) :
  safe_mode state = true ->
  exists state' outs, run_calls m state cs = Ok (state', outs) /\ safe_mode state' = true.
Proof.
  revert state. induction cs as [| c rest IH]; intros state Hs.
  - do 2 eexists. split; [reflexivity | exact Hs].
  - destruct (run_call_safe_mode c state Hs) as (s1 & out & Hrun & Hs1).
    destruct (IH s1 Hs1) as (s2 & outs & Hrest & Hs2).
    exists s2, (option_list out ++ outs). split; [|exact Hs2].
    simpl. rewrite Hrun. cbn. rewrite Hrest. reflexivity.
Qed.

Lemma run_call_stopped (c : call) (state : PortfolioRiskState) :
  trading_stopped_for_day state = true ->
  (forall d, reset_date c = Some d -> last_trade_date state = Some d) ->
  exists state' out,
    run_call m state c = Ok (state', out) /\
    trading_stopped_for_day state' = true /\
    last_trade_date state' = last_trade_date state /\
    (if is_can_trade c then exists r, out = Some (false, r) else out = None).
Proof.
  intros Hstop Hday. destruct c as [dt eq | today | sys eq sym today | sym pnl]; simpl.
  - do 2 eexists. split; [reflexivity|]. auto.
  - rewrite (check_daily_reset_same_day state today (Hday today eq_refl)).
    do 2 eexists. split; [reflexivity|]. auto.
  - destruct (can_trade_stopped_same_day sys state eq sym today Hstop
                (Hday _ eq_refl)) as (r & ->).
    do 2 eexists. split; [reflexivity|]. split; [exact Hstop|]. split; [reflexivity|].
    exists r. reflexivity.
  - do 2 eexists. split; [reflexivity|]. auto.
Qed.

Lemma run_calls_stopped (cs : list call) (state : PortfolioRiskState) :
  trading_stopped_for_day state = true ->
  (forall c d, In c cs -> reset_date c = Some d -> last_trade_date state = Some d) ->
  exists state' outs,
    run_calls m state cs = Ok (state', outs) /\
    trading_stopped_for_day state' = true /\
    Forall (fun o : bool * Reason => o.1 = false) outs /\
    length outs = length (List.filter is_can_trade cs).
Proof.
  revert state. induction cs as [| c rest IH]; intros state Hstop Hday.
  - do 2 eexists. split; [reflexivity|]. split; [exact Hstop|]. split; [constructor | reflexivity].
  - destruct (run_call_stopped c state Hstop) as (s1 & out & Hrun & Hs1 & Hd1 & Hout).
    { intros d. apply Hday. simpl; auto. }
    destruct (IH s1 Hs1) as (s2 & outs & Hrest & Hs2 & Hall & Hlen).
    { intros c' d Hin. rewrite Hd1. apply Hday. simpl; auto. }
    exists s2, (option_list out ++ outs).
    split; [|split; [exact Hs2|]].
    + simpl. rewrite Hrun. cbn. rewrite Hrest. reflexivity.
    + simpl List.filter. destruct (is_can_trade c).
      * destruct Hout as (r & ->). simpl. split; [constructor; [reflexivity | exact Hall]|].
        rewrite Hlen. reflexivity.
      * subst out. simpl. split; [exact Hall | exact Hlen].
Qed.

End LedgerLatches.

(** C4, as the claim states it, fails in its second part: the state is
    stopped for the day with [last_trade_date] day 739000; a [can_trade]
    call for the earlier day 738999 resets the counters and returns true,
    though no [check_daily_reset] with a strictly later date took place. *)
Lemma stopped_flag_cleared_by_earlier_date :
  let m := PortfolioRisk.mk_manager (-2) (-10) true (-8) 15 3 in
  let st := PortfolioRisk.mk_state [] 0 (-5 # 2) 0 ∅ (Some 739000%Z) false true in
  PortfolioRisk.trading_stopped_for_day st = true /\
  PortfolioRisk.last_trade_date st = Some 739000%Z /\
  (738999 < 739000)%Z /\
  exists st',
    PortfolioRisk.can_trade m 738999%Z st 100000 "SPY" (Some 738999%Z)
      = Ok (true, ROk, st') /\
    PortfolioRisk.trading_stopped_for_day st' = false.
Proof.
  split; [reflexivity|]. split; [reflexivity|]. split; [reflexivity|].
  eexists. split; [vm_compute; reflexivity | reflexivity].
Qed.

(** C4, amended.  (1) Once [strategy_blocked] is true, every sequence of
    [record_fill] calls returns and leaves it true.  (2) Once
    [trading_stopped_for_day] is true, every [can_trade] call returns false,
    and the flag stays true, through every sequence of ledger calls in
    which [check_daily_reset] runs (directly or via [can_trade]) only with
    the date [last_trade_date]; [check_daily_reset] with any other date, a
    strictly later one in particular, clears the flag. *)
Theorem circuit_breakers_latch :
  (forall (m : Execution.ExecutionManager) (state : Execution.ExecutionState)
          (cs : list Fills.fill_call),
     Execution.strategy_blocked state = true ->
     exists state',
       Fills.record_fills m state cs = Ok state' /\
       Execution.strategy_blocked state' = true) /\
  (forall (m : PortfolioRisk.PortfolioRiskManager)
          (state : PortfolioRisk.PortfolioRiskState) (cs : list Ledger.call),
     PortfolioRisk.trading_stopped_for_day state = true ->
     (forall c d, In c cs -> Ledger.reset_date c = Some d ->
                  PortfolioRisk.last_trade_date state = Some d) ->
     exists state' outs,
       Ledger.run_calls m state cs = Ok (state', outs) /\
       PortfolioRisk.trading_stopped_for_day state' = true /\
       Forall (fun o : bool * Reason => o.1 = false) outs /\
       length outs = length (List.filter Ledger.is_can_trade cs)) /\
  (forall (m : PortfolioRisk.PortfolioRiskManager)
          (state : PortfolioRisk.PortfolioRiskState) (today : date),
     PortfolioRisk.last_trade_date state <> Some today ->
     PortfolioRisk.trading_stopped_for_day
       (PortfolioRisk.check_daily_reset m state today) = false /\
     PortfolioRisk.last_trade_date
       (PortfolioRisk.check_daily_reset m state today) = Some today) /\
  (forall (m : PortfolioRisk.PortfolioRiskManager)
          (state : PortfolioRisk.PortfolioRiskState) (d today : date),
     PortfolioRisk.last_trade_date state = Some d -> (d < today)%Z ->
     PortfolioRisk.trading_stopped_for_day
       (PortfolioRisk.check_daily_reset m state today) = false).
Proof.
  split; [|split; [|split]].
  - intros m state cs. apply record_fills_keep_block.
  - intros m state cs. apply run_calls_stopped.
  - intros m state today Hne.
    rewrite (check_daily_reset_new_day m state today Hne). split; reflexivity.
  - intros m state d today Hlast Hlt.
    rewrite (check_daily_reset_new_day m state today); [reflexivity|].
    rewrite Hlast. intros [= ->]. lia.
Qed.

(** Scenario S3: a daily loss of 2.5% against the limit of 2% stops trading
    at the first [can_trade]; a second call on the same day is refused; the
    call on the next day is allowed again. *)
Example daily_loss_latch_scenario :
  let m := PortfolioRisk.mk_manager (-2) (-10) true (-8) 15 3 in
  let st := PortfolioRisk.mk_state [] 0 (-5 # 2) 0 ∅ (Some 739000%Z) false false in
  exists st',
    Ledger.run_calls m st
      [Ledger.CanTrade 739000%Z 100000 "SPY" (Some 739000%Z);
       Ledger.CanTrade 739000%Z 100000 "SPY" (Some 739000%Z);
       Ledger.CanTrade 739000%Z 100000 "SPY" (Some 739001%Z)]
    = Ok (st', [(false, RDailyLossLimitHit (-2) (-5 # 2));
                (false, RDailyLossStopped);
                (true, ROk)]).
Proof. eexists. vm_compute. reflexivity. Qed.

(** C9.  No operation of the portfolio-risk manager clears [safe_mode]:
    once true it is true after every sequence of [update_equity],
    [check_daily_reset], [can_trade] and [record_trade] calls.  A
    [can_trade] call in safe mode vetoes with the safe-mode reason when the
    drawdown is at or below [recovery_criteria_pct]; above it the call
    continues with the remaining checks, and the flag is still true. *)
Theorem safe_mode_never_cleared (m : PortfolioRisk.PortfolioRiskManager)
    (state : PortfolioRisk.PortfolioRiskState) :
  PortfolioRisk.safe_mode state = true ->
  (forall cs : list Ledger.call,
     exists state' outs,
       Ledger.run_calls m state cs = Ok (state', outs) /\
       PortfolioRisk.safe_mode state' = true) /\
  (forall (sys_today : date) (current_equity : Q) (symbol : string)
          (today : option date),
     let state0 := PortfolioRisk.check_daily_reset m state (default sys_today today) in
     exists dd b r state',
       PortfolioRisk.current_drawdown_pct m state0 current_equity = Ok dd /\
       PortfolioRisk.can_trade m sys_today state current_equity symbol today
         = Ok (b, r, state') /\
       PortfolioRisk.safe_mode state' = true /\
       ((dd <= PortfolioRisk.recovery_criteria_pct m)%Q ->
        b = false /\
        r = RSafeModeNotRecovered dd (PortfolioRisk.recovery_criteria_pct m)) /\
       ((PortfolioRisk.recovery_criteria_pct m < dd)%Q ->
        PortfolioRisk.can_trade_limits m state0 current_equity symbol
          = Ok (b, r, state'))).
Proof.
  intros Hs. split.
  - intros cs. apply run_calls_safe_mode. exact Hs.
  - intros sys_today current_equity symbol today state0.
    destruct (can_trade_run m sys_today state current_equity symbol today)
      as (dd & Hdd & Hrun).
    fold state0 in Hdd, Hrun.
    assert (Hs0 : PortfolioRisk.safe_mode state0 = true).
    { subst state0. rewrite check_daily_reset_safe_mode. exact Hs. }
    rewrite Hs0 in Hrun. simpl in Hrun.
    destruct (fle dd (PortfolioRisk.recovery_criteria_pct m)) eqn:E.
    + apply fle_spec in E.
      exists dd, false, (RSafeModeNotRecovered dd (PortfolioRisk.recovery_criteria_pct m)),
        state0.
      split; [exact Hdd|]. split; [exact Hrun|]. split; [exact Hs0|].
      split; [auto|]. intros Hlt. destruct (Qlt_not_le _ _ Hlt E).
    + apply fle_false in E.
      destruct (can_trade_limits_run m state0 current_equity symbol)
        as (b & r & state' & Hlim & Hsafe & _).
      exists dd, b, r, state'.
      split; [exact Hdd|]. split; [rewrite Hrun; exact Hlim|].
      split; [exact (Hsafe Hs0)|].
      split; [intros Hle; destruct (Qlt_not_le _ _ E Hle) | intros _; exact Hlim].
Qed.

(** Scenario S4 after the latch: peak 100000 and equity 93000 (drawdown -7%,
    above the recovery level -8%); [can_trade] allows, and [safe_mode] is
    still set. *)
Lemma safe_mode_never_cleared_witness :
  let m := PortfolioRisk.mk_manager (-2) (-10) true (-8) 15 3 in
  let st := PortfolioRisk.mk_state [] 100000 0 0 ∅ (Some 739000%Z) true false in
  PortfolioRisk.safe_mode st = true /\
  exists st' outs,
    Ledger.run_calls m st [Ledger.CanTrade 739000%Z 93000 "SPY" (Some 739000%Z)]
      = Ok (st', outs) /\
    PortfolioRisk.safe_mode st' = true.
Proof.
  intros m st. split; [reflexivity|].
  exact (proj1 (safe_mode_never_cleared m st eq_refl)
           [Ledger.CanTrade 739000%Z 93000 "SPY" (Some 739000%Z)]).
Defined.

(** ** Position sizing *)

Lemma py_int_floor (x : Q) : (0 <= x)%Q -> py_int x = Qfloor x.
Proof.
  destruct x as [n d]. unfold Qle, py_int; simpl. intros H.
  apply Z.quot_div_nonneg; lia.
Qed.

Lemma py_int_nonpos (x : Q) : (x <= 0)%Q -> (py_int x <= 0)%Z.
Proof.
  destruct x as [n d]. unfold Qle, py_int; simpl. intros H.
  rewrite <- (Z.opp_involutive n), Z.quot_opp_l by lia.
  assert (0 <= (- n) ÷ Z.pos d)%Z by (apply Z.quot_pos; lia). lia.
Qed.

Lemma py_int_pos_le (x : Q) : (0 < py_int x)%Z -> (inject_Z (py_int x) <= x)%Q.
Proof.
  intros Hpos. destruct (Qlt_le_dec x 0) as [Hneg | Hnn].
  - pose proof (py_int_nonpos x (Qlt_le_weak _ _ Hneg)). lia.
  - rewrite (py_int_floor x Hnn). apply Qfloor_le.
Qed.

Lemma py_max_one (b : Z) : (1 <= py_max 1 b)%Z /\ (py_max 1 b = 1%Z \/ py_max 1 b = b).
Proof. unfold py_max. destruct (Z.gtb_spec b 1); split; auto; lia. Qed.

Section Sizing.
Import PositionSizing.

Variable ps : PositionSizer.

(** The high-volatility step does not raise the share count when the
    multiplier is at most 1. *)
Lemma high_vol_shares_le (shares0 : Z) :
  (1 <= shares0)%Z -> (high_vol_size_multiplier ps <= 1)%Q ->
  (py_max 1 (py_int (inject_Z shares0 * high_vol_size_multiplier ps)) <= shares0)%Z.
Proof.
  intros Hs Hm.
  destruct (py_max_one (py_int (inject_Z shares0 * high_vol_size_multiplier ps)))
    as [_ [-> | ->]]; [exact Hs|].
  set (x := (inject_Z shares0 * high_vol_size_multiplier ps)%Q).
  destruct (Z_lt_le_dec 0 (py_int x)) as [Hpos | Hle]; [|lia].
  rewrite Zle_Qle. apply Qle_trans with x; [apply py_int_pos_le; exact Hpos|].
  subst x. rewrite <- (Qmult_1_r (inject_Z shares0)) at 2.
  rewrite !(Qmult_comm (inject_Z shares0)).
  apply Qmult_le_compat_r; [exact Hm|].
  change 0%Q with (inject_Z 0). rewrite <- Zle_Qle. lia.
Qed.

Lemma size_position_tail_cap (account_equity price risk_per_share cap : Q)
    (symbol : string) (sector_exposure_pct : gmap string Q)
    (symbol_sector : option (gmap string string)) (atr_pct : option Q)
    (shares0 : Z) (notional0 risk_amount0 risk_pct0 : Q) :
  (0 < price)%Q -> (0 < account_equity)%Q ->
  (high_vol_applies ps atr_pct = true -> (high_vol_size_multiplier ps <= 1)%Q) ->
  (1 <= shares0)%Z -> (inject_Z shares0 * price <= cap)%Q ->
  exists r,
    size_position_tail ps account_equity price risk_per_share symbol sector_exposure_pct
      symbol_sector atr_pct shares0 notional0 risk_amount0 risk_pct0 = Ok r /\
    (reject_reason r = None ->
     (1 <= shares r)%Z /\ (inject_Z (shares r) * price <= cap)%Q).
Proof.
  intros Hprice Heq Hmult Hs Hcap. unfold size_position_tail.
  destruct (high_vol_applies ps atr_pct) eqn:Ehv.
  - rewrite (fdiv_pos _ _ Heq). run_bind.
    rewrite (fdiv_pos _ _ Heq). run_bind.
    destruct (fgt _ _).
    + eexists. split; [reflexivity | discriminate].
    + eexists. split; [reflexivity|]. intros _. simpl. split.
      * apply py_max_one.
      * apply Qle_trans with (inject_Z shares0 * price)%Q; [|exact Hcap].
        apply Qmult_le_compat_r; [|apply Qlt_le_weak; exact Hprice].
        rewrite <- Zle_Qle. apply high_vol_shares_le; auto.
  - run_bind. rewrite (fdiv_pos _ _ Heq). run_bind.
    destruct (fgt _ _).
    + eexists. split; [reflexivity | discriminate].
    + eexists. split; [reflexivity|]. intros _. simpl. split; [exact Hs | exact Hcap].
Qed.

Lemma size_position_cap (account_equity price stop_distance_pct : Q) (symbol : string)
    (current_positions : gmap string (gmap string Q))
    (sector_exposure_pct : gmap string Q)
    (symbol_sector : option (gmap string string)) (atr_pct : option Q) :
  (0 < price)%Q -> (0 < account_equity)%Q ->
  (high_vol_applies ps atr_pct = true -> (high_vol_size_multiplier ps <= 1)%Q) ->
  exists r,
    size_position ps account_equity price stop_distance_pct symbol current_positions
      sector_exposure_pct symbol_sector atr_pct = Ok r /\
    (reject_reason r = None ->
     (1 <= shares r)%Z /\
     (inject_Z (shares r) * price
        <= account_equity * (max_exposure_per_symbol_pct ps / 100))%Q).
Proof.
  intros Hprice Heq Hmult. unfold size_position.
  destruct (fle stop_distance_pct 0).
  { eexists. split; [reflexivity | discriminate]. }
  destruct (fle (price * (stop_distance_pct / 100)) 0) eqn:Erps.
  { eexists. split; [reflexivity | discriminate]. }
  apply fle_false in Erps. rewrite (fdiv_pos _ _ Erps). run_bind.
  destruct (Z.leb_spec (py_int (account_equity * (risk_per_trade_pct ps / 100)
                                 / (price * (stop_distance_pct / 100)))) 0)
    as [Hle | Hshares].
  { eexists. split; [reflexivity | discriminate]. }
  set (shares_by_risk := py_int _) in *.
  set (cap := (account_equity * (max_exposure_per_symbol_pct ps / 100))%Q).
  destruct (fgt (inject_Z shares_by_risk * price) cap) eqn:Ecap.
  - rewrite (fdiv_pos _ _ Hprice). run_bind.
    destruct (Z.leb_spec (py_int (cap / price)) 0) as [Hle | Hcapped].
    { eexists. split; [reflexivity | discriminate]. }
    rewrite (fdiv_pos _ _ Heq). run_bind.
    apply size_position_tail_cap; auto; [lia|].
    apply Qle_trans with (cap / price * price)%Q.
    + apply Qmult_le_compat_r; [|apply Qlt_le_weak; exact Hprice].
      apply py_int_pos_le. exact Hcapped.
    + rewrite Qmult_comm, Qmult_div_r; [apply Qle_refl|].
      intros E. rewrite E in Hprice. exact (Qlt_irrefl _ Hprice).
  - apply fgt_false in Ecap.
    apply size_position_tail_cap; auto. lia.
Qed.

End Sizing.

(** C3, as the claim states it, fails when the high-volatility step is
    configured with a multiplier above 1: equity 100000, price 100, stop
    1.5%, cap 20% (20000), ATR% 3 above the threshold 2, multiplier 2.  The
    cap gives 200 shares, the high-volatility step doubles them, and the
    sizing is accepted with 400 shares and notional 40000. *)
Lemma symbol_cap_exceeded_by_multiplier :
  let ps := PositionSizing.mk_sizer (1 # 2) 3 20 40 true 2 2 in
  (0 < 100)%Q /\ (0 < 100000)%Q /\
  exists r,
    PositionSizing.size_position ps 100000 100 (3 # 2) "SPY" ∅ ∅ None (Some 3%Q) = Ok r /\
    PositionSizing.reject_reason r = None /\
    PositionSizing.shares r = 400%Z /\
    ~ (inject_Z (PositionSizing.shares r) * 100
         <= 100000 * PositionSizing.max_exposure_per_symbol_pct ps / 100)%Q.
Proof.
  split; [reflexivity|]. split; [reflexivity|].
  eexists. split; [vm_compute; reflexivity|].
  split; [reflexivity|]. split; [reflexivity|].
  vm_compute. intros H. apply H. reflexivity.
Qed.

(** C3, amended.  For [price > 0] and [account_equity > 0], and with the
    high-volatility multiplier at most 1 whenever that step applies,
    [size_position] returns, and every accepted sizing has [shares >= 1]
    and [shares * price <= account_equity * max_exposure_per_symbol_pct /
    100], the high-volatility reduction included. *)
Theorem symbol_exposure_cap (ps : PositionSizing.PositionSizer)
    (account_equity price stop_distance_pct : Q) (symbol : string)
    (current_positions : gmap string (gmap string Q))
    (sector_exposure_pct : gmap string Q)
    (symbol_sector : option (gmap string string)) (atr_pct : option Q) :
  (0 < price)%Q -> (0 < account_equity)%Q ->
  (PositionSizing.high_vol_applies ps atr_pct = true ->
   (PositionSizing.high_vol_size_multiplier ps <= 1)%Q) ->
  exists r,
    PositionSizing.size_position ps account_equity price stop_distance_pct symbol
      current_positions sector_exposure_pct symbol_sector atr_pct = Ok r /\
    (PositionSizing.reject_reason r = None ->
     (1 <= PositionSizing.shares r)%Z /\
     (inject_Z (PositionSizing.shares r) * price
        <= account_equity * PositionSizing.max_exposure_per_symbol_pct ps / 100)%Q).
Proof.
  intros Hprice Heq Hmult.
  destruct (size_position_cap ps account_equity price stop_distance_pct symbol
              current_positions sector_exposure_pct symbol_sector atr_pct
              Hprice Heq Hmult) as (r & Hrun & Hacc).
  exists r. split; [exact Hrun|]. intros Hnone.
  destruct (Hacc Hnone) as [Hs Hcap]. split; [exact Hs|].
  assert (E : (account_equity * PositionSizing.max_exposure_per_symbol_pct ps / 100
               == account_equity * (PositionSizing.max_exposure_per_symbol_pct ps / 100))%Q)
    by (unfold Qdiv; ring).
  rewrite E. exact Hcap.
Qed.

(** Equity 100000, price 100, stop 1.5%, ATR% 3 above the threshold 2 and
    the multiplier 1/2: the cap gives 200 shares, the reduction 100. *)
Lemma symbol_exposure_cap_witness :
  let ps := PositionSizing.mk_sizer (1 # 2) 3 20 40 true 2 (1 # 2) in
  exists r,
    PositionSizing.size_position ps 100000 100 (3 # 2) "SPY" ∅ ∅ None (Some 3%Q) = Ok r /\
    (PositionSizing.reject_reason r = None ->
     (1 <= PositionSizing.shares r)%Z /\
     (inject_Z (PositionSizing.shares r) * 100
        <= 100000 * PositionSizing.max_exposure_per_symbol_pct ps / 100)%Q).
Proof.
  intros ps.
  apply (symbol_exposure_cap ps 100000 100 (3 # 2) "SPY" ∅ ∅ None (Some 3%Q)).
  - reflexivity.
  - reflexivity.
  - intros _. vm_compute. discriminate.
Defined.

(** ** The open-risk check of the entry pipeline *)

Section OpenRisk.
Import TradingEngine.

(** What the pipeline compares against the cap once sizing has succeeded:
    the stop of the entry signal plus the risk of the new trade. *)
Lemma size_and_build_open_risk (e : TradingEngine) (symbol : string)
    (account_equity : Q) (current_positions : gmap string (gmap string Q))
    (sector_exposure_pct : gmap string Q) (spread_pct : Q) (atr_multiple : option Q)
    (ohlcv_df : option DataFrame) (symbol_sector : option (gmap string string))
    (entry : Strategy.EntrySignal) (open_risk_pct : Q)
    (sizing : PositionSizing.PositionSizingResult) :
  PositionSizing.total_open_risk_pct (sizer e) account_equity
    (current_with_stops current_positions) = Ok open_risk_pct ->
  PositionSizing.size_position (sizer e) account_equity (last_close ohlcv_df)
    (Strategy.stop_pct entry) symbol current_positions sector_exposure_pct
    symbol_sector atr_multiple = Ok sizing ->
  PositionSizing.reject_reason sizing = None ->
  exists d,
    size_and_build e symbol account_equity current_positions sector_exposure_pct
      spread_pct atr_multiple ohlcv_df symbol_sector entry = Ok d /\
    (reason d = RWouldExceedMaxOpenRisk (PositionSizing.max_open_risk_pct (sizer e)) <->
     (PositionSizing.max_open_risk_pct (sizer e)
        < Strategy.stop_pct entry + PositionSizing.risk_pct sizing)%Q).
Proof.
  intros Hopen Hsize Hacc. unfold size_and_build.
  rewrite Hopen. run_bind. rewrite Hsize. run_bind. rewrite Hacc.
  unfold PositionSizing.would_exceed_max_open_risk.
  destruct (fgt _ _) eqn:E.
  - eexists. split; [reflexivity|]. simpl. apply fgt_spec in E. tauto.
  - apply fgt_false in E.
    destruct (Execution.build_order _ _ _ _ _ _ _); eexists;
      (split; [reflexivity|]); simpl;
      (split; [discriminate | intros H; destruct (Qlt_not_le _ _ H E)]).
Qed.

Variable entry_filters :
  Strategy.TrendFollowingStrategy -> option DataFrame -> option Q -> option Q ->
  result (option (gmap string Q)).

(** When the ten gates before the strategy pass, the pipeline is the
    strategy followed by sizing and order building; [pr] is the
    portfolio-risk state [can_trade] leaves. *)
Lemma run_entry_gates_gates_pass (e : TradingEngine) (symbol : string) (dt : datetime)
    (account_equity : Q) (current_positions : gmap string (gmap string Q))
    (sector_exposure_pct : gmap string Q) (spread_pct : Q)
    (volume_atr_ratio atr_multiple : option Q) (ohlcv_df : option DataFrame)
    (symbol_sector : option (gmap string string))
    (pr : PortfolioRisk.PortfolioRiskState) (r : Reason) :
  Universe.is_trading_allowed (calendar e) dt = true ->
  TradeFilters.allowed (TradeFilters.check (macro_blackout e) dt) = true ->
  Universe.is_eligible (universe e) symbol None None = true ->
  TradeFilters.allowed (TradeFilters.earnings_check (earnings_blackout e) symbol dt)
    = true ->
  Universe.ok (Universe.check (market_quality e) (Some spread_pct) volume_atr_ratio
                 atr_multiple) = true ->
  Execution.can_trade_spread (execution e) spread_pct = (true, ROk) ->
  TradeFilters.allowed (TradeFilters.vol_check (volatility_dnt e) atr_multiple
                          (Some spread_pct)) = true ->
  Execution.should_block_strategy (execution e) (st_execution (state e)) = false ->
  PortfolioRisk.can_trade (portfolio_risk e) (dt_date dt) (st_portfolio_risk (state e))
    account_equity symbol (Some (dt_date dt)) = Ok (true, ROk, pr) ->
  Compliance.can_day_trade (compliance e) (st_pdt (state e)) (dt_date dt) = (true, r) ->
  let e' := with_state e (mk_engine_state pr (st_execution (state e))
                            (st_pdt (state e))) in
  run_entry_gates entry_filters e symbol dt account_equity current_positions
    sector_exposure_pct spread_pct volume_atr_ratio atr_multiple ohlcv_df symbol_sector =
  (entry ← Strategy.generate_entry entry_filters (strategy e) symbol ohlcv_df
             (Some spread_pct) atr_multiple;
   match entry with
   | None => mret (veto RNoEntrySignal, e')
   | Some entry =>
       d ← size_and_build e' symbol account_equity current_positions
             sector_exposure_pct spread_pct atr_multiple ohlcv_df symbol_sector entry;
       mret (d, e')
   end).
Proof.
  intros G1 G2 G3 G4 G5 G6 G7 G8 G9 G10 e'. unfold run_entry_gates.
  rewrite G1, G2, G3, G4, G5, G6, G7, G8, G9. run_bind. cbn [negb].
  change (st_pdt (state (with_state e _))) with (st_pdt (state e)).
  change (compliance (with_state e _)) with (compliance e).
  rewrite G10. cbn [negb]. reflexivity.
Qed.

(** The pipeline vetoes with the max-open-risk reason iff the stop of the
    entry signal plus the risk of the new trade exceeds the cap. *)
Lemma run_entry_gates_open_risk (e : TradingEngine) (symbol : string) (dt : datetime)
    (account_equity : Q) (current_positions : gmap string (gmap string Q))
    (sector_exposure_pct : gmap string Q) (spread_pct : Q)
    (volume_atr_ratio atr_multiple : option Q) (ohlcv_df : option DataFrame)
    (symbol_sector : option (gmap string string))
    (pr : PortfolioRisk.PortfolioRiskState) (r : Reason)
    (entry : Strategy.EntrySignal) (open_risk_pct : Q)
    (sizing : PositionSizing.PositionSizingResult) :
  Universe.is_trading_allowed (calendar e) dt = true ->
  TradeFilters.allowed (TradeFilters.check (macro_blackout e) dt) = true ->
  Universe.is_eligible (universe e) symbol None None = true ->
  TradeFilters.allowed (TradeFilters.earnings_check (earnings_blackout e) symbol dt)
    = true ->
  Universe.ok (Universe.check (market_quality e) (Some spread_pct) volume_atr_ratio
                 atr_multiple) = true ->
  Execution.can_trade_spread (execution e) spread_pct = (true, ROk) ->
  TradeFilters.allowed (TradeFilters.vol_check (volatility_dnt e) atr_multiple
                          (Some spread_pct)) = true ->
  Execution.should_block_strategy (execution e) (st_execution (state e)) = false ->
  PortfolioRisk.can_trade (portfolio_risk e) (dt_date dt) (st_portfolio_risk (state e))
    account_equity symbol (Some (dt_date dt)) = Ok (true, ROk, pr) ->
  Compliance.can_day_trade (compliance e) (st_pdt (state e)) (dt_date dt) = (true, r) ->
  Strategy.generate_entry entry_filters (strategy e) symbol ohlcv_df (Some spread_pct)
    atr_multiple = Ok (Some entry) ->
  PositionSizing.total_open_risk_pct (sizer e) account_equity
    (current_with_stops current_positions) = Ok open_risk_pct ->
  PositionSizing.size_position (sizer e) account_equity (last_close ohlcv_df)
    (Strategy.stop_pct entry) symbol current_positions sector_exposure_pct
    symbol_sector atr_multiple = Ok sizing ->
  PositionSizing.reject_reason sizing = None ->
  exists d e',
    run_entry_gates entry_filters e symbol dt account_equity current_positions
      sector_exposure_pct spread_pct volume_atr_ratio atr_multiple ohlcv_df
      symbol_sector = Ok (d, e') /\
    (reason d = RWouldExceedMaxOpenRisk (PositionSizing.max_open_risk_pct (sizer e)) <->
     (PositionSizing.max_open_risk_pct (sizer e)
        < Strategy.stop_pct entry + PositionSizing.risk_pct sizing)%Q).
Proof.
  intros G1 G2 G3 G4 G5 G6 G7 G8 G9 G10 Hentry Hopen Hsize Hacc.
  rewrite (run_entry_gates_gates_pass e symbol dt account_equity current_positions
             sector_exposure_pct spread_pct volume_atr_ratio atr_multiple ohlcv_df
             symbol_sector pr r G1 G2 G3 G4 G5 G6 G7 G8 G9 G10).
  rewrite Hentry. run_bind.
  set (e' := with_state e _).
  destruct (size_and_build_open_risk e' symbol account_equity current_positions
              sector_exposure_pct spread_pct atr_multiple ohlcv_df symbol_sector
              entry open_risk_pct sizing Hopen Hsize Hacc) as (d & Hd & Hiff).
  exists d, e'. rewrite Hd. split; [reflexivity | exact Hiff].
Qed.

End OpenRisk.

(** C1, evaluated on the code.  Default engine, equity 100000, one open
    position with notional 50000 and stop 10% (open risk 5%), and 200 daily
    bars, flat at 100 with a last close of 100.4, on which the filters of the
    strategy pass.  Sizing succeeds with 199 shares: the open risk plus the
    new risk exceeds the cap of 3%, yet the decision is allowed, because the
    pipeline compares the stop of the signal (1.5%) plus the new risk
    against the cap. *)
Theorem open_risk_check_at_failing_input
    (entry_filters : Strategy.TrendFollowingStrategy -> option DataFrame ->
                     option Q -> option Q -> result (option (gmap string Q)))
    (metadata : gmap string Q) :
  let e := TradingEngine.update_equity (TradingEngine.default_engine ["SPY"%string])
             (mk_datetime 739000%Z (hm 9 55)) 100000 None in
  let dt := mk_datetime 739000%Z (hm 10 0) in
  let positions : gmap string (gmap string Q) :=
    {[ "QQQ"%string :=
         ({[ "notional"%string := 50000%Q; "stop_pct"%string := 10%Q ]} : gmap string Q) ]} in
  let df : DataFrame :=
    repeat (mk_bar 100 100 100 100 1000000) 199
      ++ [mk_bar 100 (502 # 5) 100 (502 # 5) 1000000] in
  entry_filters (TradingEngine.strategy e) (Some df) (Some (1 # 20)) (Some 1%Q)
    = Ok (Some metadata) ->
  exists d e' open_risk sizing,
    TradingEngine.run_entry_gates entry_filters e "SPY" dt 100000 positions ∅
      (1 # 20) None (Some 1%Q) (Some df) None = Ok (d, e') /\
    TradingEngine.allowed d = true /\
    TradingEngine.position_sizing d = Some sizing /\
    PositionSizing.shares sizing = 199%Z /\
    PositionSizing.total_open_risk_pct (TradingEngine.sizer e) 100000
      (TradingEngine.current_with_stops positions) = Ok open_risk /\
    (open_risk == 5)%Q /\
    (PositionSizing.max_open_risk_pct (TradingEngine.sizer e)
       < open_risk + PositionSizing.risk_pct sizing)%Q /\
    (Strategy.stop_loss_pct (TradingEngine.strategy e) + PositionSizing.risk_pct sizing
       <= PositionSizing.max_open_risk_pct (TradingEngine.sizer e))%Q.
Proof.
  intros e dt positions df Hentry.
  set (pr := PortfolioRisk.mk_state [(mk_datetime 739000%Z (hm 9 55), 100000%Q)]
               100000 0 0 ∅ (Some 739000%Z) false false).
  rewrite (run_entry_gates_gates_pass entry_filters e "SPY" dt 100000
             positions ∅ (1 # 20) None (Some 1%Q) (Some df) None pr REquityAbovePdt);
    [| vm_compute; reflexivity ..].
  unfold Strategy.generate_entry. rewrite Hentry. run_bind.
  remember (TradingEngine.size_and_build _ _ _ _ _ _ _ _ _ _) as built eqn:Hbuilt.
  vm_compute in Hbuilt. subst built. run_bind.
  do 4 eexists. split; [reflexivity|].
  split; [reflexivity|]. split; [reflexivity|]. split; [reflexivity|].
  split; [vm_compute; reflexivity|].
  split; [reflexivity|]. split; vm_compute; [reflexivity | discriminate].
Qed.

(** The failing input with a strategy whose filters pass and carry no
    metadata. *)
Lemma open_risk_check_at_failing_input_witness :
  let entry_filters :=
    fun (_ : Strategy.TrendFollowingStrategy) (_ : option DataFrame) (_ _ : option Q) =>
      Ok (Some (∅ : gmap string Q)) in
  let e := TradingEngine.update_equity (TradingEngine.default_engine ["SPY"%string])
             (mk_datetime 739000%Z (hm 9 55)) 100000 None in
  let dt := mk_datetime 739000%Z (hm 10 0) in
  let positions : gmap string (gmap string Q) :=
    {[ "QQQ"%string :=
         ({[ "notional"%string := 50000%Q; "stop_pct"%string := 10%Q ]} : gmap string Q) ]} in
  let df : DataFrame :=
    repeat (mk_bar 100 100 100 100 1000000) 199
      ++ [mk_bar 100 (502 # 5) 100 (502 # 5) 1000000] in
  exists d e' open_risk sizing,
    TradingEngine.run_entry_gates entry_filters e "SPY" dt 100000 positions ∅
      (1 # 20) None (Some 1%Q) (Some df) None = Ok (d, e') /\
    TradingEngine.allowed d = true /\
    TradingEngine.position_sizing d = Some sizing /\
    PositionSizing.shares sizing = 199%Z /\
    PositionSizing.total_open_risk_pct (TradingEngine.sizer e) 100000
      (TradingEngine.current_with_stops positions) = Ok open_risk /\
    (open_risk == 5)%Q /\
    (PositionSizing.max_open_risk_pct (TradingEngine.sizer e)
       < open_risk + PositionSizing.risk_pct sizing)%Q /\
    (Strategy.stop_loss_pct (TradingEngine.strategy e) + PositionSizing.risk_pct sizing
       <= PositionSizing.max_open_risk_pct (TradingEngine.sizer e))%Q.
Proof.
  intros entry_filters.
  exact (open_risk_check_at_failing_input entry_filters ∅ eq_refl).
Defined.

(** * Further properties of the modules *)

(** ** Position sizing: rejections, risk budget and sector cap *)

Lemma fdiv_nonzero_ok (x y : Q) : ~ (y == 0)%Q -> fdiv x y = Ok (x / y)%Q.
Proof. apply fdiv_ok. Qed.

Lemma Qpos_nonzero (y : Q) : (0 < y)%Q -> ~ (y == 0)%Q.
Proof. intros Hy E. rewrite E in Hy. exact (Qlt_irrefl 0 Hy). Qed.

Lemma scaled_pos_factor (p c : Q) : (0 < c)%Q -> (0 < p * c)%Q -> (0 < p)%Q.
Proof.
  intros Hc Hpc. apply Qnot_le_lt. intros Hp.
  apply (Qlt_not_le _ _ Hpc).
  assert (E : (0 == 0 * c)%Q) by ring. rewrite E.
  apply Qmult_le_compat_r; [exact Hp | apply Qlt_le_weak; exact Hc].
Qed.

Lemma py_int_pos_times (a b : Q) :
  (0 < b)%Q -> (0 < py_int (a / b))%Z -> (inject_Z (py_int (a / b)) * b <= a)%Q.
Proof.
  intros Hb Hpos.
  apply Qle_trans with (a / b * b)%Q.
  - apply Qmult_le_compat_r; [apply py_int_pos_le; exact Hpos | apply Qlt_le_weak; exact Hb].
  - rewrite Qmult_comm, Qmult_div_r; [apply Qle_refl | apply Qpos_nonzero; exact Hb].
Qed.

Section SizingCases.
Import PositionSizing.

Variable ps : PositionSizer.

Lemma size_position_tail_cases (account_equity price risk_per_share : Q)
    (symbol : string) (sector_exposure_pct : gmap string Q)
    (symbol_sector : option (gmap string string)) (atr_pct : option Q)
    (shares0 : Z) (notional0 risk_amount0 risk_pct0 : Q) :
  ~ (account_equity == 0)%Q -> (0 < price)%Q ->
  (1 <= shares0)%Z -> (inject_Z shares0 * price <= notional0)%Q ->
  exists r,
    size_position_tail ps account_equity price risk_per_share symbol sector_exposure_pct
      symbol_sector atr_pct shares0 notional0 risk_amount0 risk_pct0 = Ok r /\
    ((exists x, r = rejected x) \/
     (reject_reason r = None /\ (1 <= shares r)%Z /\
      (inject_Z (shares r) * price <= notional r)%Q /\
      (default 0%Q (sector_exposure_pct !! sector_of symbol symbol_sector)
         + notional r / account_equity * 100 <= max_exposure_per_sector_pct ps)%Q /\
      ((high_vol_applies ps atr_pct = true -> (high_vol_size_multiplier ps <= 1)%Q) ->
       (shares r <= shares0)%Z))).
Proof.
  intros Heq Hprice Hs Hnot. unfold size_position_tail, sector_of.
  destruct (high_vol_applies ps atr_pct) eqn:Ehv.
  - rewrite (fdiv_ok _ _ Heq). run_bind. rewrite (fdiv_ok _ _ Heq). run_bind.
    destruct (fgt _ _) eqn:Esec.
    + eexists. split; [reflexivity|]. left. eexists. reflexivity.
    + apply fgt_false in Esec.
      eexists. split; [reflexivity|]. right. simpl.
      split; [reflexivity|]. split; [apply py_max_one|].
      split; [apply Qle_refl|]. split; [exact Esec|].
      intros Hm. apply high_vol_shares_le; auto.
  - run_bind. rewrite (fdiv_ok _ _ Heq). run_bind.
    destruct (fgt _ _) eqn:Esec.
    + eexists. split; [reflexivity|]. left. eexists. reflexivity.
    + apply fgt_false in Esec.
      eexists. split; [reflexivity|]. right. simpl.
      split; [reflexivity|]. split; [exact Hs|]. split; [exact Hnot|].
      split; [exact Esec|]. intros _. lia.
Qed.

(** [size_position] on any input: it returns, and the result is either a
    rejection or an accepted sizing with the listed facts. *)
Lemma size_position_cases (account_equity price stop_distance_pct : Q) (symbol : string)
    (current_positions : gmap string (gmap string Q))
    (sector_exposure_pct : gmap string Q)
    (symbol_sector : option (gmap string string)) (atr_pct : option Q) :
  exists r,
    size_position ps account_equity price stop_distance_pct symbol current_positions
      sector_exposure_pct symbol_sector atr_pct = Ok r /\
    ((exists x, r = rejected x) \/
     (reject_reason r = None /\ (1 <= shares r)%Z /\
      (0 < stop_distance_pct)%Q /\ (0 < price)%Q /\ ~ (account_equity == 0)%Q /\
      (inject_Z (shares r) * price <= notional r)%Q /\
      (default 0%Q (sector_exposure_pct !! sector_of symbol symbol_sector)
         + notional r / account_equity * 100 <= max_exposure_per_sector_pct ps)%Q /\
      ((high_vol_applies ps atr_pct = true -> (high_vol_size_multiplier ps <= 1)%Q) ->
       (inject_Z (shares r) * (price * (stop_distance_pct / 100))
          <= account_equity * (risk_per_trade_pct ps / 100))%Q))).
Proof.
  unfold size_position.
  destruct (fle stop_distance_pct 0) eqn:Estop.
  { eexists. split; [reflexivity|]. left. eexists. reflexivity. }
  apply fle_false in Estop.
  set (rps := (price * (stop_distance_pct / 100))%Q).
  set (budget := (account_equity * (risk_per_trade_pct ps / 100))%Q).
  destruct (fle rps 0) eqn:Erps.
  { eexists. split; [reflexivity|]. left. eexists. reflexivity. }
  apply fle_false in Erps. rewrite (fdiv_pos _ _ Erps). run_bind.
  destruct (Z.leb_spec (py_int (budget / rps)) 0) as [Hle | Hshares].
  { eexists. split; [reflexivity|]. left. eexists. reflexivity. }
  assert (Hprice : (0 < price)%Q).
  { apply (scaled_pos_factor price (stop_distance_pct / 100)); [|exact Erps].
    unfold Qdiv. apply Qmult_lt_0_compat; [exact Estop | reflexivity]. }
  assert (Hbudget : (inject_Z (py_int (budget / rps)) * rps <= budget)%Q)
    by (apply py_int_pos_times; assumption).
  assert (Heq : ~ (account_equity == 0)%Q).
  { intros E.
    assert (Hb0 : (budget == 0)%Q) by (subst budget; rewrite E; ring).
    assert (Hle0 : (inject_Z (py_int (budget / rps)) * rps <= 0)%Q).
    { apply Qle_trans with budget; [exact Hbudget | rewrite Hb0; apply Qle_refl]. }
    assert (Hpos : (0 < inject_Z (py_int (budget / rps)))%Q)
      by (change 0%Q with (inject_Z 0); rewrite <- Zlt_Qlt; exact Hshares).
    exact (Qlt_not_le _ _ (Qmult_lt_0_compat _ _ Hpos Erps) Hle0). }
  set (sbr := py_int (budget / rps)) in *.
  set (cap := (account_equity * (max_exposure_per_symbol_pct ps / 100))%Q).
  destruct (fgt (inject_Z sbr * price) cap) eqn:Ecap.
  - apply fgt_spec in Ecap. rewrite (fdiv_pos _ _ Hprice). run_bind.
    destruct (Z.leb_spec (py_int (cap / price)) 0) as [Hle | Hcapped].
    { eexists. split; [reflexivity|]. left. eexists. reflexivity. }
    rewrite (fdiv_ok _ _ Heq). run_bind.
    assert (Hcapn : (inject_Z (py_int (cap / price)) * price <= cap)%Q)
      by (apply py_int_pos_times; assumption).
    destruct (size_position_tail_cases account_equity price rps symbol sector_exposure_pct
                symbol_sector atr_pct (py_int (cap / price)) cap
                (inject_Z (py_int (cap / price)) * rps)
                (inject_Z (py_int (cap / price)) * rps / account_equity * 100)
                Heq Hprice ltac:(lia) Hcapn) as (r & Hrun & Hr).
    exists r. split; [exact Hrun|].
    destruct Hr as [Hrej | (Hnone & Hs & Hnot & Hsec & Hhv)]; [left; exact Hrej | right].
    repeat (split; [assumption|]). intros Hm. specialize (Hhv Hm).
    apply Qle_trans with (inject_Z sbr * rps)%Q; [|exact Hbudget].
    apply Qmult_le_compat_r; [|apply Qlt_le_weak; exact Erps].
    rewrite <- Zle_Qle.
    assert (Hlt : (inject_Z (py_int (cap / price)) < inject_Z sbr)%Q).
    { apply (Qmult_lt_r _ _ price Hprice).
      apply Qle_lt_trans with cap; assumption. }
    rewrite <- Zlt_Qlt in Hlt. lia.
  - apply fgt_false in Ecap.
    destruct (size_position_tail_cases account_equity price rps symbol sector_exposure_pct
                symbol_sector atr_pct sbr (inject_Z sbr * price) budget
                (risk_per_trade_pct ps) Heq Hprice ltac:(lia) ltac:(apply Qle_refl))
      as (r & Hrun & Hr).
    exists r. split; [exact Hrun|].
    destruct Hr as [Hrej | (Hnone & Hs & Hnot & Hsec & Hhv)]; [left; exact Hrej | right].
    repeat (split; [assumption|]). intros Hm. specialize (Hhv Hm).
    apply Qle_trans with (inject_Z sbr * rps)%Q; [|exact Hbudget].
    apply Qmult_le_compat_r; [|apply Qlt_le_weak; exact Erps].
    rewrite <- Zle_Qle. exact Hhv.
Qed.

End SizingCases.


(** X2.  The money at risk of an accepted sizing, [shares] times the
    per-share risk [price * stop_distance_pct / 100], never exceeds the
    per-trade budget [account_equity * risk_per_trade_pct / 100], whether or
    not the symbol cap reduced the size, provided the high-volatility
    multiplier is at most 1 whenever that step applies. *)
Theorem size_position_risk_within_budget (ps : PositionSizing.PositionSizer)
    (account_equity price stop_distance_pct : Q) (symbol : string)
    (current_positions : gmap string (gmap string Q))
    (sector_exposure_pct : gmap string Q)
    (symbol_sector : option (gmap string string)) (atr_pct : option Q) :
  (PositionSizing.high_vol_applies ps atr_pct = true ->
   (PositionSizing.high_vol_size_multiplier ps <= 1)%Q) ->
  exists r,
    PositionSizing.size_position ps account_equity price stop_distance_pct symbol
      current_positions sector_exposure_pct symbol_sector atr_pct = Ok r /\
    (PositionSizing.reject_reason r = None ->
     (inject_Z (PositionSizing.shares r) * (price * (stop_distance_pct / 100))
        <= account_equity * (PositionSizing.risk_per_trade_pct ps / 100))%Q).
Proof.
  intros Hm.
  destruct (size_position_cases ps account_equity price stop_distance_pct symbol
              current_positions sector_exposure_pct symbol_sector atr_pct)
    as (r & Hrun & Hr).
  exists r. split; [exact Hrun|]. intros Hnone.
  destruct Hr as [(x & ->) | (_ & _ & _ & _ & _ & _ & _ & Hrisk)]; [discriminate|].
  exact (Hrisk Hm).
Qed.

(** Equity 100000, price 100, stop 1.5%, budget 0.5% (500): the symbol cap
    gives 200 shares, the high-volatility step (multiplier 1/2) 100, with
    150 at risk. *)
Lemma size_position_risk_within_budget_witness :
  let ps := PositionSizing.mk_sizer (1 # 2) 3 20 40 true 2 (1 # 2) in
  exists r,
    PositionSizing.size_position ps 100000 100 (3 # 2) "SPY" ∅ ∅ None (Some 3%Q) = Ok r /\
    (PositionSizing.reject_reason r = None ->
     (inject_Z (PositionSizing.shares r) * (100 * ((3 # 2) / 100))
        <= 100000 * (PositionSizing.risk_per_trade_pct ps / 100))%Q).
Proof.
  intros ps.
  apply (size_position_risk_within_budget ps 100000 100 (3 # 2) "SPY" ∅ ∅ None (Some 3%Q)).
  intros _. vm_compute. discriminate.
Defined.

(** X3.  An accepted sizing respects the sector cap: the exposure already
    recorded for the symbol's sector (0 when the sector has no entry; the
    sector is "unknown" when no sector map is given or the symbol is not in
    it) plus [notional / account_equity * 100] is at most
    [max_exposure_per_sector_pct]; and the reported [notional] is at least
    [shares * price]. *)
Theorem size_position_sector_cap (ps : PositionSizing.PositionSizer)
    (account_equity price stop_distance_pct : Q) (symbol : string)
    (current_positions : gmap string (gmap string Q))
    (sector_exposure_pct : gmap string Q)
    (symbol_sector : option (gmap string string)) (atr_pct : option Q) :
  exists r,
    PositionSizing.size_position ps account_equity price stop_distance_pct symbol
      current_positions sector_exposure_pct symbol_sector atr_pct = Ok r /\
    (PositionSizing.reject_reason r = None ->
     (default 0%Q (sector_exposure_pct !! sector_of symbol symbol_sector)
        + PositionSizing.notional r / account_equity * 100
        <= PositionSizing.max_exposure_per_sector_pct ps)%Q /\
     (inject_Z (PositionSizing.shares r) * price <= PositionSizing.notional r)%Q) /\
    sector_of symbol None = "unknown"%string /\
    (forall sectors : gmap string string,
       sectors !! symbol = None -> sector_of symbol (Some sectors) = "unknown"%string).
Proof.
  destruct (size_position_cases ps account_equity price stop_distance_pct symbol
              current_positions sector_exposure_pct symbol_sector atr_pct)
    as (r & Hrun & Hr).
  exists r. split; [exact Hrun|]. split; [|split].
  - intros Hnone.
    destruct Hr as [(x & ->) | (_ & _ & _ & _ & _ & Hnot & Hsec & _)]; [discriminate|].
    split; assumption.
  - reflexivity.
  - intros sectors Hs. unfold sector_of. simpl. rewrite Hs. reflexivity.
Qed.

(** ** Open risk *)

Lemma sum_open_risk_value (account_equity : Q) (positions_with_stops : list (Q * Q))
    (acc : Q) :
  ~ (account_equity == 0)%Q ->
  exists v,
    PositionSizing.sum_open_risk account_equity acc positions_with_stops = Ok v /\
    (v == acc + weighted_stops positions_with_stops / account_equity)%Q.
Proof.
  intros Heq. revert acc.
  induction positions_with_stops as [| [n s] rest IH]; intros acc; simpl.
  - exists acc. split; [reflexivity|]. unfold weighted_stops; simpl. field. exact Heq.
  - rewrite (fdiv_ok _ _ Heq). run_bind.
    destruct (IH (acc + n * (s / 100) / account_equity * 100)%Q) as (v & Hrun & Hv).
    exists v. split; [exact Hrun|]. rewrite Hv.
    unfold weighted_stops; simpl. fold (weighted_stops rest). field. exact Heq.
Qed.

Lemma weighted_stops_nonneg (positions_with_stops : list (Q * Q)) :
  Forall (fun p : Q * Q => (0 <= p.1)%Q /\ (0 <= p.2)%Q) positions_with_stops ->
  (0 <= weighted_stops positions_with_stops)%Q.
Proof.
  induction 1 as [| [n s] rest [Hn Hs] _ IH]; unfold weighted_stops; simpl.
  - apply Qle_refl.
  - fold (weighted_stops rest).
    assert (E : (0 == 0 + 0)%Q) by ring. rewrite E.
    apply Qplus_le_compat; [apply Qmult_le_0_compat; assumption | exact IH].
Qed.

(** X4.  [total_open_risk_pct] returns on every input: 0 when
    [account_equity <= 0], and otherwise the sum of [notional * stop_pct]
    over the positions divided by the equity (0 for no positions), which is
    not negative when no notional and no stop is. *)
Theorem total_open_risk_pct_value (ps : PositionSizing.PositionSizer)
    (account_equity : Q) (positions_with_stops : list (Q * Q)) :
  exists v,
    PositionSizing.total_open_risk_pct ps account_equity positions_with_stops = Ok v /\
    ((account_equity <= 0)%Q -> v = 0%Q) /\
    ((0 < account_equity)%Q ->
     (v == weighted_stops positions_with_stops / account_equity)%Q /\
     (Forall (fun p : Q * Q => (0 <= p.1)%Q /\ (0 <= p.2)%Q) positions_with_stops ->
      (0 <= v)%Q)) /\
    (positions_with_stops = [] -> (v == 0)%Q).
Proof.
  unfold PositionSizing.total_open_risk_pct.
  destruct (fle account_equity 0) eqn:E.
  - apply fle_spec in E. exists 0%Q. split; [reflexivity|].
    split; [reflexivity|]. split; [|reflexivity].
    intros Hpos. destruct (Qlt_not_le _ _ Hpos E).
  - apply fle_false in E.
    destruct (sum_open_risk_value account_equity positions_with_stops 0
                (Qpos_nonzero _ E)) as (v & Hrun & Hv).
    exists v. split; [exact Hrun|].
    split; [intros Hle; destruct (Qlt_not_le _ _ E Hle)|].
    split.
    + intros _. split; [rewrite Hv; ring|].
      intros Hall. rewrite Hv, Qplus_0_l.
      unfold Qdiv. apply Qmult_le_0_compat; [apply weighted_stops_nonneg; exact Hall|].
      apply Qlt_le_weak, Qinv_lt_0_compat. exact E.
    + intros ->. rewrite Hv. unfold weighted_stops; simpl. field.
      apply Qpos_nonzero. exact E.
Qed.

(** ** Exits with a zero entry price *)

(** X5.  [check_exit] raises [ZeroDivisionError] exactly when [entry_price]
    is zero, whatever the other arguments; for every other entry price,
    negative ones included, it returns.  The engine's [check_exit] passes
    its arguments on unchanged. *)
Theorem check_exit_zero_entry_price (st : Strategy.TrendFollowingStrategy)
    (symbol : string) (entry_price current_price : Q) (bars_held : Z)
    (spread_pct atr_multiple : option Q) :
  ((entry_price == 0)%Q <->
   Strategy.check_exit st symbol entry_price current_price bars_held spread_pct
     atr_multiple = Raise ZeroDivisionError) /\
  (~ (entry_price == 0)%Q <->
   exists sig, Strategy.check_exit st symbol entry_price current_price bars_held
                 spread_pct atr_multiple = Ok sig) /\
  (forall e : TradingEngine.TradingEngine,
     TradingEngine.strategy e = st ->
     TradingEngine.check_exit e symbol entry_price current_price bars_held spread_pct
       atr_multiple
     = Strategy.check_exit st symbol entry_price current_price bars_held spread_pct
         atr_multiple).
Proof.
  assert (Hzero : (entry_price == 0)%Q ->
                  Strategy.check_exit st symbol entry_price current_price bars_held
                    spread_pct atr_multiple = Raise ZeroDivisionError).
  { intros E. unfold Strategy.check_exit, fdiv.
    apply Qeq_bool_iff in E. rewrite E. reflexivity. }
  assert (Hok : ~ (entry_price == 0)%Q ->
                exists sig, Strategy.check_exit st symbol entry_price current_price
                              bars_held spread_pct atr_multiple = Ok sig).
  { intros Hne. unfold Strategy.check_exit. rewrite (fdiv_ok _ _ Hne). run_bind.
    repeat match goal with
           | |- context [if ?b then _ else _] => destruct b
           end; eexists; reflexivity. }
  split; [|split].
  - split; [exact Hzero|]. intros Hraise.
    destruct (Qeq_dec entry_price 0) as [E | Hne]; [exact E|].
    destruct (Hok Hne) as (sig & Hsig). rewrite Hsig in Hraise. discriminate.
  - split; [exact Hok|]. intros (sig & Hsig) E.
    rewrite (Hzero E) in Hsig. discriminate.
  - intros e <-. reflexivity.
Qed.

(** ** The entry pipeline: order of the gates, state, allowed decisions *)

Section Pipeline.
Import TradingEngine.

Variable entry_filters :
  Strategy.TrendFollowingStrategy -> option DataFrame -> option Q -> option Q ->
  result (option (gmap string Q)).

Variable e : TradingEngine.
Variable symbol : string.
Variable dt : datetime.
Variable account_equity : Q.
Variable current_positions : gmap string (gmap string Q).
Variable sector_exposure_pct : gmap string Q.
Variable spread_pct : Q.
Variable volume_atr_ratio atr_multiple : option Q.
Variable ohlcv_df : option DataFrame.
Variable symbol_sector : option (gmap string string).

(** The first eight gates: the first one that fails gives the decision, and
    the engine is returned as it was. *)
Lemma run_entry_gates_early_veto (x : Reason) :
  Gates.first_veto
    (Gates.early_gates e symbol dt spread_pct volume_atr_ratio atr_multiple) = Some x ->
  run_entry_gates entry_filters e symbol dt account_equity current_positions
    sector_exposure_pct spread_pct volume_atr_ratio atr_multiple ohlcv_df symbol_sector
  = Ok (veto x, e).
Proof.
  unfold Gates.early_gates, run_entry_gates. cbn [Gates.first_veto].
  destruct (Execution.can_trade_spread (execution e) spread_pct) as [a6 r6].
  cbn [fst snd].
  destruct (Universe.is_trading_allowed _ _); cbn [negb];
    [| intros [= <-]; reflexivity].
  destruct (TradeFilters.allowed (TradeFilters.check _ _)); cbn [negb];
    [| intros [= <-]; reflexivity].
  destruct (Universe.is_eligible _ _ _ _); cbn [negb];
    [| intros [= <-]; reflexivity].
  destruct (TradeFilters.allowed (TradeFilters.earnings_check _ _ _)); cbn [negb];
    [| intros [= <-]; reflexivity].
  destruct (Universe.ok _); cbn [negb]; [| intros [= <-]; reflexivity].
  destruct a6; cbn [negb]; [| intros [= <-]; reflexivity].
  destruct (TradeFilters.allowed (TradeFilters.vol_check _ _ _)); cbn [negb];
    [| intros [= <-]; reflexivity].
  destruct (Execution.should_block_strategy _ _); cbn [negb];
    [intros [= <-]; reflexivity | discriminate].
Qed.

(** The engine a run returns differs from the one it was given at most in
    the portfolio-risk state, which is then the state [can_trade] left. *)
Lemma run_entry_gates_engine (d : TradeDecision) (e' : TradingEngine) :
  run_entry_gates entry_filters e symbol dt account_equity current_positions
    sector_exposure_pct spread_pct volume_atr_ratio atr_multiple ohlcv_df symbol_sector
  = Ok (d, e') ->
  e' = e \/
  exists b r pr,
    PortfolioRisk.can_trade (portfolio_risk e) (dt_date dt) (st_portfolio_risk (state e))
      account_equity symbol (Some (dt_date dt)) = Ok (b, r, pr) /\
    e' = with_state e (mk_engine_state pr (st_execution (state e)) (st_pdt (state e))).
Proof.
  unfold run_entry_gates.
  repeat match goal with
         | |- context [if negb ?b then _ else _] =>
             destruct b; cbn [negb];
             [| intros [= <- <-]; left; reflexivity]
         | |- context [let '(_, _) := ?p in _] => destruct p
         | |- context [if ?b then _ else _] =>
             destruct b; [intros [= <- <-]; left; reflexivity |]
         end.
  destruct (PortfolioRisk.can_trade _ _ _ _ _ _) as [[[b9 r9] pr9] |] eqn:G9;
    run_bind; [|discriminate].
  intros Hrun. right. exists b9, r9, pr9. split; [reflexivity|].
  revert Hrun.
  repeat match goal with
         | |- context [if negb ?b then _ else _] =>
             destruct b; cbn [negb];
             [| intros [= <- <-]; reflexivity]
         | |- context [let '(_, _) := ?p in _] => destruct p
         end.
  destruct (Strategy.generate_entry _ _ _ _ _ _) as [[entry |] |]; run_bind;
    [| intros [= <- <-]; reflexivity | discriminate].
  destruct (size_and_build _ _ _ _ _ _ _ _ _ _); run_bind;
    [intros [= <- <-]; reflexivity | discriminate].
Qed.


End Pipeline.

(** ** Orders *)

Lemma round_half_even_near (x : Q) :
  (x - (1 # 2) <= inject_Z (round_half_even x) <= x + (1 # 2))%Q.
Proof.
  unfold round_half_even.
  pose proof (Qfloor_le x) as Hlo. pose proof (Qlt_floor x) as Hhi.
  rewrite inject_Z_plus in Hhi. change (inject_Z 1) with 1%Q in Hhi.
  destruct (flt (x - inject_Z (Qfloor x)) (1 # 2)) eqn:E1.
  { apply flt_spec in E1. lra. }
  apply flt_false in E1.
  destruct (flt (1 # 2) (x - inject_Z (Qfloor x))) eqn:E2.
  { rewrite inject_Z_plus. change (inject_Z 1) with 1%Q. lra. }
  apply flt_false in E2.
  destruct (Z.even (Qfloor x)).
  - lra.
  - rewrite inject_Z_plus. change (inject_Z 1) with 1%Q. lra.
Qed.

Lemma py_round2_near (x : Q) :
  (x - (1 # 200) <= py_round2 x <= x + (1 # 200))%Q.
Proof.
  unfold py_round2. pose proof (round_half_even_near (x * 100)) as [Hlo Hhi].
  set (n := inject_Z (round_half_even (x * 100))) in *.
  split.
  - apply Qle_shift_div_l; [reflexivity | lra].
  - apply Qle_shift_div_r; [reflexivity | lra].
Qed.

(** X6.  [build_order] returns no order exactly when the spread exceeds
    [max_spread_pct_to_trade].  Otherwise the order carries the symbol, side
    and quantity it was given and the mid price as expected price; with
    [prefer_limit_orders] it is a LIMIT order whose limit price is within
    half a cent of [mid - offset] for side "buy" and of [mid + offset] for
    every other side, where [offset = limit_order_offset_ticks * tick_size];
    without it, a MARKET order with no limit price. *)
Theorem build_order_result (m : Execution.ExecutionManager) (symbol side : string)
    (quantity : Z) (mid_price spread_pct tick_size : Q) :
  let offset := (inject_Z (Execution.limit_order_offset_ticks m) * tick_size)%Q in
  let target := if String.eqb side "buy" then (mid_price - offset)%Q
                else (mid_price + offset)%Q in
  ((Execution.max_spread_pct_to_trade m < spread_pct)%Q <->
   Execution.build_order m symbol side quantity mid_price spread_pct tick_size = None) /\
  ((spread_pct <= Execution.max_spread_pct_to_trade m)%Q ->
   exists order,
     Execution.build_order m symbol side quantity mid_price spread_pct tick_size
       = Some order /\
     Execution.symbol order = symbol /\ Execution.side order = side /\
     Execution.quantity order = quantity /\
     Execution.expected_price order = Some mid_price /\
     (Execution.prefer_limit_orders m = true ->
      Execution.order_type order = Execution.LIMIT /\
      exists limit, Execution.limit_price order = Some limit /\
                    (target - (1 # 200) <= limit <= target + (1 # 200))%Q) /\
     (Execution.prefer_limit_orders m = false ->
      Execution.order_type order = Execution.MARKET /\
      Execution.limit_price order = None)).
Proof.
  intros offset target. unfold Execution.build_order, Execution.can_trade_spread.
  destruct (fgt spread_pct (Execution.max_spread_pct_to_trade m)) eqn:E; cbn [negb].
  - apply fgt_spec in E. split; [split; auto|].
    intros Hle. destruct (Qlt_not_le _ _ E Hle).
  - apply fgt_false in E. split.
    + split; [intros Hlt; destruct (Qlt_not_le _ _ Hlt E)|].
      destruct (Execution.prefer_limit_orders m); discriminate.
    + intros _. destruct (Execution.prefer_limit_orders m).
      * eexists. split; [reflexivity|]. cbn. repeat split; try discriminate.
        eexists. split; [reflexivity|]. subst target. fold offset.
        destruct (String.eqb side "buy"); apply py_round2_near.
      * eexists. split; [reflexivity|]. cbn. repeat split; discriminate.
Qed.

(** ** Decisions of the entry pipeline *)


(** X7.  The first eight gates of [run_entry_gates] (calendar, macro
    blackout, universe, earnings blackout, market quality, execution spread,
    volatility do-not-trade, slippage circuit breaker) run in that order:
    the first that fails gives the decision, which is a veto carrying that
    gate's reason and nothing else; the engine state is untouched, and
    nothing after the failing gate runs, so a strategy or sizing step that
    would raise cannot. *)
Theorem entry_gates_first_veto_wins
    (entry_filters : Strategy.TrendFollowingStrategy -> option DataFrame ->
                     option Q -> option Q -> result (option (gmap string Q)))
    (e : TradingEngine.TradingEngine) (symbol : string) (dt : datetime)
    (account_equity : Q) (current_positions : gmap string (gmap string Q))
    (sector_exposure_pct : gmap string Q) (spread_pct : Q)
    (volume_atr_ratio atr_multiple : option Q) (ohlcv_df : option DataFrame)
    (symbol_sector : option (gmap string string)) (x : Reason) :
  Gates.first_veto
    (Gates.early_gates e symbol dt spread_pct volume_atr_ratio atr_multiple) = Some x ->
  TradingEngine.run_entry_gates entry_filters e symbol dt account_equity
    current_positions sector_exposure_pct spread_pct volume_atr_ratio atr_multiple
    ohlcv_df symbol_sector
  = Ok (TradingEngine.mk_decision false x None None None, e).
Proof.
  intros Hveto.
  rewrite (run_entry_gates_early_veto entry_filters e symbol dt account_equity
             current_positions sector_exposure_pct spread_pct volume_atr_ratio
             atr_multiple ohlcv_df symbol_sector x Hveto).
  reflexivity.
Qed.

(** A symbol outside the universe is vetoed at the third gate, also when the
    strategy would raise. *)
Lemma entry_gates_first_veto_wins_witness :
  let raising :=
    fun (_ : Strategy.TrendFollowingStrategy) (_ : option DataFrame) (_ _ : option Q) =>
      (Raise IndexError : result (option (gmap string Q))) in
  let e := TradingEngine.default_engine ["QQQ"%string] in
  TradingEngine.run_entry_gates raising e "SPY" (mk_datetime 739000%Z (hm 10 0)) 100000
    ∅ ∅ (1 # 20) None (Some 1%Q) None None
  = Ok (TradingEngine.mk_decision false (RNotInUniverse "SPY") None None None, e).
Proof.
  intros raising e.
  apply (entry_gates_first_veto_wins raising e "SPY" (mk_datetime 739000%Z (hm 10 0))
           100000 ∅ ∅ (1 # 20) None (Some 1%Q) None None (RNotInUniverse "SPY")).
  vm_compute. reflexivity.
Defined.


(** X9.  [run_entry_gates] changes nothing of the engine but the
    portfolio-risk state: the eleven components built from the configuration
    and the execution and PDT states are the same afterwards, whatever the
    decision; the portfolio-risk state is either untouched (a veto by one of
    the first eight gates) or the state [can_trade] left. *)
Theorem entry_gates_touch_only_portfolio_state
    (entry_filters : Strategy.TrendFollowingStrategy -> option DataFrame ->
                     option Q -> option Q -> result (option (gmap string Q)))
    (e : TradingEngine.TradingEngine) (symbol : string) (dt : datetime)
    (account_equity : Q) (current_positions : gmap string (gmap string Q))
    (sector_exposure_pct : gmap string Q) (spread_pct : Q)
    (volume_atr_ratio atr_multiple : option Q) (ohlcv_df : option DataFrame)
    (symbol_sector : option (gmap string string))
    (d : TradingEngine.TradeDecision) (e' : TradingEngine.TradingEngine) :
  TradingEngine.run_entry_gates entry_filters e symbol dt account_equity
    current_positions sector_exposure_pct spread_pct volume_atr_ratio atr_multiple
    ohlcv_df symbol_sector = Ok (d, e') ->
  e' = TradingEngine.with_state e
         (TradingEngine.mk_engine_state
            (TradingEngine.st_portfolio_risk (TradingEngine.state e'))
            (TradingEngine.st_execution (TradingEngine.state e))
            (TradingEngine.st_pdt (TradingEngine.state e))) /\
  (TradingEngine.st_portfolio_risk (TradingEngine.state e')
     = TradingEngine.st_portfolio_risk (TradingEngine.state e) \/
   exists b r,
     PortfolioRisk.can_trade (TradingEngine.portfolio_risk e) (dt_date dt)
       (TradingEngine.st_portfolio_risk (TradingEngine.state e)) account_equity symbol
       (Some (dt_date dt))
     = Ok (b, r, TradingEngine.st_portfolio_risk (TradingEngine.state e'))).
Proof.
  intros Hrun.
  destruct (run_entry_gates_engine entry_filters e symbol dt account_equity
              current_positions sector_exposure_pct spread_pct volume_atr_ratio
              atr_multiple ohlcv_df symbol_sector d e' Hrun)
    as [-> | (b & r & pr & Hct & ->)].
  - split; [|left; reflexivity].
    destruct e as [c u mq s sz prm ex cm mb eb vd [pr es pdt]]. reflexivity.
  - split; [reflexivity|]. right. exists b, r. exact Hct.
Qed.


(** The same run: the engine returned differs in the portfolio-risk state
    only. *)
Lemma entry_gates_touch_only_portfolio_state_witness :
  let pass :=
    fun (_ : Strategy.TrendFollowingStrategy) (_ : option DataFrame) (_ _ : option Q) =>
      Ok (Some (∅ : gmap string Q)) in
  let e := TradingEngine.update_equity (TradingEngine.default_engine ["SPY"%string])
             (mk_datetime 739000%Z (hm 9 55)) 100000 None in
  let dt := mk_datetime 739000%Z (hm 10 0) in
  let df : DataFrame := [mk_bar 100 100 100 100 1000000] in
  exists d e',
    TradingEngine.run_entry_gates pass e "SPY" dt 100000 ∅ ∅ (1 # 20) None (Some 1%Q)
      (Some df) None = Ok (d, e') /\
    e' = TradingEngine.with_state e
           (TradingEngine.mk_engine_state
              (TradingEngine.st_portfolio_risk (TradingEngine.state e'))
              (TradingEngine.st_execution (TradingEngine.state e))
              (TradingEngine.st_pdt (TradingEngine.state e))).
Proof.
  intros pass e dt df.
  assert (Hrun : exists d e',
             TradingEngine.run_entry_gates pass e "SPY" dt 100000 ∅ ∅ (1 # 20) None
               (Some 1%Q) (Some df) None = Ok (d, e')).
  { do 2 eexists. vm_compute. reflexivity. }
  destruct Hrun as (d & e' & Hrun).
  exists d, e'. split; [exact Hrun|].
  exact (proj1 (entry_gates_touch_only_portfolio_state pass e "SPY" dt 100000 ∅ ∅
                  (1 # 20) None (Some 1%Q) (Some df) None d e' Hrun)).
Defined.

(** ** Calendar and filters *)

Lemma check_earnings_dates_vetoes (eb : TradeFilters.EarningsBlackout) (symbol : string)
    (d : date) (eds : list date) :
  TradeFilters.allowed (TradeFilters.check_earnings_dates eb symbol d eds) = false <->
  exists ed, In ed eds /\
             (ed - TradeFilters.days_before eb <= d <= ed + TradeFilters.days_after eb)%Z.
Proof.
  induction eds as [| ed rest IH]; simpl.
  - split; [discriminate | intros (? & [] & _)].
  - destruct (Z.leb_spec (ed - TradeFilters.days_before eb) d) as [H1 | H1];
      destruct (Z.leb_spec d (ed + TradeFilters.days_after eb)) as [H2 | H2]; simpl.
    + split; [intros _; exists ed; split; [now left | lia] | reflexivity].
    + rewrite IH. split.
      * intros (x & Hin & Hx). exists x. split; [now right | exact Hx].
      * intros (x & [<- | Hin] & Hx); [lia | eauto].
    + rewrite IH. split.
      * intros (x & Hin & Hx). exists x. split; [now right | exact Hx].
      * intros (x & [<- | Hin] & Hx); [lia | eauto].
    + rewrite IH. split.
      * intros (x & Hin & Hx). exists x. split; [now right | exact Hx].
      * intros (x & [<- | Hin] & Hx); [lia | eauto].
Qed.

(** X10.  [EarningsBlackout.check] vetoes exactly when the filter is enabled
    and some earnings date [ed] recorded for the upper-cased symbol has
    [ed - days_before <= d <= ed + days_after], [d] the date of [dt]; the
    time of day plays no part, symbols that agree after upper-casing get the
    same verdict, and a symbol with no entry is never vetoed. *)
Theorem earnings_blackout_window (eb : TradeFilters.EarningsBlackout) (symbol : string)
    (dt : datetime) :
  (TradeFilters.allowed (TradeFilters.earnings_check eb symbol dt) = false <->
   TradeFilters.eb_enabled eb = true /\
   exists ed,
     In ed (default [] (TradeFilters.earnings_dates eb !! str_upper symbol)) /\
     (ed - TradeFilters.days_before eb <= dt_date dt
        <= ed + TradeFilters.days_after eb)%Z) /\
  (forall t : time,
     TradeFilters.earnings_check eb symbol (mk_datetime (dt_date dt) t)
     = TradeFilters.earnings_check eb symbol dt) /\
  (forall symbol' : string,
     str_upper symbol' = str_upper symbol ->
     TradeFilters.allowed (TradeFilters.earnings_check eb symbol' dt)
     = TradeFilters.allowed (TradeFilters.earnings_check eb symbol dt)) /\
  (TradeFilters.earnings_dates eb !! str_upper symbol = None ->
   TradeFilters.earnings_check eb symbol dt = TradeFilters.mk_filter_result true ROk).
Proof.
  assert (Hiff : forall s,
             TradeFilters.allowed (TradeFilters.earnings_check eb s dt) = false <->
             TradeFilters.eb_enabled eb = true /\
             exists ed,
               In ed (default [] (TradeFilters.earnings_dates eb !! str_upper s)) /\
               (ed - TradeFilters.days_before eb <= dt_date dt
                  <= ed + TradeFilters.days_after eb)%Z).
  { intros s. unfold TradeFilters.earnings_check.
    destruct (TradeFilters.eb_enabled eb); cbn [negb].
    - rewrite check_earnings_dates_vetoes. tauto.
    - simpl. split; [discriminate | intros [? _]; discriminate]. }
  split; [apply Hiff|]. split; [|split].
  - intros t. reflexivity.
  - intros symbol' Hup.
    destruct (TradeFilters.allowed (TradeFilters.earnings_check eb symbol dt)) eqn:E.
    + apply not_false_iff_true. intros E'. apply Hiff in E'. rewrite Hup in E'.
      apply Hiff in E'. rewrite E in E'. discriminate.
    + apply Hiff. rewrite Hup. apply Hiff. exact E.
  - intros Hnone. unfold TradeFilters.earnings_check. rewrite Hnone.
    destruct (TradeFilters.eb_enabled eb); reflexivity.
Qed.

(** X11.  Sessions of the calendar.  On a holiday the session is CLOSED and
    trading is not allowed, whatever the time.  Otherwise the session is the
    first of pre-market, regular, after-hours whose window contains the
    time, so that a time inside two windows belongs to the earlier one, and
    trading is allowed exactly when that first window has [trade_allowed];
    outside every window the session is CLOSED. *)
Theorem session_precedence (cal : Universe.MarketCalendar) (dt : datetime) :
  let inside := fun w => Universe._in_window (dt_time dt) w in
  (dt_date dt ∈ Universe.holidays cal ->
   Universe.get_session_at cal dt = Universe.CLOSED /\
   Universe.is_trading_allowed cal dt = false) /\
  (dt_date dt ∉ Universe.holidays cal ->
   (inside (Universe.pre_market cal) = true ->
    Universe.get_session_at cal dt = Universe.PRE_MARKET /\
    Universe.is_trading_allowed cal dt
      = Universe.trade_allowed (Universe.pre_market cal)) /\
   (inside (Universe.pre_market cal) = false ->
    inside (Universe.regular cal) = true ->
    Universe.get_session_at cal dt = Universe.REGULAR /\
    Universe.is_trading_allowed cal dt
      = Universe.trade_allowed (Universe.regular cal)) /\
   (inside (Universe.pre_market cal) = false ->
    inside (Universe.regular cal) = false ->
    inside (Universe.after_hours cal) = true ->
    Universe.get_session_at cal dt = Universe.AFTER_HOURS /\
    Universe.is_trading_allowed cal dt
      = Universe.trade_allowed (Universe.after_hours cal)) /\
   (inside (Universe.pre_market cal) = false ->
    inside (Universe.regular cal) = false ->
    inside (Universe.after_hours cal) = false ->
    Universe.get_session_at cal dt = Universe.CLOSED /\
    Universe.is_trading_allowed cal dt = false)) /\
  (Universe.is_trading_allowed cal dt = true ->
   (dt_date dt ∉ Universe.holidays cal) /\
   (inside (Universe.pre_market cal) = true \/ inside (Universe.regular cal) = true \/
    inside (Universe.after_hours cal) = true)).
Proof.
  intros inside. subst inside. unfold Universe.is_trading_allowed, Universe.get_session_at.
  cbv beta.
  destruct (decide (dt_date dt ∈ Universe.holidays cal)) as [Hhol | Hhol].
  - split; [intros _; split; reflexivity|].
    split; [intros Hn; destruct (Hn Hhol) | discriminate].
  - split; [intros Hin; destruct (Hhol Hin)|]. split.
    + intros _.
      destruct (Universe._in_window (dt_time dt) (Universe.pre_market cal));
        destruct (Universe._in_window (dt_time dt) (Universe.regular cal));
        destruct (Universe._in_window (dt_time dt) (Universe.after_hours cal));
        repeat split; intros; try discriminate; reflexivity.
    + destruct (Universe._in_window (dt_time dt) (Universe.pre_market cal));
        destruct (Universe._in_window (dt_time dt) (Universe.regular cal));
        destruct (Universe._in_window (dt_time dt) (Universe.after_hours cal));
        intros H; (split; [exact Hhol|]); auto; discriminate.
Qed.

Section MarketQuality.
Import Universe.

Variable g : MarketQualityGate.

Lemma mq_spread_bad (s : Q) (volume_atr atr : option Q) :
  (max_spread_pct g < s)%Q ->
  check g (Some s) volume_atr atr
  = mk_mq_result false (RSpreadAboveMax s (max_spread_pct g)) (Some s) None false.
Proof. intros H. unfold check. apply fgt_spec in H. rewrite H. reflexivity. Qed.

Lemma mq_spread_good (spread volume_atr atr : option Q) :
  ~ (exists s, spread = Some s /\ (max_spread_pct g < s)%Q) ->
  check g spread volume_atr atr = check g None volume_atr atr.
Proof.
  intros H. unfold check. destruct spread as [s|]; [|reflexivity].
  destruct (fgt s (max_spread_pct g)) eqn:E; [|reflexivity].
  apply fgt_spec in E. destruct H. eauto.
Qed.

Lemma mq_volume_bad (v : Q) (atr : option Q) :
  (v < min_volume_atr_ratio g)%Q ->
  check g None (Some v) atr
  = mk_mq_result false (RVolumeAtrBelowMin v (min_volume_atr_ratio g)) None (Some v) false.
Proof. intros H. unfold check. apply flt_spec in H. rewrite H. reflexivity. Qed.

Lemma mq_volume_good (volume_atr atr : option Q) :
  ~ (exists v, volume_atr = Some v /\ (v < min_volume_atr_ratio g)%Q) ->
  check g None volume_atr atr = check g None None atr.
Proof.
  intros H. unfold check. destruct volume_atr as [v|]; [|reflexivity].
  destruct (flt v (min_volume_atr_ratio g)) eqn:E; [|reflexivity].
  apply flt_spec in E. destruct H. eauto.
Qed.

Lemma mq_spike_bad (a : Q) :
  block_on_news_spike g = true -> (news_volatility_spike_atr_multiple g <= a)%Q ->
  check g None None (Some a) = mk_mq_result false (RVolatilitySpike a) None None true.
Proof.
  intros Hb H. unfold check. apply fge_spec in H. rewrite Hb, H. reflexivity.
Qed.

Lemma mq_spike_good (atr : option Q) :
  ~ (block_on_news_spike g = true /\
     exists a, atr = Some a /\ (news_volatility_spike_atr_multiple g <= a)%Q) ->
  check g None None atr = mk_mq_result true ROk None None false.
Proof.
  intros H. unfold check. destruct atr as [a|]; [|reflexivity].
  destruct (block_on_news_spike g) eqn:Eb; [|reflexivity].
  destruct (fge a (news_volatility_spike_atr_multiple g)) eqn:E; [|reflexivity].
  apply fge_spec in E. destruct H. eauto.
Qed.

End MarketQuality.

(** X12.  [MarketQualityGate.check] passes exactly when no supplied metric
    violates its limit: the spread is at most [max_spread_pct], the
    volume/ATR ratio at least [min_volume_atr_ratio], and, with
    [block_on_news_spike], the ATR multiple below
    [news_volatility_spike_atr_multiple]; metrics that are [None] pass.
    When several are violated the reason is that of the first in the order
    spread, volume/ATR, spike. *)
Theorem market_quality_check_result (g : Universe.MarketQualityGate)
    (spread volume_atr atr : option Q) :
  let spread_bad := exists s, spread = Some s /\ (Universe.max_spread_pct g < s)%Q in
  let volume_bad :=
    exists v, volume_atr = Some v /\ (v < Universe.min_volume_atr_ratio g)%Q in
  let spike_bad :=
    Universe.block_on_news_spike g = true /\
    exists a, atr = Some a /\ (Universe.news_volatility_spike_atr_multiple g <= a)%Q in
  (Universe.ok (Universe.check g spread volume_atr atr) = true <->
   ~ spread_bad /\ ~ volume_bad /\ ~ spike_bad) /\
  (forall s, spread = Some s -> (Universe.max_spread_pct g < s)%Q ->
   Universe.reason (Universe.check g spread volume_atr atr)
     = RSpreadAboveMax s (Universe.max_spread_pct g)) /\
  (~ spread_bad ->
   forall v, volume_atr = Some v -> (v < Universe.min_volume_atr_ratio g)%Q ->
   Universe.reason (Universe.check g spread volume_atr atr)
     = RVolumeAtrBelowMin v (Universe.min_volume_atr_ratio g)) /\
  (~ spread_bad -> ~ volume_bad -> spike_bad ->
   exists a, atr = Some a /\
             Universe.check g spread volume_atr atr
             = Universe.mk_mq_result false (RVolatilitySpike a) None None true) /\
  Universe.check g None None None = Universe.mk_mq_result true ROk None None false.
Proof.
  intros spread_bad volume_bad spike_bad.
  assert (Dspread : spread_bad \/ ~ spread_bad).
  { subst spread_bad. destruct spread as [s|].
    - destruct (Qlt_le_dec (Universe.max_spread_pct g) s) as [H | H]; [left; eauto|].
      right. intros (s' & [= <-] & Hlt). exact (Qlt_not_le _ _ Hlt H).
    - right. intros (s' & E & _). discriminate. }
  assert (Dvolume : volume_bad \/ ~ volume_bad).
  { subst volume_bad. destruct volume_atr as [v|].
    - destruct (Qlt_le_dec v (Universe.min_volume_atr_ratio g)) as [H | H]; [left; eauto|].
      right. intros (v' & [= <-] & Hlt). exact (Qlt_not_le _ _ Hlt H).
    - right. intros (v' & E & _). discriminate. }
  assert (Dspike : spike_bad \/ ~ spike_bad).
  { subst spike_bad. destruct (Universe.block_on_news_spike g) eqn:Eb.
    - destruct atr as [a|].
      + destruct (Qlt_le_dec a (Universe.news_volatility_spike_atr_multiple g))
          as [H | H];
          [|left; split; [reflexivity | exists a; split; [reflexivity | exact H]]].
        right. intros (_ & a' & [= <-] & Hle). exact (Qlt_not_le _ _ H Hle).
      + right. intros (_ & a' & E & _). discriminate.
    - right. intros (E & _). discriminate. }
  subst spread_bad volume_bad spike_bad.
  split; [|split; [|split; [|split]]].
  - destruct Dspread as [(s & -> & Hs) | Hns].
    { rewrite (mq_spread_bad g s _ _ Hs). simpl.
      split; [discriminate | intros (H & _); destruct H].
      exists s. split; [reflexivity | exact Hs]. }
    rewrite (mq_spread_good g _ _ _ Hns).
    destruct Dvolume as [(v & -> & Hv) | Hnv].
    { rewrite (mq_volume_bad g v _ Hv). simpl.
      split; [discriminate | intros (_ & H & _); destruct H].
      exists v. split; [reflexivity | exact Hv]. }
    rewrite (mq_volume_good g _ _ Hnv).
    destruct Dspike as [(Hb & a & -> & Ha) | Hnk].
    { rewrite (mq_spike_bad g a Hb Ha). simpl.
      split; [discriminate | intros (_ & _ & H); destruct H].
      split; [exact Hb | exists a; split; [reflexivity | exact Ha]]. }
    rewrite (mq_spike_good g _ Hnk). simpl. tauto.
  - intros s -> Hs. rewrite (mq_spread_bad g s _ _ Hs). reflexivity.
  - intros Hns v -> Hv. rewrite (mq_spread_good g _ _ _ Hns), (mq_volume_bad g v _ Hv).
    reflexivity.
  - intros Hns Hnv (Hb & a & -> & Ha). exists a. split; [reflexivity|].
    rewrite (mq_spread_good g _ _ _ Hns), (mq_volume_good g _ _ Hnv).
    apply mq_spike_bad; assumption.
  - reflexivity.
Qed.

(** ** Slippage and its average *)

Lemma ratio_sign (x p : Q) : (0 < p)%Q -> ((0 < x / p * 10000)%Q <-> (0 < x)%Q).
Proof.
  intros Hp.
  assert (Hinv : (0 < / p)%Q) by (apply Qinv_lt_0_compat; exact Hp).
  split; intros H.
  - apply Qnot_le_lt. intros Hx. apply (Qlt_not_le _ _ H).
    assert (E : (0 == 0 * / p * 10000)%Q) by ring. rewrite E.
    unfold Qdiv. apply Qmult_le_compat_r; [|discriminate].
    apply Qmult_le_compat_r; [exact Hx | apply Qlt_le_weak; exact Hinv].
  - unfold Qdiv. apply Qmult_lt_0_compat; [|reflexivity].
    apply Qmult_lt_0_compat; assumption.
Qed.

(** X13.  Sign of the slippage [record_fill] records, for
    [expected_price > 0]: a buy has positive slippage exactly when it fills
    above the expected price; any other side, which the code treats as a
    sell, exactly when it fills below; a fill at the expected price has
    slippage 0 on either side. *)
Theorem slippage_sign (side : string) (fill_price expected_price : Q) :
  (0 < expected_price)%Q ->
  exists slip,
    Execution.fill_slippage side fill_price expected_price = Ok slip /\
    (side = "buy"%string -> ((0 < slip)%Q <-> (expected_price < fill_price)%Q)) /\
    (side <> "buy"%string -> ((0 < slip)%Q <-> (fill_price < expected_price)%Q)) /\
    ((fill_price == expected_price)%Q -> (slip == 0)%Q).
Proof.
  intros Hpos.
  destruct (fill_slippage_ok side fill_price expected_price)
    as (slip & Hrun & _ & Hbuy & Hsell).
  exists slip. split; [exact Hrun|].
  split; [|split].
  - intros Hs. rewrite (Hbuy Hpos Hs), (ratio_sign _ _ Hpos). lra.
  - intros Hs. rewrite (Hsell Hpos Hs), (ratio_sign _ _ Hpos). lra.
  - intros Heq. destruct (string_dec side "buy") as [Hs | Hs].
    + rewrite (Hbuy Hpos Hs), Heq. field. apply Qpos_nonzero. exact Hpos.
    + rewrite (Hsell Hpos Hs), Heq. field. apply Qpos_nonzero. exact Hpos.
Qed.

(** A buy expected at 100 and filled at 100.25 has 25 bps of slippage. *)
Lemma slippage_sign_witness :
  exists slip,
    Execution.fill_slippage "buy" (401 # 4) 100 = Ok slip /\
    ((0 < slip)%Q <-> (100 < 401 # 4)%Q).
Proof.
  destruct (slippage_sign "buy" (401 # 4) 100 eq_refl) as (slip & Hrun & Hbuy & _).
  exists slip. split; [exact Hrun | exact (Hbuy eq_refl)].
Defined.

(** X14.  After [record_fill] the history is the old history with the new
    fill at the end, [strategy_slippage_bps_avg] is the arithmetic mean of
    the slippage of every fill of that history, and [strategy_blocked] is
    true exactly when it was true before or this mean exceeds
    [block_strategy_if_slippage_bps_avg_exceeds]. *)
Theorem record_fill_average_and_breaker (m : Execution.ExecutionManager)
    (now : datetime) (state : Execution.ExecutionState) (symbol side : string)
    (quantity : Z) (fill_price expected_price : Q) :
  exists state' fill,
    Execution.record_fill m now state symbol side quantity fill_price expected_price
      = Ok state' /\
    Execution.fill_history state' = Execution.fill_history state ++ [fill] /\
    (Execution.strategy_slippage_bps_avg state'
       * inject_Z (Z.of_nat (length (Execution.fill_history state')))
     == Execution.sum_slippage (Execution.fill_history state'))%Q /\
    (Execution.strategy_blocked state' = true <->
     Execution.strategy_blocked state = true \/
     (Execution.block_strategy_if_slippage_bps_avg_exceeds m
        < Execution.strategy_slippage_bps_avg state')%Q).
Proof.
  destruct (record_fill_run m now state symbol side quantity fill_price expected_price)
    as (slip & _ & Hrun). cbv zeta in Hrun.
  do 2 eexists. split; [exact Hrun|]. cbn [Execution.fill_history
    Execution.strategy_slippage_bps_avg Execution.strategy_blocked].
  split; [reflexivity|]. split.
  - field. unfold Qeq; simpl. rewrite length_app. simpl. lia.
  - destruct (fgt _ _) eqn:E.
    + apply fgt_spec in E. tauto.
    + apply fgt_false in E. split; [tauto|].
      intros [H | H]; [exact H | destruct (Qlt_not_le _ _ H E)].
Qed.

(** ** Day-trade records *)

Lemma count_since_app (cutoff : date) (l1 l2 : list date) :
  count_since cutoff (l1 ++ l2) = (count_since cutoff l1 + count_since cutoff l2)%Z.
Proof. induction l1 as [| d rest IH]; simpl; [reflexivity | rewrite IH; lia]. Qed.

Lemma count_since_bounds (cutoff : date) (l : list date) :
  (0 <= count_since cutoff l <= Z.of_nat (length l))%Z.
Proof.
  induction l as [| d rest IH]; simpl; [lia|].
  destruct (cutoff <=? d)%Z; lia.
Qed.

Lemma count_since_all (cutoff : date) (l : list date) :
  (forall d, In d l -> (cutoff <= d)%Z) -> count_since cutoff l = Z.of_nat (length l).
Proof.
  induction l as [| d rest IH]; intros H; simpl; [reflexivity|].
  rewrite IH by (intros; apply H; simpl; auto).
  replace (cutoff <=? d)%Z with true by (symmetry; apply Z.leb_le, H; simpl; auto).
  lia.
Qed.

Lemma count_since_pos (cutoff : date) (l : list date) :
  (0 < count_since cutoff l)%Z -> exists d, In d l /\ (cutoff <= d)%Z.
Proof.
  induction l as [| d rest IH]; simpl; [lia|].
  destruct (Z.leb_spec cutoff d) as [H | H].
  - intros _. exists d. auto.
  - intros Hpos. destruct IH as (x & Hin & Hx); [lia|]. exists x. auto.
Qed.

(** X15.  [record_day_trade] appends the date and then keeps the last 20
    entries: the new list is a suffix of the old list followed by the date,
    it ends with the date, and its length is the lesser of the old length
    plus one and 20 (for an old list of at most 20 entries; never more than
    the old length plus one); the equity is unchanged. *)
Theorem record_day_trade_keeps_last_20 (m : Compliance.ComplianceManager)
    (state : Compliance.PDTState) (trade_date : date) :
  let old := Compliance.day_trade_dates state in
  let new := Compliance.day_trade_dates (Compliance.record_day_trade m state trade_date) in
  (exists dropped, old ++ [trade_date] = dropped ++ new) /\
  last new = Some trade_date /\
  (length new <= 20)%nat /\
  length new = Nat.min (length old + 1) 20 /\
  ((length old < 20)%nat -> new = old ++ [trade_date]) /\
  Compliance.equity (Compliance.record_day_trade m state trade_date)
    = Compliance.equity state.
Proof.
  intros old new. subst old new. unfold Compliance.record_day_trade.
  cbn [Compliance.day_trade_dates Compliance.equity].
  set (dates := Compliance.day_trade_dates state ++ [trade_date]).
  assert (Hlen : length dates = (length (Compliance.day_trade_dates state) + 1)%nat)
    by (subst dates; rewrite length_app; reflexivity).
  destruct (Z.gtb_spec (Z.of_nat (length dates)) 20) as [Hgt | Hle].
  - split; [exists (firstn (length dates - 20) dates); symmetry; apply firstn_skipn|].
    split.
    + subst dates. rewrite skipn_app.
      replace (length (Compliance.day_trade_dates state ++ [trade_date]) - 20
               - length (Compliance.day_trade_dates state))%nat with 0%nat by lia.
      apply last_snoc.
    + rewrite length_skipn. repeat split; lia.
  - split; [exists []; reflexivity|].
    split; [subst dates; apply last_snoc|].
    repeat split; lia.
Qed.

Lemma count_since_suffix (cutoff : date) (dropped kept : list date) :
  StronglySorted Z.le (dropped ++ kept) -> (3 <= length kept)%nat ->
  (count_since cutoff (dropped ++ kept) >=? 3)%Z = (count_since cutoff kept >=? 3)%Z.
Proof.
  intros Hsorted Hlen. rewrite count_since_app.
  pose proof (count_since_bounds cutoff dropped) as Hb.
  destruct (Z_lt_le_dec 0 (count_since cutoff dropped)) as [Hpos | Hzero].
  - destruct (count_since_pos cutoff dropped Hpos) as (x & Hx & Hcut).
    rewrite (count_since_all cutoff kept).
    + destruct (Z.geb_spec (count_since cutoff dropped + Z.of_nat (length kept)) 3);
        destruct (Z.geb_spec (Z.of_nat (length kept)) 3); lia.
    + intros y Hy. apply Z.le_trans with x; [exact Hcut|].
      apply (StronglySorted_app_1_elem_of Z.le dropped kept);
        [exact Hsorted | apply list_elem_of_In; exact Hx | apply list_elem_of_In; exact Hy].
  - replace (count_since cutoff dropped) with 0%Z by lia. reflexivity.
Qed.

(** X16.  Keeping only the last 20 day-trade dates does not change the
    verdict of [can_day_trade] when the dates are recorded in chronological
    order: after [record_day_trade], [can_day_trade] answers, for every
    date, as it would on the full list with the new date appended. *)
Theorem record_day_trade_keeps_verdict (m : Compliance.ComplianceManager)
    (state : Compliance.PDTState) (trade_date today : date) :
  StronglySorted Z.le (Compliance.day_trade_dates state ++ [trade_date]) ->
  Compliance.can_day_trade m (Compliance.record_day_trade m state trade_date) today
  = Compliance.can_day_trade m
      (Compliance.mk_pdt (Compliance.equity state)
         (Compliance.day_trades_count_rolling state)
         (Compliance.day_trade_dates state ++ [trade_date])) today.
Proof.
  intros Hsorted. unfold Compliance.can_day_trade.
  rewrite !recent_day_trades_count. unfold Compliance.record_day_trade.
  cbn [Compliance.day_trade_dates Compliance.equity].
  set (dates := Compliance.day_trade_dates state ++ [trade_date]) in *.
  destruct (Z.gtb_spec (Z.of_nat (length dates)) 20) as [Hgt | Hle]; [|reflexivity].
  unfold Compliance.max_day_trades_below_threshold.
  rewrite <- (firstn_skipn (length dates - 20) dates) in Hsorted.
  rewrite <- (count_since_suffix (today - 7)%Z _ _ Hsorted).
  - rewrite firstn_skipn. reflexivity.
  - rewrite length_skipn. lia.
Qed.

(** Twenty-one consecutive days recorded, then the day after. *)
Lemma record_day_trade_keeps_verdict_witness :
  let m := Compliance.mk_manager 25000 true true in
  let state := Compliance.mk_pdt 20000 0 (map Z.of_nat (seq 1 21)) in
  Compliance.can_day_trade m (Compliance.record_day_trade m state 22%Z) 25%Z
  = Compliance.can_day_trade m
      (Compliance.mk_pdt 20000 0 (map Z.of_nat (seq 1 21) ++ [22%Z])) 25%Z.
Proof.
  intros m state.
  apply (record_day_trade_keeps_verdict m state 22%Z 25%Z).
  cbn. repeat (constructor; [| repeat (constructor; [lia|]); constructor]).
  constructor.
Defined.

(** ** The portfolio-risk ledger: approvals, counters, safe mode *)

Section LedgerFacts.
Import PortfolioRisk Ledger.

Variable m : PortfolioRiskManager.

(** What [can_trade_limits] returns, case by case. *)
Lemma can_trade_limits_cases (state : PortfolioRiskState) (current_equity : Q)
    (symbol : string) :
  exists dd,
    current_drawdown_pct m state current_equity = Ok dd /\
    ((trading_stopped_for_day state = true /\
      can_trade_limits m state current_equity symbol
      = Ok (false, RDailyLossStopped, state)) \/
     (trading_stopped_for_day state = false /\
      (daily_pnl_pct state <= daily_loss_limit_pct m)%Q /\
      can_trade_limits m state current_equity symbol
      = Ok (false, RDailyLossLimitHit (daily_loss_limit_pct m) (daily_pnl_pct state),
            set_trading_stopped state)) \/
     (trading_stopped_for_day state = false /\
      (daily_loss_limit_pct m < daily_pnl_pct state)%Q /\
      (dd <= max_drawdown_pct m)%Q /\ safe_mode_after_max_dd m = true /\
      can_trade_limits m state current_equity symbol
      = Ok (false, RMaxDrawdownHit (max_drawdown_pct m), set_safe_mode state)) \/
     (trading_stopped_for_day state = false /\
      (daily_loss_limit_pct m < daily_pnl_pct state)%Q /\
      ((max_drawdown_pct m < dd)%Q \/ safe_mode_after_max_dd m = false) /\
      exists b r,
        can_trade_limits m state current_equity symbol = Ok (b, r, state) /\
        (b = true <->
         (daily_trade_count state < max_trades_per_day m)%Z /\
         (default 0%Z (daily_trades_per_symbol state !! symbol)
            < max_trades_per_symbol_per_day m)%Z) /\
        (b = true -> r = ROk))).
Proof.
  destruct (current_drawdown_pct_ok m state current_equity) as (dd & Hdd).
  exists dd. split; [exact Hdd|]. unfold can_trade_limits.
  destruct (trading_stopped_for_day state); [left; auto|]. right.
  destruct (fle (daily_pnl_pct state) (daily_loss_limit_pct m)) eqn:Epnl.
  { apply fle_spec in Epnl. left. auto. }
  apply fle_false in Epnl. right. rewrite Hdd. run_bind.
  destruct (fle dd (max_drawdown_pct m)) eqn:Edd;
    [apply fle_spec in Edd | apply fle_false in Edd];
    (destruct (safe_mode_after_max_dd m) eqn:Eafter; cbn [andb]);
    [left; auto | right | right | right];
    (split; [reflexivity|]); (split; [exact Epnl|]); (split; [auto|]);
    destruct (Z.geb_spec (daily_trade_count state) (max_trades_per_day m));
    try (do 2 eexists; split; [reflexivity|];
         split; [split; [discriminate | lia] | discriminate]);
    destruct (Z.geb_spec (default 0%Z (daily_trades_per_symbol state !! symbol))
                (max_trades_per_symbol_per_day m));
    do 2 eexists; (split; [reflexivity|]);
    (split; [split; [first [discriminate | intros _; lia] | first [lia | reflexivity]]
            | first [discriminate | reflexivity]]).
Qed.

End LedgerFacts.

Lemma per_symbol_total_insert_new (counts : gmap string Z) (k : string) (v : Z) :
  counts !! k = None ->
  per_symbol_total (<[k := v]> counts) = (v + per_symbol_total counts)%Z.
Proof.
  intros Hk. unfold per_symbol_total.
  rewrite map_fold_insert_L; [reflexivity | intros; lia | exact Hk].
Qed.

Lemma per_symbol_total_insert (counts : gmap string Z) (k : string) (v : Z) :
  per_symbol_total (<[k := v]> counts)
  = (v + per_symbol_total counts - default 0 (counts !! k))%Z.
Proof.
  destruct (counts !! k) as [old|] eqn:Hk; simpl.
  - rewrite <- (insert_delete_id counts k old Hk) at 2.
    rewrite <- insert_delete_eq.
    rewrite !per_symbol_total_insert_new by apply lookup_delete_eq. lia.
  - rewrite per_symbol_total_insert_new by exact Hk. lia.
Qed.

Lemma per_symbol_total_nonneg (counts : gmap string Z) :
  map_Forall (fun _ v => 0 <= v)%Z counts -> (0 <= per_symbol_total counts)%Z.
Proof.
  induction counts as [| k v counts Hk _ IH] using map_first_key_ind.
  - intros _. unfold per_symbol_total. rewrite map_fold_empty. lia.
  - intros Hall. rewrite per_symbol_total_insert_new by exact Hk.
    apply map_Forall_insert in Hall; [|exact Hk]. destruct Hall as [Hv Hall].
    specialize (IH Hall). lia.
Qed.

Lemma per_symbol_total_ge (counts : gmap string Z) (k : string) :
  map_Forall (fun _ v => 0 <= v)%Z counts ->
  (0 <= default 0 (counts !! k) <= per_symbol_total counts)%Z.
Proof.
  intros Hall. destruct (counts !! k) as [v|] eqn:Hk; simpl.
  - pose proof (Hall k v Hk) as Hv. simpl in Hv.
    rewrite <- (insert_delete_id counts k v Hk).
    rewrite per_symbol_total_insert_new by apply lookup_delete_eq.
    assert (0 <= per_symbol_total (delete k counts))%Z; [|lia].
    apply per_symbol_total_nonneg. apply map_Forall_delete. exact Hall.
  - pose proof (per_symbol_total_nonneg counts Hall). lia.
Qed.


Section LedgerInvariants.
Import PortfolioRisk Ledger.

Variable m : PortfolioRiskManager.

Lemma counters_agree_reset (state : PortfolioRiskState) (today : date) :
  counters_agree state -> counters_agree (check_daily_reset m state today).
Proof.
  intros Hinv. unfold check_daily_reset. destruct (bool_decide _); [|exact Hinv].
  split; simpl; [unfold per_symbol_total; rewrite map_fold_empty; reflexivity|].
  apply map_Forall_empty.
Qed.

Lemma counters_agree_record_trade (state : PortfolioRiskState) (symbol : string)
    (pnl_pct : Q) :
  counters_agree state -> counters_agree (record_trade m state symbol pnl_pct).
Proof.
  intros [Hsum Hall]. split; simpl.
  - rewrite per_symbol_total_insert, Hsum. lia.
  - apply map_Forall_insert_2; [|exact Hall].
    pose proof (per_symbol_total_ge _ symbol Hall). lia.
Qed.

(** [can_trade] returns, and what it changes: the daily reset, and at most
    one of the two latches. *)
Lemma can_trade_effect (sys_today : date) (state : PortfolioRiskState)
    (current_equity : Q) (symbol : string) (today : option date) :
  let state0 := check_daily_reset m state (default sys_today today) in
  exists b r state',
    can_trade m sys_today state current_equity symbol today = Ok (b, r, state') /\
    (state' = state0 \/
     (b = false /\ trading_stopped_for_day state0 = false /\
      state' = set_trading_stopped state0) \/
     (b = false /\ safe_mode_after_max_dd m = true /\ state' = set_safe_mode state0)).
Proof.
  intros state0.
  destruct (can_trade_run m sys_today state current_equity symbol today) as (dd & _ & ->).
  fold state0.
  destruct (safe_mode state0 && fle dd (recovery_criteria_pct m)).
  { do 3 eexists. split; [reflexivity | left; reflexivity]. }
  destruct (can_trade_limits_cases m state0 current_equity symbol)
    as (dd' & _ & [(_ & ->) | [(Hs & _ & ->) | [(_ & _ & _ & Ha & ->)
                                               | (_ & _ & _ & b & r & -> & _)]]]);
    do 3 eexists; (split; [reflexivity|]); auto.
Qed.

Lemma counters_agree_can_trade (sys_today : date) (state : PortfolioRiskState)
    (current_equity : Q) (symbol : string) (today : option date) :
  counters_agree state ->
  exists b r state',
    can_trade m sys_today state current_equity symbol today = Ok (b, r, state') /\
    counters_agree state'.
Proof.
  intros Hinv.
  destruct (can_trade_effect sys_today state current_equity symbol today)
    as (b & r & state' & Hrun & Heff).
  exists b, r, state'. split; [exact Hrun|].
  pose proof (counters_agree_reset state (default sys_today today) Hinv) as H0.
  destruct Heff as [-> | [(_ & _ & ->) | (_ & _ & ->)]]; exact H0.
Qed.

Lemma counters_agree_run_calls (cs : list call) (state : PortfolioRiskState) :
  counters_agree state ->
  exists state' outs, run_calls m state cs = Ok (state', outs) /\ counters_agree state'.
Proof.
  revert state. induction cs as [| c rest IH]; intros state Hinv.
  - do 2 eexists. split; [reflexivity | exact Hinv].
  - assert (Hstep : exists s1 out, run_call m state c = Ok (s1, out) /\ counters_agree s1).
    { destruct c as [dt eq | today | sys eq sym today | sym pnl]; simpl.
      - do 2 eexists. split; [reflexivity | exact Hinv].
      - do 2 eexists. split; [reflexivity | apply counters_agree_reset; exact Hinv].
      - destruct (counters_agree_can_trade sys state eq sym today Hinv)
          as (b & r & s1 & -> & H1).
        do 2 eexists. split; [reflexivity | exact H1].
      - do 2 eexists. split; [reflexivity | apply counters_agree_record_trade; exact Hinv]. }
    destruct Hstep as (s1 & out & Hrun & H1).
    destruct (IH s1 H1) as (s2 & outs & Hrest & H2).
    exists s2, (option_list out ++ outs). split; [|exact H2].
    simpl. rewrite Hrun. cbn. rewrite Hrest. reflexivity.
Qed.

Lemma run_calls_no_safe_mode (cs : list call) (state : PortfolioRiskState) :
  safe_mode_after_max_dd m = false -> safe_mode state = false ->
  exists state' outs, run_calls m state cs = Ok (state', outs) /\ safe_mode state' = false.
Proof.
  intros Hflag. revert state. induction cs as [| c rest IH]; intros state Hs.
  - do 2 eexists. split; [reflexivity | exact Hs].
  - assert (Hstep : exists s1 out, run_call m state c = Ok (s1, out) /\ safe_mode s1 = false).
    { destruct c as [dt eq | today | sys eq sym today | sym pnl]; simpl.
      - do 2 eexists. split; [reflexivity | exact Hs].
      - do 2 eexists. split; [reflexivity|]. rewrite check_daily_reset_safe_mode. exact Hs.
      - destruct (can_trade_effect sys state eq sym today)
          as (b & r & s1 & -> & Heff).
        do 2 eexists. split; [reflexivity|].
        destruct Heff as [-> | [(_ & _ & ->) | (_ & Ha & _)]].
        + rewrite check_daily_reset_safe_mode. exact Hs.
        + simpl. rewrite check_daily_reset_safe_mode. exact Hs.
        + rewrite Hflag in Ha. discriminate.
      - do 2 eexists. split; [reflexivity | exact Hs]. }
    destruct Hstep as (s1 & out & Hrun & H1).
    destruct (IH s1 H1) as (s2 & outs & Hrest & H2).
    exists s2, (option_list out ++ outs). split; [|exact H2].
    simpl. rewrite Hrun. cbn. rewrite Hrest. reflexivity.
Qed.

End LedgerInvariants.

(** X17.  What an approval by [can_trade] guarantees.  When [can_trade]
    returns true, the reason is "ok", the state it leaves is the state after
    the daily reset with no latch changed, trading is not stopped for the
    day, the daily P&L is above the loss limit, the daily and per-symbol
    trade counts are below their limits, and the drawdown is above the
    recovery level if safe mode is on and above the maximum drawdown if
    [safe_mode_after_max_dd] is set. *)
Theorem can_trade_approval_conditions (m : PortfolioRisk.PortfolioRiskManager)
    (sys_today : date) (state : PortfolioRisk.PortfolioRiskState) (current_equity : Q)
    (symbol : string) (today : option date) (r : Reason)
    (state' : PortfolioRisk.PortfolioRiskState) :
  PortfolioRisk.can_trade m sys_today state current_equity symbol today
    = Ok (true, r, state') ->
  r = ROk /\
  state' = PortfolioRisk.check_daily_reset m state (default sys_today today) /\
  PortfolioRisk.trading_stopped_for_day state' = false /\
  (PortfolioRisk.daily_loss_limit_pct m < PortfolioRisk.daily_pnl_pct state')%Q /\
  (PortfolioRisk.daily_trade_count state' < PortfolioRisk.max_trades_per_day m)%Z /\
  (default 0%Z (PortfolioRisk.daily_trades_per_symbol state' !! symbol)
     < PortfolioRisk.max_trades_per_symbol_per_day m)%Z /\
  exists dd,
    PortfolioRisk.current_drawdown_pct m state' current_equity = Ok dd /\
    (PortfolioRisk.safe_mode state' = true ->
     (PortfolioRisk.recovery_criteria_pct m < dd)%Q) /\
    (PortfolioRisk.safe_mode_after_max_dd m = true ->
     (PortfolioRisk.max_drawdown_pct m < dd)%Q).
Proof.
  intros Hrun.
  destruct (can_trade_run m sys_today state current_equity symbol today)
    as (dd & Hdd & Hct).
  set (state0 := PortfolioRisk.check_daily_reset m state (default sys_today today)) in *.
  rewrite Hct in Hrun.
  destruct (PortfolioRisk.safe_mode state0 && fle dd (PortfolioRisk.recovery_criteria_pct m))
    eqn:Esafe; [discriminate|].
  destruct (can_trade_limits_cases m state0 current_equity symbol)
    as (dd' & Hdd' & Hcases).
  rewrite Hdd in Hdd'. injection Hdd' as <-.
  destruct Hcases as [(_ & Hlim) | [(_ & _ & Hlim) | [(_ & _ & _ & _ & Hlim)
                     | (Hstop & Hpnl & Hmax & b & r' & Hlim & Hb & Hr)]]];
    rewrite Hlim in Hrun; try discriminate.
  injection Hrun as -> <- <-.
  split; [apply Hr; reflexivity|]. split; [reflexivity|].
  split; [exact Hstop|]. split; [exact Hpnl|].
  destruct (proj1 Hb eq_refl) as [Hcount Hsym].
  split; [exact Hcount|]. split; [exact Hsym|].
  exists dd. split; [exact Hdd|]. split.
  - intros Hs. rewrite Hs in Esafe. simpl in Esafe. apply fle_false. exact Esafe.
  - intros Ha. destruct Hmax as [H | H]; [exact H | rewrite H in Ha; discriminate].
Qed.

(** A fresh ledger with peak 100000 and equity 99000 on its first day. *)
Lemma can_trade_approval_conditions_witness :
  let m := PortfolioRisk.mk_manager (-2) (-10) true (-8) 15 3 in
  let st := PortfolioRisk.mk_state [] 100000 0 0 ∅ None false false in
  let st' := PortfolioRisk.check_daily_reset m st 739000%Z in
  PortfolioRisk.can_trade m 739000%Z st 99000 "SPY" None = Ok (true, ROk, st') /\
  (PortfolioRisk.daily_trade_count st' < PortfolioRisk.max_trades_per_day m)%Z.
Proof.
  intros m st st'.
  assert (Hrun : PortfolioRisk.can_trade m 739000%Z st 99000 "SPY" None
                 = Ok (true, ROk, st')) by (vm_compute; reflexivity).
  split; [exact Hrun|].
  exact (proj1 (proj2 (proj2 (proj2 (proj2
           (can_trade_approval_conditions m 739000%Z st 99000 "SPY" None ROk st' Hrun)))))).
Defined.

(** X18.  [can_trade] returns on every input, and beyond the daily reset it
    changes at most one latch: the state it leaves is the state after
    [check_daily_reset], or that state with [trading_stopped_for_day] set,
    or that state with [safe_mode] set, the last two only together with a
    veto.  The equity curve, the peak, the P&L and the trade counters are
    those the reset left. *)
Theorem can_trade_changes_only_latches (m : PortfolioRisk.PortfolioRiskManager)
    (sys_today : date) (state : PortfolioRisk.PortfolioRiskState) (current_equity : Q)
    (symbol : string) (today : option date) :
  let state0 := PortfolioRisk.check_daily_reset m state (default sys_today today) in
  exists b r state',
    PortfolioRisk.can_trade m sys_today state current_equity symbol today
      = Ok (b, r, state') /\
    (state' = state0 \/
     (b = false /\ state' = PortfolioRisk.set_trading_stopped state0) \/
     (b = false /\ state' = PortfolioRisk.set_safe_mode state0)) /\
    PortfolioRisk.equity_curve state' = PortfolioRisk.equity_curve state /\
    PortfolioRisk.peak_equity state' = PortfolioRisk.peak_equity state /\
    PortfolioRisk.daily_pnl_pct state' = PortfolioRisk.daily_pnl_pct state0 /\
    PortfolioRisk.daily_trade_count state' = PortfolioRisk.daily_trade_count state0 /\
    PortfolioRisk.daily_trades_per_symbol state'
      = PortfolioRisk.daily_trades_per_symbol state0 /\
    PortfolioRisk.last_trade_date state' = Some (default sys_today today).
Proof.
  intros state0.
  destruct (can_trade_effect m sys_today state current_equity symbol today)
    as (b & r & state' & Hrun & Heff). fold state0 in Heff.
  exists b, r, state'. split; [exact Hrun|].
  assert (H0 : PortfolioRisk.equity_curve state0 = PortfolioRisk.equity_curve state /\
               PortfolioRisk.peak_equity state0 = PortfolioRisk.peak_equity state /\
               PortfolioRisk.last_trade_date state0 = Some (default sys_today today)).
  { subst state0. unfold PortfolioRisk.check_daily_reset.
    destruct (bool_decide _) eqn:E; [repeat split|].
    apply bool_decide_eq_false in E.
    repeat split. destruct (decide (PortfolioRisk.last_trade_date state
                                    = Some (default sys_today today))) as [H | H];
      [exact H | destruct (E H)]. }
  destruct H0 as (Hc & Hp & Hd).
  destruct Heff as [-> | [(Hb & _ & ->) | (Hb & _ & ->)]];
    (split; [auto|]); simpl; repeat split; assumption.
Qed.

(** X19.  Counters of the ledger.  After any sequence of [update_equity],
    [check_daily_reset], [can_trade] and [record_trade] calls on a fresh
    state, [daily_trade_count] equals the sum of the per-symbol counts, no
    per-symbol count is negative, and so no symbol's count exceeds the
    daily count. *)
Theorem daily_counters_agree (m : PortfolioRisk.PortfolioRiskManager)
    (cs : list Ledger.call) :
  exists state outs,
    Ledger.run_calls m PortfolioRisk.initial_state cs = Ok (state, outs) /\
    PortfolioRisk.daily_trade_count state
      = per_symbol_total (PortfolioRisk.daily_trades_per_symbol state) /\
    (forall symbol,
       (0 <= default 0%Z (PortfolioRisk.daily_trades_per_symbol state !! symbol)
          <= PortfolioRisk.daily_trade_count state)%Z).
Proof.
  assert (Hinit : counters_agree PortfolioRisk.initial_state).
  { split; simpl; [unfold per_symbol_total; rewrite map_fold_empty; reflexivity|].
    apply map_Forall_empty. }
  destruct (counters_agree_run_calls m cs PortfolioRisk.initial_state Hinit)
    as (state & outs & Hrun & Hsum & Hall).
  exists state, outs. split; [exact Hrun|]. split; [exact Hsum|].
  intros symbol. rewrite Hsum. apply per_symbol_total_ge. exact Hall.
Qed.

(** X20.  Safe mode is entered only through the max-drawdown check of
    [can_trade]: with [safe_mode_after_max_dd] off, no sequence of ledger
    calls ever sets [safe_mode], however deep the drawdown. *)
Theorem safe_mode_needs_flag (m : PortfolioRisk.PortfolioRiskManager)
    (state : PortfolioRisk.PortfolioRiskState) (cs : list Ledger.call) :
  PortfolioRisk.safe_mode_after_max_dd m = false ->
  PortfolioRisk.safe_mode state = false ->
  exists state' outs,
    Ledger.run_calls m state cs = Ok (state', outs) /\
    PortfolioRisk.safe_mode state' = false.
Proof.
  intros Hflag Hs.
  destruct (run_calls_no_safe_mode m cs state Hflag Hs) as (state' & outs & Hrun & Hs').
  exists state', outs. split; [exact Hrun | exact Hs'].
Qed.

(** Peak 100000 and equity 50000, a drawdown of 50%, with the flag off. *)
Lemma safe_mode_needs_flag_witness :
  let m := PortfolioRisk.mk_manager (-2) (-10) false (-8) 15 3 in
  let st := PortfolioRisk.mk_state [] 100000 0 0 ∅ None false false in
  exists state' outs,
    Ledger.run_calls m st [Ledger.CanTrade 739000%Z 50000 "SPY" None]
      = Ok (state', outs) /\
    PortfolioRisk.safe_mode state' = false.
Proof.
  intros m st.
  exact (safe_mode_needs_flag m st [Ledger.CanTrade 739000%Z 50000 "SPY" None]
           eq_refl eq_refl).
Defined.

(** X21.  [TradingEngine.update_equity] updates the ledger exactly as
    [PortfolioRiskManager.update_equity] alone does (raising the peak
    beforehand changes nothing), sets the PDT equity to the new equity, and
    leaves the day-trade dates, the execution state and the configuration
    as they were; the peak afterwards is at least the equity and at least
    the old peak. *)
Theorem engine_update_equity_effect (e : TradingEngine.TradingEngine)
    (utcnow : datetime) (equity : Q) (dt : option datetime) :
  let e' := TradingEngine.update_equity e utcnow equity dt in
  let pr := TradingEngine.st_portfolio_risk (TradingEngine.state e) in
  let pr' := TradingEngine.st_portfolio_risk (TradingEngine.state e') in
  pr' = PortfolioRisk.update_equity (TradingEngine.portfolio_risk e) pr
          (default utcnow dt) equity /\
  Compliance.equity (TradingEngine.st_pdt (TradingEngine.state e')) = equity /\
  Compliance.day_trade_dates (TradingEngine.st_pdt (TradingEngine.state e'))
    = Compliance.day_trade_dates (TradingEngine.st_pdt (TradingEngine.state e)) /\
  TradingEngine.st_execution (TradingEngine.state e')
    = TradingEngine.st_execution (TradingEngine.state e) /\
  e' = TradingEngine.with_state e (TradingEngine.state e') /\
  (equity <= PortfolioRisk.peak_equity pr')%Q /\
  (PortfolioRisk.peak_equity pr <= PortfolioRisk.peak_equity pr')%Q.
Proof.
  intros e' pr pr'. subst e' pr pr'.
  unfold TradingEngine.update_equity, PortfolioRisk.update_equity.
  cbn [TradingEngine.state TradingEngine.with_state TradingEngine.st_portfolio_risk
       TradingEngine.st_pdt TradingEngine.st_execution PortfolioRisk.peak_equity
       PortfolioRisk.equity_curve PortfolioRisk.daily_pnl_pct
       PortfolioRisk.daily_trade_count PortfolioRisk.daily_trades_per_symbol
       PortfolioRisk.last_trade_date PortfolioRisk.safe_mode
       PortfolioRisk.trading_stopped_for_day Compliance.update_equity
       Compliance.equity Compliance.day_trade_dates].
  set (peak := PortfolioRisk.peak_equity
                 (TradingEngine.st_portfolio_risk (TradingEngine.state e))).
  destruct (fgt equity peak) eqn:E.
  - assert (E' : fgt equity equity = false) by (apply fgt_false; apply Qle_refl).
    rewrite E'. apply fgt_spec in E.
    repeat split; [apply Qle_refl | apply Qlt_le_weak; exact E].
  - rewrite E. apply fgt_false in E. repeat split; [exact E | apply Qle_refl].
Qed.

Section CandlestickFacts.
Import Candlestick.

Lemma range_size_pos (row : Bar) : (0 < _range_size row)%Q.
Proof.
  unfold _range_size. cbv zeta.
  destruct (fgt (high row - low row) 0) eqn:E;
    [apply fgt_spec in E; exact E | reflexivity].
Qed.

Lemma iloc_ok (df : DataFrame) (idx : Z) :
  (- Z.of_nat (length df) <= idx < Z.of_nat (length df))%Z ->
  exists row,
    iloc df idx = Ok row /\
    df !! Z.to_nat (if (idx <? 0)%Z then idx + Z.of_nat (length df) else idx)%Z
      = Some row.
Proof.
  intros H. unfold iloc. cbv zeta.
  set (i := if (idx <? 0)%Z then (idx + Z.of_nat (length df))%Z else idx).
  assert (Hi : (0 <= i < Z.of_nat (length df))%Z).
  { subst i. destruct (idx <? 0)%Z eqn:E;
      [apply Z.ltb_lt in E | apply Z.ltb_ge in E]; lia. }
  replace ((i <? 0)%Z || (Z.of_nat (length df) <=? i)%Z) with false
    by (symmetry; apply orb_false_iff; split; [apply Z.ltb_ge | apply Z.leb_gt]; lia).
  destruct (lookup_lt_is_Some_2 df (Z.to_nat i)) as [row Hrow]; [lia|].
  exists row. cbn [orb]. unfold DataFrame in *. rewrite Hrow. split; reflexivity.
Qed.

Lemma iloc_raises (df : DataFrame) (idx : Z) :
  (idx < - Z.of_nat (length df) \/ Z.of_nat (length df) <= idx)%Z ->
  iloc df idx = Raise IndexError.
Proof.
  intros H. unfold iloc. cbv zeta.
  set (i := if (idx <? 0)%Z then (idx + Z.of_nat (length df))%Z else idx).
  assert (Hi : (i < 0 \/ Z.of_nat (length df) <= i)%Z).
  { subst i. destruct (idx <? 0)%Z eqn:E;
      [apply Z.ltb_lt in E | apply Z.ltb_ge in E]; lia. }
  replace ((i <? 0)%Z || (Z.of_nat (length df) <=? i)%Z) with true; [reflexivity|].
  symmetry. apply orb_true_iff.
  destruct Hi as [Hi | Hi]; [left; apply Z.ltb_lt | right; apply Z.leb_le]; exact Hi.
Qed.

Lemma iloc_inv (df : DataFrame) (idx : Z) (row : Bar) :
  iloc df idx = Ok row ->
  (- Z.of_nat (length df) <= idx < Z.of_nat (length df))%Z.
Proof.
  intros H.
  destruct (Z_lt_ge_dec idx (- Z.of_nat (length df))) as [Hlo | Hlo];
    [rewrite iloc_raises in H by lia; discriminate|].
  destruct (Z_lt_ge_dec idx (Z.of_nat (length df))) as [Hhi | Hhi];
    [lia | rewrite iloc_raises in H by lia; discriminate].
Qed.

(** The verdict of [bullish_engulfing] on a current and a previous bar. *)
Lemma bullish_engulfing_rows (rows : DataFrame) (idx : Z) (curr prev : Bar) :
  (2 <= length rows)%nat ->
  iloc rows idx = Ok curr -> iloc rows (idx - 1) = Ok prev ->
  bullish_engulfing (Some rows) idx
  = Ok (fgt (close curr) (open_ curr) && flt (close prev) (open_ prev)
        && fge (close curr) (open_ prev) && fle (open_ curr) (close prev)).
Proof.
  intros Hlen Hc Hp. unfold bullish_engulfing.
  replace (Z.of_nat (length rows) <? 2)%Z with false
    by (symmetry; apply Z.ltb_ge; lia).
  rewrite Hc. run_bind. rewrite Hp. run_bind.
  unfold is_bullish_candle, is_bearish_candle.
  destruct (fgt (close curr) (open_ curr)), (flt (close prev) (open_ prev)); reflexivity.
Qed.

Lemma bullish_engulfing_rows_value (curr prev : Bar) :
  (if negb (is_bullish_candle curr) || negb (is_bearish_candle prev)
   then Ok false
   else Ok (fge (close curr) (open_ prev) && fle (open_ curr) (close prev)))
  = Ok (fgt (close curr) (open_ curr) && flt (close prev) (open_ prev)
        && fge (close curr) (open_ prev) && fle (open_ curr) (close prev)).
Proof.
  unfold is_bullish_candle, is_bearish_candle.
  destruct (fgt (close curr) (open_ curr)), (flt (close prev) (open_ prev)); reflexivity.
Qed.

Lemma body_size_bullish (row : Bar) :
  (open_ row <= close row)%Q -> (_body_size row == close row - open_ row)%Q.
Proof.
  intros H. unfold _body_size. apply Qabs_pos. lra.
Qed.

Lemma body_size_bearish (row : Bar) :
  (close row <= open_ row)%Q -> (_body_size row == open_ row - close row)%Q.
Proof.
  intros H. unfold _body_size.
  rewrite Qabs_neg by lra. lra.
Qed.

Lemma fle_Qeq (x x' y y' : Q) : (x == x')%Q -> (y == y')%Q -> fle x y = fle x' y'.
Proof.
  intros Hx Hy. destruct (fle x' y') eqn:E.
  - apply fle_spec. apply fle_spec in E. rewrite Hx, Hy. exact E.
  - apply fle_false. apply fle_false in E. rewrite Hx, Hy. exact E.
Qed.

Lemma hammer_row (rows : DataFrame) (idx : Z) (ratio : Q) (row : Bar) :
  iloc rows idx = Ok row ->
  hammer (Some rows) idx ratio
  = Ok (fgt (close row) (open_ row)
        && fge (open_ row - low row) ((close row - open_ row) * ratio)
        && fle (high row - close row) ((close row - open_ row) * (1 # 2))).
Proof.
  intros Hrow. unfold hammer.
  pose proof (iloc_inv _ _ _ Hrow) as Hidx.
  replace (Z.of_nat (length rows) <? 1)%Z with false
    by (symmetry; apply Z.ltb_ge; lia).
  rewrite Hrow. run_bind.
  replace (fle (_range_size row) 0) with false
    by (symmetry; apply fle_false; apply range_size_pos).
  cbn [orb]. unfold is_bullish_candle.
  destruct (fgt (close row) (open_ row)) eqn:Ebull.
  - apply fgt_spec in Ebull.
    assert (Hbody : (_body_size row == close row - open_ row)%Q)
      by (apply body_size_bullish; lra).
    replace (fle (_body_size row) 0) with false
      by (symmetry; apply fle_false; rewrite Hbody; lra).
    cbn [andb]. f_equal. unfold fge. f_equal.
    + apply fle_Qeq; [rewrite Hbody; reflexivity|].
      unfold _lower_wick, fmin.
      replace (flt (close row) (open_ row)) with false
        by (symmetry; apply flt_false; lra).
      reflexivity.
    + apply fle_Qeq; [| rewrite Hbody; reflexivity].
      unfold _upper_wick, fmax. apply fgt_spec in Ebull. rewrite Ebull. reflexivity.
  - cbn [andb]. destruct (fle (_body_size row) 0); reflexivity.
Qed.

Lemma doji_row (rows : DataFrame) (idx : Z) (ratio : Q) (row : Bar) :
  iloc rows idx = Ok row ->
  doji_near_support (Some rows) idx ratio
  = Ok (fle (_body_size row) (ratio * _range_size row)).
Proof.
  intros Hrow. unfold doji_near_support.
  pose proof (iloc_inv _ _ _ Hrow) as Hidx.
  replace (Z.of_nat (length rows) <? 1)%Z with false
    by (symmetry; apply Z.ltb_ge; lia).
  rewrite Hrow. run_bind.
  pose proof (range_size_pos row) as Hpos.
  rewrite fdiv_pos by exact Hpos. run_bind.
  replace (fgt (_range_size row) 0) with true by (symmetry; apply fgt_spec; exact Hpos).
  rewrite andb_true_r. f_equal.
  destruct (fle (_body_size row) (ratio * _range_size row)) eqn:E.
  - apply fle_spec. apply fle_spec in E. apply Qle_shift_div_r; assumption.
  - apply fle_false. apply fle_false in E. apply Qlt_shift_div_l; assumption.
Qed.

Lemma detector_last_bar_returns (name : string)
    (fn : option DataFrame -> Z -> result bool) (df : option DataFrame) :
  detectors name = Some fn -> exists b, fn df last_bar = Ok b.
Proof.
  unfold detectors.
  assert (Hlast : forall rows : DataFrame, rows <> [] ->
            exists row, iloc rows last_bar = Ok row).
  { intros rows Hne.
    destruct (iloc_ok rows last_bar) as (row & Hrow & _); [|eauto].
    unfold last_bar. destruct rows; [congruence | cbn [length]; lia]. }
  destruct (String.eqb name "bullish_engulfing");
    [| destruct (String.eqb name "hammer"); [| destruct (String.eqb name "doji")]];
    intros [= <-].
  - destruct df as [rows|]; [|exists false; reflexivity].
    destruct (le_lt_dec 2 (length rows)) as [Hlen | Hlen].
    + destruct (iloc_ok rows last_bar) as (curr & Hc & _); [unfold last_bar; lia|].
      destruct (iloc_ok rows (last_bar - 1)) as (prev & Hp & _); [unfold last_bar; lia|].
      rewrite (bullish_engulfing_rows rows last_bar curr prev Hlen Hc Hp). eauto.
    + exists false. unfold bullish_engulfing.
      replace (Z.of_nat (length rows) <? 2)%Z with true
        by (symmetry; apply Z.ltb_lt; lia).
      reflexivity.
  - destruct df as [[| r rows] |]; [exists false; reflexivity | | exists false; reflexivity].
    destruct (Hlast (r :: rows)) as (row & Hrow); [discriminate|].
    rewrite (hammer_row _ _ _ _ Hrow). eauto.
  - destruct df as [[| r rows] |]; [exists false; reflexivity | | exists false; reflexivity].
    destruct (Hlast (r :: rows)) as (row & Hrow); [discriminate|].
    rewrite (doji_row _ _ _ _ Hrow). eauto.
Qed.

Lemma detect_loop_last_bar (df : option DataFrame) (patterns : list string) :
  exists b,
    detect_loop df patterns last_bar = Ok b /\
    (b = true <->
     exists name fn,
       In name patterns /\ detectors (str_lower (str_strip name)) = Some fn /\
       fn df last_bar = Ok true).
Proof.
  induction patterns as [| name rest IH].
  - exists false. split; [reflexivity|].
    split; [discriminate | intros (? & ? & [] & _)].
  - destruct IH as (b & Hb & Hiff). cbn [detect_loop].
    destruct (detectors (str_lower (str_strip name))) as [fn|] eqn:Efn.
    + destruct (detector_last_bar_returns _ fn df Efn) as (found & Hfound).
      rewrite Hfound. run_bind. destruct found.
      * exists true. split; [reflexivity|]. split; [|reflexivity].
        intros _. exists name, fn. split; [left; reflexivity | split; assumption].
      * exists b. split; [exact Hb|]. rewrite Hiff. split.
        -- intros (n & f & Hin & Hd & Hf). exists n, f. split; [right; exact Hin | auto].
        -- intros (n & f & [<- | Hin] & Hd & Hf).
           ++ rewrite Efn in Hd. injection Hd as <-. rewrite Hfound in Hf. discriminate.
           ++ exists n, f. auto.
    + exists b. split; [exact Hb|]. rewrite Hiff. split.
      * intros (n & f & Hin & Hd & Hf). exists n, f. split; [right; exact Hin | auto].
      * intros (n & f & [<- | Hin] & Hd & Hf).
        -- rewrite Efn in Hd. discriminate.
        -- exists n, f. auto.
Qed.

End CandlestickFacts.

(** X22.  [VolatilityDoNotTrade.check] passes exactly when the filter is
    disabled or neither supplied value exceeds its limit (a value that is
    [None] passes); a pass carries the reason "ok".  When enabled, an ATR%
    above [max_atr_pct] is reported first, a spread above [max_spread_pct]
    only when the ATR% passes. *)
Theorem volatility_dnt_check_result (vd : TradeFilters.VolatilityDoNotTrade)
    (atr_pct spread_pct : option Q) :
  let res := TradeFilters.vol_check vd atr_pct spread_pct in
  let atr_bad := exists a, atr_pct = Some a /\ (TradeFilters.max_atr_pct vd < a)%Q in
  let spread_bad :=
    exists s, spread_pct = Some s /\ (TradeFilters.max_spread_pct vd < s)%Q in
  (TradeFilters.allowed res = true <->
   TradeFilters.vd_enabled vd = false \/ (~ atr_bad /\ ~ spread_bad)) /\
  (TradeFilters.allowed res = true -> TradeFilters.reason res = ROk) /\
  (TradeFilters.vd_enabled vd = true ->
   forall a, atr_pct = Some a -> (TradeFilters.max_atr_pct vd < a)%Q ->
   res = TradeFilters.mk_filter_result false
           (RVolDntAtr a (TradeFilters.max_atr_pct vd))) /\
  (TradeFilters.vd_enabled vd = true -> ~ atr_bad ->
   forall s, spread_pct = Some s -> (TradeFilters.max_spread_pct vd < s)%Q ->
   res = TradeFilters.mk_filter_result false
           (RVolDntSpread s (TradeFilters.max_spread_pct vd))).
Proof.
  intros res atr_bad spread_bad. subst res atr_bad spread_bad.
  unfold TradeFilters.vol_check.
  destruct (TradeFilters.vd_enabled vd); cbn [negb]; cycle 1.
  { split; [split; [left; reflexivity | reflexivity]|].
    split; [reflexivity|]. split; discriminate. }
  cbv zeta.
  destruct atr_pct as [a|].
  - destruct (fgt a (TradeFilters.max_atr_pct vd)) eqn:Ea;
      [apply fgt_spec in Ea | apply fgt_false in Ea].
    + cbn [TradeFilters.allowed TradeFilters.reason].
      split; [split; [discriminate | intros [H | [Ha _]]; [discriminate|]];
              destruct Ha; eauto|].
      split; [discriminate|].
      split; [intros _ a' [= <-] _; reflexivity|].
      intros _ Hna. destruct Hna. eauto.
    + destruct spread_pct as [s|].
      * destruct (fgt s (TradeFilters.max_spread_pct vd)) eqn:Es;
          [apply fgt_spec in Es | apply fgt_false in Es];
          cbn [TradeFilters.allowed TradeFilters.reason].
        -- split; [split; [discriminate | intros [H | [_ Hs]]; [discriminate|]];
                   destruct Hs; eauto|].
           split; [discriminate|].
           split; [intros _ a' [= <-] Hlt; destruct (Qlt_not_le _ _ Hlt Ea)|].
           intros _ _ s' [= <-] _. reflexivity.
        -- split; [split; [intros _; right; split | reflexivity]|].
           ++ intros (a' & [= <-] & Hlt). exact (Qlt_not_le _ _ Hlt Ea).
           ++ intros (s' & [= <-] & Hlt). exact (Qlt_not_le _ _ Hlt Es).
           ++ split; [reflexivity|].
              split; [intros _ a' [= <-] Hlt; destruct (Qlt_not_le _ _ Hlt Ea)|].
              intros _ _ s' [= <-] Hlt. destruct (Qlt_not_le _ _ Hlt Es).
      * cbn [TradeFilters.allowed TradeFilters.reason].
        split; [split; [intros _; right; split | reflexivity]|].
        -- intros (a' & [= <-] & Hlt). exact (Qlt_not_le _ _ Hlt Ea).
        -- intros (s' & [=] & _).
        -- split; [reflexivity|].
           split; [intros _ a' [= <-] Hlt; destruct (Qlt_not_le _ _ Hlt Ea)|].
           intros _ _ s' [=].
  - destruct spread_pct as [s|].
    + destruct (fgt s (TradeFilters.max_spread_pct vd)) eqn:Es;
        [apply fgt_spec in Es | apply fgt_false in Es];
        cbn [TradeFilters.allowed TradeFilters.reason].
      * split; [split; [discriminate | intros [H | [_ Hs]]; [discriminate|]];
                destruct Hs; eauto|].
        split; [discriminate|].
        split; [intros _ a' [=]|].
        intros _ _ s' [= <-] _. reflexivity.
      * split; [split; [intros _; right; split | reflexivity]|].
        -- intros (a' & [=] & _).
        -- intros (s' & [= <-] & Hlt). exact (Qlt_not_le _ _ Hlt Es).
        -- split; [reflexivity|].
           split; [intros _ a' [=]|].
           intros _ _ s' [= <-] Hlt. destruct (Qlt_not_le _ _ Hlt Es).
    + cbn [TradeFilters.allowed TradeFilters.reason].
      split; [split; [intros _; right; split | reflexivity]|].
      * intros (a' & [=] & _).
      * intros (s' & [=] & _).
      * split; [reflexivity|]. split; [intros _ a' [=] | intros _ _ s' [=]].
Qed.




(** X24.  Which bars [bullish_engulfing] compares.  Without a frame or with
    fewer than two rows it returns False.  With [n >= 2] rows it raises
    [IndexError] for [idx >= n] and for [idx <= -n] (at [idx = -n] the
    previous bar is out of range); for [0 < idx < n] it compares row [idx]
    with row [idx - 1], for [-n < idx < 0] row [n + idx] with row
    [n + idx - 1], and for [idx = 0] the first row with the last row, the
    index of the previous bar wrapping around.  It returns True exactly when
    the current bar engulfs the previous one. *)
Theorem bullish_engulfing_index_wraps (rows : DataFrame) (idx : Z) :
  let n := Z.of_nat (length rows) in
  Candlestick.bullish_engulfing None idx = Ok false /\
  ((n < 2)%Z -> Candlestick.bullish_engulfing (Some rows) idx = Ok false) /\
  ((2 <= n)%Z ->
   ((idx <= - n \/ n <= idx)%Z ->
    Candlestick.bullish_engulfing (Some rows) idx = Raise IndexError) /\
   ((- n < idx < n)%Z ->
    exists curr prev b,
      rows !! Z.to_nat (idx mod n) = Some curr /\
      rows !! Z.to_nat ((idx - 1) mod n) = Some prev /\
      Candlestick.bullish_engulfing (Some rows) idx = Ok b /\
      (b = true <-> engulfs curr prev)) /\
   (idx = 0%Z ->
    exists curr prev b,
      head rows = Some curr /\ last rows = Some prev /\
      Candlestick.bullish_engulfing (Some rows) idx = Ok b /\
      (b = true <-> engulfs curr prev))).
Proof.
  intros n.
  assert (Hshape : forall curr prev,
            fgt (close curr) (open_ curr) && flt (close prev) (open_ prev)
            && fge (close curr) (open_ prev) && fle (open_ curr) (close prev) = true
            <-> engulfs curr prev).
  { intros curr prev. unfold engulfs.
    rewrite !andb_true_iff, fgt_spec, flt_spec, fge_spec, fle_spec. tauto. }
  assert (Hin : (2 <= n)%Z -> (- n < idx < n)%Z ->
            exists curr prev b,
              rows !! Z.to_nat (idx mod n) = Some curr /\
              rows !! Z.to_nat ((idx - 1) mod n) = Some prev /\
              Candlestick.bullish_engulfing (Some rows) idx = Ok b /\
              (b = true <-> engulfs curr prev)).
  { intros Hn Hidx.
    destruct (iloc_ok rows idx) as (curr & Hc & Hci); [fold n; lia|].
    destruct (iloc_ok rows (idx - 1)) as (prev & Hp & Hpi); [fold n; lia|].
    fold n in Hci, Hpi.
    exists curr, prev, (fgt (close curr) (open_ curr) && flt (close prev) (open_ prev)
                        && fge (close curr) (open_ prev) && fle (open_ curr) (close prev)).
    split; [|split; [|split]].
    - rewrite <- Hci. f_equal. f_equal.
      destruct (idx <? 0)%Z eqn:E; [apply Z.ltb_lt in E | apply Z.ltb_ge in E].
      + rewrite <- (Z.mod_add idx 1 n) by lia. rewrite Z.mod_small; lia.
      + rewrite Z.mod_small; lia.
    - rewrite <- Hpi. f_equal. f_equal.
      destruct (idx - 1 <? 0)%Z eqn:E; [apply Z.ltb_lt in E | apply Z.ltb_ge in E].
      + rewrite <- (Z.mod_add (idx - 1) 1 n) by lia. rewrite Z.mod_small; lia.
      + rewrite Z.mod_small; lia.
    - apply bullish_engulfing_rows; [subst n; lia | exact Hc | exact Hp].
    - apply Hshape. }
  split; [reflexivity|]. split.
  - intros Hn. unfold Candlestick.bullish_engulfing. fold n.
    replace (n <? 2)%Z with true by (symmetry; apply Z.ltb_lt; exact Hn). reflexivity.
  - intros Hn. split; [|split].
    + intros Hout. unfold Candlestick.bullish_engulfing. fold n.
      replace (n <? 2)%Z with false by (symmetry; apply Z.ltb_ge; exact Hn).
      destruct (Z.eq_dec idx (- n)%Z) as [-> | Hne].
      * destruct (iloc_ok rows (- n)%Z) as (curr & Hc & _); [fold n; lia|].
        rewrite Hc. run_bind.
        rewrite (iloc_raises rows (- n - 1)%Z) by (fold n; lia). reflexivity.
      * rewrite (iloc_raises rows idx) by (fold n; lia). reflexivity.
    + exact (Hin Hn).
    + intros ->.
      destruct (Hin Hn) as (curr & prev & b & Hc & Hp & Hrun & Hb); [lia|].
      exists curr, prev, b.
      split; [rewrite head_lookup, <- Hc; f_equal; rewrite Z.mod_0_l by lia; reflexivity|].
      split; [|split; assumption].
      rewrite last_lookup, <- Hp. f_equal.
      replace ((0 - 1) mod n)%Z with (n - 1)%Z; [subst n; lia|].
      rewrite <- (Z.mod_add (0 - 1) 1 n) by lia. rewrite Z.mod_small; lia.
Qed.

(** X25.  What a [bullish_engulfing] signal means.  When it returns True,
    the bar at [idx] closed above its open, the bar before it closed below
    its open, the current body starts at or below the previous close and
    ends at or above the previous open, and so the current body is at least
    as large as the previous one, which is not empty. *)
Theorem bullish_engulfing_body_covers (rows : DataFrame) (idx : Z) :
  Candlestick.bullish_engulfing (Some rows) idx = Ok true ->
  exists curr prev,
    Candlestick.iloc rows idx = Ok curr /\
    Candlestick.iloc rows (idx - 1) = Ok prev /\
    engulfs curr prev /\
    (0 < Candlestick._body_size prev)%Q /\
    (Candlestick._body_size prev <= Candlestick._body_size curr)%Q.
Proof.
  intros Hrun.
  assert (Hlen : (2 <= length rows)%nat).
  { unfold Candlestick.bullish_engulfing in Hrun.
    destruct (Z.of_nat (length rows) <? 2)%Z eqn:E; [discriminate|].
    apply Z.ltb_ge in E. lia. }
  unfold Candlestick.bullish_engulfing in Hrun.
  replace (Z.of_nat (length rows) <? 2)%Z with false in Hrun
    by (symmetry; apply Z.ltb_ge; lia).
  destruct (Candlestick.iloc rows idx) as [curr|] eqn:Hc; [|discriminate].
  revert Hrun. run_bind.
  destruct (Candlestick.iloc rows (idx - 1)) as [prev|] eqn:Hp; [|discriminate].
  run_bind. intros Hrun.
  rewrite (bullish_engulfing_rows_value curr prev) in Hrun.
  injection Hrun as Hrun.
  rewrite !andb_true_iff, fgt_spec, flt_spec, fge_spec, fle_spec in Hrun.
  destruct Hrun as (((Hbull & Hbear) & Hhi) & Hlo).
  exists curr, prev. split; [reflexivity|]. split; [reflexivity|].
  split; [unfold engulfs; tauto|].
  rewrite (body_size_bearish prev) by lra.
  rewrite (body_size_bullish curr) by lra.
  split; lra.
Qed.

(** A falling bar from 102 to 100 followed by a rising bar from 99 to 103. *)
Lemma bullish_engulfing_body_covers_witness :
  let rows : DataFrame := [mk_bar 102 103 99 100 1000; mk_bar 99 104 98 103 1000] in
  exists curr prev,
    Candlestick.iloc rows Candlestick.last_bar = Ok curr /\
    Candlestick.iloc rows (Candlestick.last_bar - 1) = Ok prev /\
    engulfs curr prev /\
    (0 < Candlestick._body_size prev)%Q /\
    (Candlestick._body_size prev <= Candlestick._body_size curr)%Q.
Proof.
  intros rows.
  exact (bullish_engulfing_body_covers rows Candlestick.last_bar eq_refl).
Defined.

(** X26.  [hammer] returns False without a frame or without rows, raises
    what [df.iloc[idx]] raises, and otherwise returns True exactly when the
    bar closed above its open, its lower wick [open - low] is at least
    [lower_wick_ratio] bodies and its upper wick [high - close] at most half
    a body.  The test [rng <= 0] never fires, [_range_size] being
    positive, so the bar's range plays no part. *)
Theorem hammer_result (df : option DataFrame) (idx : Z) (lower_wick_ratio : Q) :
  match df with
  | None | Some [] => Candlestick.hammer df idx lower_wick_ratio = Ok false
  | Some rows =>
      match Candlestick.iloc rows idx with
      | Raise err => Candlestick.hammer df idx lower_wick_ratio = Raise err
      | Ok row =>
          (0 < Candlestick._range_size row)%Q /\
          exists b,
            Candlestick.hammer df idx lower_wick_ratio = Ok b /\
            (b = true <-> hammer_shape row lower_wick_ratio)
      end
  end.
Proof.
  destruct df as [[| r rows] |]; [reflexivity | | reflexivity].
  destruct (Candlestick.iloc (r :: rows) idx) as [row | err] eqn:Hrow.
  - split; [apply range_size_pos|].
    rewrite (hammer_row _ _ _ _ Hrow). eexists. split; [reflexivity|].
    unfold hammer_shape.
    rewrite !andb_true_iff, fgt_spec, fge_spec, fle_spec. tauto.
  - unfold Candlestick.hammer. cbn [length].
    replace (Z.of_nat (S (length rows)) <? 1)%Z with false
      by (symmetry; apply Z.ltb_ge; lia).
    rewrite Hrow. reflexivity.
Qed.

(** X27.  [doji_near_support] never divides by zero.  It returns False
    without a frame or without rows, raises what [df.iloc[idx]] raises, and
    otherwise returns True exactly when the body [abs(close - open)] is at
    most [body_ratio] times the range [high - low], a range that is not
    positive being replaced by 1e-9; so a bar with [high <= low] is a doji
    only if its body is at most [body_ratio * 1e-9]. *)
Theorem doji_near_support_result (df : option DataFrame) (idx : Z) (body_ratio : Q) :
  match df with
  | None | Some [] => Candlestick.doji_near_support df idx body_ratio = Ok false
  | Some rows =>
      match Candlestick.iloc rows idx with
      | Raise err => Candlestick.doji_near_support df idx body_ratio = Raise err
      | Ok row =>
          exists b,
            Candlestick.doji_near_support df idx body_ratio = Ok b /\
            (b = true <-> doji_shape row body_ratio)
      end
  end.
Proof.
  destruct df as [[| r rows] |]; [reflexivity | | reflexivity].
  destruct (Candlestick.iloc (r :: rows) idx) as [row | err] eqn:Hrow.
  - rewrite (doji_row _ _ _ _ Hrow). eexists. split; [reflexivity|].
    rewrite fle_spec. unfold doji_shape, Candlestick._body_size, Candlestick._range_size.
    cbv zeta.
    destruct (fgt (high row - low row) 0) eqn:E;
      [apply fgt_spec in E | apply fgt_false in E].
    + split; [intros H; left; split; [lra | exact H]|].
      intros [[_ H] | [Hle _]]; [exact H | lra].
    + unfold Candlestick.tiny_range.
      split; [intros H; right; split; [lra | exact H]|].
      intros [[Hlt _] | [_ H]]; [lra | exact H].
  - unfold Candlestick.doji_near_support. cbn [length].
    replace (Z.of_nat (S (length rows)) <? 1)%Z with false
      by (symmetry; apply Z.ltb_ge; lia).
    rewrite Hrow. reflexivity.
Qed.

(** X28.  [detect_any] on the last bar, the index [generate_entry] uses,
    never raises.  It returns True when the list of patterns is empty or the
    frame is missing or has no rows; otherwise it returns True exactly when
    some listed name, stripped and lower-cased, is one of
    "bullish_engulfing", "hammer" (ratio 2.0) and "doji" (ratio 0.15) and
    that detector returns True on the last bar.  Names that are none of
    the three are skipped, so a list of unknown names only gives False. *)
Theorem detect_any_last_bar (df : option DataFrame) (patterns : list string) :
  exists b,
    Candlestick.detect_any df patterns Candlestick.last_bar = Ok b /\
    (patterns = [] \/ df = None \/ df = Some [] -> b = true) /\
    (patterns <> [] -> (exists rows, df = Some rows /\ rows <> []) ->
     (b = true <->
      exists name fn,
        In name patterns /\
        Candlestick.detectors (Candlestick.str_lower (Candlestick.str_strip name))
          = Some fn /\
        fn df Candlestick.last_bar = Ok true) /\
     ((forall name, In name patterns ->
       Candlestick.detectors (Candlestick.str_lower (Candlestick.str_strip name)) = None) ->
      b = false)).
Proof.
  destruct patterns as [| name rest].
  { exists true. split; [reflexivity|]. split; [reflexivity|]. intros H. destruct H. reflexivity. }
  destruct df as [[| r rows] |].
  - exists true. split; [reflexivity|]. split; [reflexivity|].
    intros _ (rows & [= <-] & Hne). destruct Hne. reflexivity.
  - destruct (detect_loop_last_bar (Some (r :: rows)) (name :: rest)) as (b & Hb & Hiff).
    exists b. split.
    + unfold Candlestick.detect_any. cbn [length].
      replace (Z.of_nat (S (length rows)) <? 1)%Z with false
        by (symmetry; apply Z.ltb_ge; lia).
      exact Hb.
    + split.
      * intros [H | [H | H]]; discriminate.
      * intros _ _. split; [exact Hiff|].
        intros Hnone. destruct b; [|reflexivity].
        destruct (proj1 Hiff eq_refl) as (n & fn & Hin & Hd & _).
        rewrite (Hnone n Hin) in Hd. discriminate.
  - exists true. split; [reflexivity|]. split; [reflexivity|].
    intros _ (rows & [=] & _).
Qed.

(** X29.  The universe gate.  [is_eligible] is true exactly when the symbol
    is in the configured list, compared as written, and each liquidity
    figure supplied is at least its minimum.  [run_entry_gates] supplies
    neither figure, so in the pipeline the gate is list membership alone:
    replacing [min_avg_dollar_volume_30d] and [min_atr_multiple_for_volume]
    by any other values changes neither the decision nor the state the call
    leaves. *)
Theorem universe_gate_ignores_liquidity_thresholds
    (entry_filters : Strategy.TrendFollowingStrategy -> option DataFrame ->
                     option Q -> option Q -> result (option (gmap string Q)))
    (e : TradingEngine.TradingEngine) (min_dollar_volume min_atr_multiple : Q)
    (symbol : string) (dt : datetime)
    (account_equity : Q) (current_positions : gmap string (gmap string Q))
    (sector_exposure_pct : gmap string Q) (spread_pct : Q)
    (volume_atr_ratio atr_multiple : option Q) (ohlcv_df : option DataFrame)
    (symbol_sector : option (gmap string string)) :
  (forall (u : Universe.UniverseFilter) (avg_dollar_volume_30d volume_vs_atr : option Q),
     Universe.is_eligible u symbol avg_dollar_volume_30d volume_vs_atr = true <->
     symbol ∈ Universe.symbols u /\
     (forall v, avg_dollar_volume_30d = Some v ->
                (Universe.min_avg_dollar_volume_30d u <= v)%Q) /\
     (forall v, volume_vs_atr = Some v ->
                (Universe.min_atr_multiple_for_volume u <= v)%Q)) /\
  match TradingEngine.run_entry_gates entry_filters e symbol dt account_equity
          current_positions sector_exposure_pct spread_pct volume_atr_ratio
          atr_multiple ohlcv_df symbol_sector,
        TradingEngine.run_entry_gates entry_filters
          (with_liquidity_thresholds e min_dollar_volume min_atr_multiple)
          symbol dt account_equity current_positions sector_exposure_pct spread_pct
          volume_atr_ratio atr_multiple ohlcv_df symbol_sector
  with
  | Ok (d, e1), Ok (d', e2) =>
      d' = d /\ TradingEngine.state e2 = TradingEngine.state e1
  | Raise err, Raise err' => err' = err
  | _, _ => False
  end.
Proof.
  split.
  { intros u adv vva. unfold Universe.is_eligible.
    assert (Hopt : forall (x : option Q) (m : Q),
              match x with Some v => flt v m | None => false end = false
              <-> (forall v, x = Some v -> (m <= v)%Q)).
    { intros [v|] m.
      - rewrite flt_false. split; [intros H x [= <-]; exact H | intros H; apply H; reflexivity].
      - split; [intros _ v [=] | reflexivity]. }
    rewrite <- !Hopt.
    destruct (bool_decide (symbol ∈ Universe.symbols u)) eqn:Ein; cbn [negb].
    - apply bool_decide_eq_true in Ein.
      destruct (match adv with Some v => flt v _ | None => false end);
        destruct (match vva with Some v => flt v _ | None => false end);
        split; try discriminate; try (intros (_ & H1 & H2); discriminate);
        intros; auto.
    - apply bool_decide_eq_false in Ein.
      split; [discriminate | intros (H & _); destruct (Ein H)]. }
  unfold TradingEngine.run_entry_gates, with_liquidity_thresholds,
    TradingEngine.size_and_build, TradingEngine.with_state.
  cbn [TradingEngine.calendar TradingEngine.universe TradingEngine.market_quality
       TradingEngine.strategy TradingEngine.sizer TradingEngine.portfolio_risk
       TradingEngine.execution TradingEngine.compliance TradingEngine.macro_blackout
       TradingEngine.earnings_blackout TradingEngine.volatility_dnt TradingEngine.state
       TradingEngine.st_portfolio_risk TradingEngine.st_execution TradingEngine.st_pdt].
  change (Universe.is_eligible
            (Universe.mk_universe (Universe.symbols (TradingEngine.universe e))
               min_dollar_volume min_atr_multiple) symbol None None)
    with (Universe.is_eligible (TradingEngine.universe e) symbol None None).
  destruct (Universe.is_trading_allowed _ _); cbn [negb]; [|split; reflexivity].
  destruct (TradeFilters.allowed (TradeFilters.check _ _)); cbn [negb];
    [|split; reflexivity].
  destruct (Universe.is_eligible _ _ _ _); cbn [negb]; [|split; reflexivity].
  destruct (TradeFilters.allowed (TradeFilters.earnings_check _ _ _)); cbn [negb];
    [|split; reflexivity].
  destruct (Universe.ok _); cbn [negb]; [|split; reflexivity].
  destruct (Execution.can_trade_spread _ _) as [a6 r6].
  destruct a6; cbn [negb]; [|split; reflexivity].
  destruct (TradeFilters.allowed (TradeFilters.vol_check _ _ _)); cbn [negb];
    [|split; reflexivity].
  destruct (Execution.should_block_strategy _ _); [split; reflexivity|].
  destruct (PortfolioRisk.can_trade _ _ _ _ _ _) as [[[b9 r9] pr9] |]; run_bind;
    [|reflexivity].
  destruct b9; cbn [negb]; [|split; reflexivity].
  destruct (Compliance.can_day_trade _ _ _) as [b10 r10].
  destruct b10; cbn [negb]; [|split; reflexivity].
  destruct (Strategy.generate_entry _ _ _ _ _ _) as [[entry |] |]; run_bind;
    [| split; reflexivity | reflexivity].
  destruct (PositionSizing.total_open_risk_pct _ _ _); run_bind; [|reflexivity].
  destruct (PositionSizing.size_position _ _ _ _ _ _ _ _ _) as [sizing |]; run_bind;
    [|reflexivity].
  destruct (PositionSizing.reject_reason sizing); run_bind; [split; reflexivity|].
  destruct (PositionSizing.would_exceed_max_open_risk _ _ _ _); run_bind;
    [split; reflexivity|].
  destruct (Execution.build_order _ _ _ _ _ _ _); run_bind; split; reflexivity.
Qed.
